(** * AD9833 dual-channel DDS driver: register logic and unit conversion

    A shallow embedding of the driver sources

      - [AD9833_Soft_MSPM0.c] / [AD9833_Soft_MSPM0.h]  (software SPI, TI MSPM0),
      - [AD9833_HAL.c]                                 (hardware SPI, STM32 HAL),
      - [AD9833_HAL.c] v1.0                            (hardware SPI with the
                                                        broadcast chip select and
                                                        the synchronised start),

    together with the properties of the register protocol: shadow control
    registers, frequency and phase conversion, command framing and the
    synchronised start sequence.

    Integers of the C code are [Z] with the width written out ([u16], [not32]);
    a C [double] is an IEEE-754 binary64 value ([spec_float] at precision 53);
    the two file-scope shadow registers and the pins driven by the code form
    the explicit [driver_state]. *)

From Stdlib Require Import ZArith List Lia Bool.
From Stdlib Require Import SpecFloat.
Import ListNotations.
Local Open Scope Z_scope.

(** ** Fixed-width integer helpers *)

(** Storing into a [uint16_t] object. *)
Definition u16 (x : Z) : Z := Z.land x 0xFFFF.

(** [~x] on a 32-bit [unsigned int] (the type of the [1U << n] macros). *)
Definition not32 (x : Z) : Z := Z.lxor x 0xFFFFFFFF.

(** ** Header constants ([AD9833_Soft_MSPM0.h], [AD9833_Soft.h]) *)

Definition FREQ_REG_MAX : Z := 268435456.

Definition AD9833_CTRL_B28     : Z := Z.shiftl 1 13.
Definition AD9833_CTRL_HLB     : Z := Z.shiftl 1 12.
Definition AD9833_CTRL_FSELECT : Z := Z.shiftl 1 11.
Definition AD9833_CTRL_PSELECT : Z := Z.shiftl 1 10.
Definition AD9833_CTRL_RESET   : Z := Z.shiftl 1 8.
Definition AD9833_CTRL_SLEEP1  : Z := Z.shiftl 1 7.
Definition AD9833_CTRL_SLEEP12 : Z := Z.shiftl 1 6.
Definition AD9833_CTRL_OPBITEN : Z := Z.shiftl 1 5.
Definition AD9833_CTRL_DIV2    : Z := Z.shiftl 1 3.
Definition AD9833_CTRL_MODE    : Z := Z.shiftl 1 1.

Definition AD9833_CMD_CTRLREG   : Z := 0x0000.
Definition AD9833_CMD_FREQ0REG  : Z := 0x4000.
Definition AD9833_CMD_FREQ1REG  : Z := 0x8000.
Definition AD9833_CMD_PHASE0REG : Z := 0xC000.
Definition AD9833_CMD_PHASE1REG : Z := 0xE000.

(** The three enumerations are C [enum]s: any [int] can be passed where one
    is expected, so they are integers with named values. *)
Definition workStatus := Z.
Definition CS1_SINGLE     : workStatus := 0.
Definition CS2_SINGLE     : workStatus := 1.
Definition CS1_CS2_DOUBLE : workStatus := 2.

Definition chipChose := Z.
Definition CS1     : chipChose := 1.
Definition CS2     : chipChose := 2.
Definition CS_BOTH : chipChose := 3.

Definition waveType := Z.
Definition SINE_WAVE     : waveType := 1.
Definition TRIANGLE_WAVE : waveType := 2.
Definition SQUARE_WAVE   : waveType := 3.

(** ** The C [double]: IEEE-754 binary64 *)

Module Double.

Definition prec : Z := 53.
Definition emax : Z := 1024.

Definition double := spec_float.

(** The values a [double] object can hold: NaN, the infinities, the zeros
    and the finite numbers with a canonical mantissa and exponent. *)
Definition is_double (x : double) : Prop := valid_binary prec emax x = true.

Definition is_nan (x : double) : bool :=
  match x with S754_nan => true | _ => false end.

Definition zero : double := S754_zero false.

(** An integer constant or an integer converted to [double]. *)
Definition of_Z (n : Z) : double := binary_normalize prec emax n 0 false.

Definition mul : double -> double -> double := SFmul prec emax.
Definition div : double -> double -> double := SFdiv prec emax.
Definition ltb : double -> double -> bool := SFltb.

(** The integral part of a finite value: the fraction is discarded
    (truncation toward zero). *)
Definition Ztrunc (x : double) : option Z :=
  match x with
  | S754_zero _ => Some 0
  | S754_finite s m e =>
      Some (cond_Zopp s (if 0 <=? e then Zpos m * 2 ^ e else Zpos m / 2 ^ (- e)))
  | S754_infinity _ | S754_nan => None
  end.

(** Conversion of a [double] to an unsigned integer type of [w] bits
    (C11 6.3.1.4): the integral part when the type can represent it;
    otherwise the behaviour is undefined, here [None]. *)
Definition to_unsigned (w : Z) (x : double) : option Z :=
  match Ztrunc x with
  | Some z => if (0 <=? z) && (z <? 2 ^ w) then Some z else None
  | None => None
  end.

(** [fmod] of <math.h> (C11 7.12.10.1, F.10.7.1): the exact value
    [x - n*y] with the sign of [x] and magnitude less than that of [y];
    NaN for an infinite [x] or a zero [y]; [x] itself for an infinite [y]. *)
Definition fmod (x y : double) : double :=
  match x, y with
  | S754_nan, _ | _, S754_nan => S754_nan
  | S754_infinity _, _ => S754_nan
  | _, S754_zero _ => S754_nan
  | S754_zero _, _ => x
  | S754_finite _ _ _, S754_infinity _ => x
  | S754_finite sx mx ex, S754_finite _ my ey =>
      let e := Z.min ex ey in
      let r := (Zpos mx * 2 ^ (ex - e)) mod (Zpos my * 2 ^ (ey - e)) in
      binary_normalize prec emax (cond_Zopp sx r) e sx
  end.

End Double.

Import Double.

(** [FREQ_REG_MAX / MCLK]: [const double freqScale = (double)FREQ_REG_MAX / 25000000.0]. *)
Definition freqScale : double := div (of_Z FREQ_REG_MAX) (of_Z 25000000).

(** [#define PI 3.14159265358979323846] of the two headers among the sources,
    as the nearest [double] (lemma [PI_nearest]); the header of the HAL driver
    itself is not among them. *)
Definition PI : double := S754_finite false 0x1921FB54442D18 (-51).

(** ** Unit conversion *)

(** The two [if]s at the head of [AD9833_FreqSet]. *)
Definition freq_clamp (freq : double) : double :=
  let freq := if ltb freq zero then zero else freq in
  if ltb (of_Z 12500000) freq then of_Z 12500000 else freq.

(** [freq_data_raw = (uint32_t)(freq * freqScale); freq_data_raw &= 0x0FFFFFFF]. *)
Definition freq_data_raw (freq : double) : option Z :=
  match to_unsigned 32 (mul (freq_clamp freq) freqScale) with
  | Some raw => Some (Z.land raw 0x0FFFFFFF)
  | None => None
  end.

(** [freq_LSB] and [freq_MSB] of [AD9833_FreqSet]. *)
Definition freq_LSB (raw : Z) : Z := u16 (Z.land raw 0x3FFF).
Definition freq_MSB (raw : Z) : Z := u16 (Z.land (Z.shiftr raw 14) 0x3FFF).

Definition freq_fragments (freq : double) : option (Z * Z) :=
  match freq_data_raw freq with
  | Some raw => Some (freq_LSB raw, freq_MSB raw)
  | None => None
  end.

(** [phase_data_raw = (uint16_t)(fmod(phase, turn) / turn * 4096.0);
    phase_data_raw &= 0x0FFF], where [turn] is [360.0] in the software-SPI
    and v1.0 drivers and [2.0 * PI] in the HAL driver. *)
Definition phase_scaled (turn phase : double) : double :=
  mul (div (fmod phase turn) turn) (of_Z 4096).

Definition phase_data_raw (turn phase : double) : option Z :=
  match to_unsigned 16 (phase_scaled turn phase) with
  | Some raw => Some (u16 (Z.land raw 0x0FFF))
  | None => None
  end.

(** ** Configuration structures *)

Record DDS_InitTypedef := {
  wave     : waveType;
  freq     : double;
  phase    : double;
  freqReg  : Z;      (* uint8_t *)
  phaseReg : Z       (* uint8_t *)
}.

Record AD9833_InitTypedef := {
  status : workStatus;
  AD_CS1 : DDS_InitTypedef;
  AD_CS2 : DDS_InitTypedef
}.

(** ** Driver state: shadow registers and the serial bus *)

(** What the code does to its pins.  One call of [AD9833_Write_Software]
    (sixteen MOSI/SCLK edges, most significant bit first) or of
    [HAL_SPI_Transmit] is recorded as one [SPI_TX] carrying the word. *)
Inductive pin_event :=
  | CS1_L | CS1_H
  | CS2_L | CS2_H
  | SCLK_H
  | SPI_TX (TxData : Z).

Record driver_state := {
  s_control_reg_cs1 : Z;
  s_control_reg_cs2 : Z;
  bus : list pin_event
}.

(** The initialisers of the two file-scope shadow registers: nothing sent yet. *)
Definition power_on : driver_state :=
  {| s_control_reg_cs1 := Z.lor (Z.lor AD9833_CMD_CTRLREG AD9833_CTRL_B28) AD9833_CTRL_RESET;
     s_control_reg_cs2 := Z.lor (Z.lor AD9833_CMD_CTRLREG AD9833_CTRL_B28) AD9833_CTRL_RESET;
     bus := [] |}.

Definition emit (evs : list pin_event) (st : driver_state) : driver_state :=
  {| s_control_reg_cs1 := s_control_reg_cs1 st;
     s_control_reg_cs2 := s_control_reg_cs2 st;
     bus := bus st ++ evs |}.

(** A [uint16_t*] into the shadow store. *)
Inductive shadow_ptr := p_control_reg_cs1 | p_control_reg_cs2.

Definition deref (p : shadow_ptr) (st : driver_state) : Z :=
  match p with
  | p_control_reg_cs1 => s_control_reg_cs1 st
  | p_control_reg_cs2 => s_control_reg_cs2 st
  end.

Definition assign (p : shadow_ptr) (v : Z) (st : driver_state) : driver_state :=
  match p with
  | p_control_reg_cs1 =>
      {| s_control_reg_cs1 := u16 v; s_control_reg_cs2 := s_control_reg_cs2 st; bus := bus st |}
  | p_control_reg_cs2 =>
      {| s_control_reg_cs1 := s_control_reg_cs1 st; s_control_reg_cs2 := u16 v; bus := bus st |}
  end.

(** [*p |= m] and [*p &= ~m]. *)
Definition set_bits (p : shadow_ptr) (m : Z) (st : driver_state) : driver_state :=
  assign p (Z.lor (deref p st) m) st.

Definition clear_bits (p : shadow_ptr) (m : Z) (st : driver_state) : driver_state :=
  assign p (Z.land (deref p st) (not32 m)) st.

(** [AD9833_GetShadowCtrlReg]: [None] is the NULL it returns for any other
    value, the broadcast identity included. *)
Definition AD9833_GetShadowCtrlReg (choice : chipChose) : option shadow_ptr :=
  if choice =? CS1 then Some p_control_reg_cs1
  else if choice =? CS2 then Some p_control_reg_cs2
  else None.

(** ** What each chip receives *)

(** A chip latches the words clocked while its own chip select is low. *)
Inductive chip := ChipA | ChipB.

Definition select_after (c : chip) (low : bool) (ev : pin_event) : bool :=
  match c, ev with
  | ChipA, CS1_L | ChipB, CS2_L => true
  | ChipA, CS1_H | ChipB, CS2_H => false
  | _, _ => low
  end.

Fixpoint latched_from (c : chip) (low : bool) (tr : list pin_event) : list Z :=
  match tr with
  | [] => []
  | SPI_TX w :: tr' =>
      if low then w :: latched_from c low tr' else latched_from c low tr'
  | ev :: tr' => latched_from c (select_after c low ev) tr'
  end.

(** The words chip [c] has received over a bus history (chip selects idle high). *)
Definition latched (c : chip) (tr : list pin_event) : list Z := latched_from c false tr.

(** A word addressed to the control register has D15 = D14 = 0. *)
Definition is_control_word (w : Z) : bool := Z.land w 0xC000 =? AD9833_CMD_CTRLREG.

(** The last control-register word a chip has received, if any. *)
Definition last_control_word (c : chip) (tr : list pin_event) : option Z :=
  last (map Some (filter is_control_word (latched c tr))) None.

Definition shadow_of (c : chip) (st : driver_state) : Z :=
  match c with
  | ChipA => s_control_reg_cs1 st
  | ChipB => s_control_reg_cs2 st
  end.

(** Undefined behaviour of the C code (a null dereference, an out-of-range
    conversion of a [double]) ends the defined part of an execution:
    [Undefined st] keeps the state reached at that point. *)
Inductive outcome :=
  | Returns (st : driver_state)
  | Undefined (st : driver_state).

Definition bind (m : outcome) (k : driver_state -> outcome) : outcome :=
  match m with
  | Returns st => k st
  | Undefined st => Undefined st
  end.

Notation "'do' x <- m ; k" := (bind m (fun x => k))
  (at level 10, x name, m at level 100, k at level 200).

(** ** The channel controller

    The three drivers share the register logic and differ in the transport
    ([AD9833_Write]), in the pins [AD9833_Init] raises first, and in the unit
    of the phase argument (the full turn). *)
Section ChannelController.

Variable AD9833_Write : chipChose -> Z -> driver_state -> driver_state.
Variable init_pins : list pin_event.
Variable full_turn : double.

Definition AD9833_Init (status : workStatus) (st : driver_state) : driver_state :=
  let st := emit init_pins st in
  let st := assign p_control_reg_cs1
              (Z.lor (Z.lor AD9833_CMD_CTRLREG AD9833_CTRL_B28) AD9833_CTRL_RESET) st in
  let st := assign p_control_reg_cs2
              (Z.lor (Z.lor AD9833_CMD_CTRLREG AD9833_CTRL_B28) AD9833_CTRL_RESET) st in
  let st :=
    if status =? CS1_SINGLE then set_bits p_control_reg_cs2 AD9833_CTRL_SLEEP12 st
    else if status =? CS2_SINGLE then set_bits p_control_reg_cs1 AD9833_CTRL_SLEEP12 st
    else if status =? CS1_CS2_DOUBLE then st
    else
      let st := set_bits p_control_reg_cs1 (Z.lor AD9833_CTRL_SLEEP1 AD9833_CTRL_SLEEP12) st in
      set_bits p_control_reg_cs2 (Z.lor AD9833_CTRL_SLEEP1 AD9833_CTRL_SLEEP12) st in
  let st := AD9833_Write CS1 (s_control_reg_cs1 st) st in
  AD9833_Write CS2 (s_control_reg_cs2 st) st.

Definition AD9833_SetWaveformAndStart (choice : chipChose) (wave : waveType)
    (st : driver_state) : driver_state :=
  match AD9833_GetShadowCtrlReg choice with
  | None => st
  | Some pCtrlReg =>
      let st := clear_bits pCtrlReg
                  (Z.lor (Z.lor AD9833_CTRL_MODE AD9833_CTRL_OPBITEN) AD9833_CTRL_DIV2) st in
      let st :=
        if wave =? SINE_WAVE then st
        else if wave =? TRIANGLE_WAVE then set_bits pCtrlReg AD9833_CTRL_MODE st
        else if wave =? SQUARE_WAVE then
          let st := set_bits pCtrlReg AD9833_CTRL_OPBITEN st in
          set_bits pCtrlReg AD9833_CTRL_DIV2 st
        else st in
      let st := clear_bits pCtrlReg AD9833_CTRL_RESET st in
      AD9833_Write choice (deref pCtrlReg st) st
  end.

Definition AD9833_PhaseSet (choice : chipChose) (phase_reg_num : Z) (phase : double)
    (st : driver_state) : outcome :=
  match phase_data_raw full_turn phase with
  | None => Undefined st
  | Some phase_data_raw =>
      if phase_reg_num =? 0 then
        Returns (AD9833_Write choice (Z.lor AD9833_CMD_PHASE0REG phase_data_raw) st)
      else if phase_reg_num =? 1 then
        Returns (AD9833_Write choice (Z.lor AD9833_CMD_PHASE1REG phase_data_raw) st)
      else Returns st
  end.

Definition AD9833_FreqSet (choice : chipChose) (freq_reg_num : Z) (freq : double)
    (st : driver_state) : outcome :=
  match freq_data_raw freq with
  | None => Undefined st
  | Some freq_data_raw =>
      let freq_LSB := freq_LSB freq_data_raw in
      let freq_MSB := freq_MSB freq_data_raw in
      let write_both freq_cmd :=
        let st := AD9833_Write choice (Z.lor freq_cmd freq_LSB) st in
        AD9833_Write choice (Z.lor freq_cmd freq_MSB) st in
      if freq_reg_num =? 0 then Returns (write_both AD9833_CMD_FREQ0REG)
      else if freq_reg_num =? 1 then Returns (write_both AD9833_CMD_FREQ1REG)
      else Returns st
  end.

Definition AD9833_SelectFreqReg (choice : chipChose) (freq_reg_num : Z)
    (st : driver_state) : driver_state :=
  match AD9833_GetShadowCtrlReg choice with
  | None => st
  | Some pCtrlReg =>
      let st := if freq_reg_num =? 0 then clear_bits pCtrlReg AD9833_CTRL_FSELECT st
                else set_bits pCtrlReg AD9833_CTRL_FSELECT st in
      AD9833_Write choice (deref pCtrlReg st) st
  end.

Definition AD9833_SelectPhaseReg (choice : chipChose) (phase_reg_num : Z)
    (st : driver_state) : driver_state :=
  match AD9833_GetShadowCtrlReg choice with
  | None => st
  | Some pCtrlReg =>
      let st := if phase_reg_num =? 0 then clear_bits pCtrlReg AD9833_CTRL_PSELECT st
                else set_bits pCtrlReg AD9833_CTRL_PSELECT st in
      AD9833_Write choice (deref pCtrlReg st) st
  end.

Definition AD9833_Reset (choice : chipChose) (reset_active : Z)
    (st : driver_state) : driver_state :=
  match AD9833_GetShadowCtrlReg choice with
  | None => st
  | Some pCtrlReg =>
      let st := if reset_active =? 0 then clear_bits pCtrlReg AD9833_CTRL_RESET st
                else set_bits pCtrlReg AD9833_CTRL_RESET st in
      AD9833_Write choice (deref pCtrlReg st) st
  end.

Definition AD9833_Sleep (choice : chipChose) (sleep1_active sleep12_active : Z)
    (st : driver_state) : driver_state :=
  match AD9833_GetShadowCtrlReg choice with
  | None => st
  | Some pCtrlReg =>
      let st := if sleep1_active =? 0 then clear_bits pCtrlReg AD9833_CTRL_SLEEP1 st
                else set_bits pCtrlReg AD9833_CTRL_SLEEP1 st in
      let st := if sleep12_active =? 0 then clear_bits pCtrlReg AD9833_CTRL_SLEEP12 st
                else set_bits pCtrlReg AD9833_CTRL_SLEEP12 st in
      AD9833_Write choice (deref pCtrlReg st) st
  end.

(** The statements of [AD9833_Cmd] from [AD9833_Init(...)] on.  The pointer
    is an [option]: [AD_InitStruct->status] through a null pointer is
    undefined. *)
Definition AD9833_Cmd_body (AD_InitStruct : option AD9833_InitTypedef)
    (st : driver_state) : outcome :=
  match AD_InitStruct with
  | None => Undefined st
  | Some s =>
      let st := AD9833_Init (status s) st in
      do st <-
        (if (status s =? CS1_SINGLE) || (status s =? CS1_CS2_DOUBLE) then
           let st := AD9833_SelectFreqReg CS1 (freqReg (AD_CS1 s)) st in
           let st := AD9833_SelectPhaseReg CS1 (phaseReg (AD_CS1 s)) st in
           do st <- AD9833_FreqSet CS1 (freqReg (AD_CS1 s)) (freq (AD_CS1 s)) st;
           do st <- AD9833_PhaseSet CS1 (phaseReg (AD_CS1 s)) (phase (AD_CS1 s)) st;
           Returns (AD9833_SetWaveformAndStart CS1 (wave (AD_CS1 s)) st)
         else Returns st);
      if (status s =? CS2_SINGLE) || (status s =? CS1_CS2_DOUBLE) then
        let st := AD9833_SelectFreqReg CS2 (freqReg (AD_CS2 s)) st in
        let st := AD9833_SelectPhaseReg CS2 (phaseReg (AD_CS2 s)) st in
        do st <- AD9833_FreqSet CS2 (freqReg (AD_CS2 s)) (freq (AD_CS2 s)) st;
        do st <- AD9833_PhaseSet CS2 (phaseReg (AD_CS2 s)) (phase (AD_CS2 s)) st;
        Returns (AD9833_SetWaveformAndStart CS2 (wave (AD_CS2 s)) st)
      else Returns st
  end.

(** The start word of [AD9833_Cmd_Sync]: its [switch] on channel 1's waveform. *)
Definition start_cmd (wave1 : waveType) : Z :=
  let start_cmd := u16 (Z.lor AD9833_CMD_CTRLREG AD9833_CTRL_B28) in
  if wave1 =? TRIANGLE_WAVE then u16 (Z.lor start_cmd AD9833_CTRL_MODE)
  else if wave1 =? SQUARE_WAVE then
    u16 (Z.lor start_cmd (Z.lor AD9833_CTRL_OPBITEN AD9833_CTRL_DIV2))
  else start_cmd.

(** The statements of [AD9833_Cmd_Sync] from the broadcast reset on: the
    reset word is sent before [AD_InitStruct] is first dereferenced. *)
Definition AD9833_Cmd_Sync_body (AD_InitStruct : option AD9833_InitTypedef)
    (st : driver_state) : outcome :=
  let reset_cmd :=
    u16 (Z.lor (Z.lor AD9833_CMD_CTRLREG AD9833_CTRL_B28) AD9833_CTRL_RESET) in
  let st := AD9833_Write CS_BOTH reset_cmd st in
  match AD_InitStruct with
  | None => Undefined st
  | Some s =>
      let st := AD9833_SelectFreqReg CS1 (freqReg (AD_CS1 s)) st in
      do st <- AD9833_FreqSet CS1 (freqReg (AD_CS1 s)) (freq (AD_CS1 s)) st;
      let st := AD9833_SelectPhaseReg CS1 (phaseReg (AD_CS1 s)) st in
      do st <- AD9833_PhaseSet CS1 (phaseReg (AD_CS1 s)) (phase (AD_CS1 s)) st;
      let st := AD9833_SelectFreqReg CS2 (freqReg (AD_CS2 s)) st in
      do st <- AD9833_FreqSet CS2 (freqReg (AD_CS2 s)) (freq (AD_CS2 s)) st;
      let st := AD9833_SelectPhaseReg CS2 (phaseReg (AD_CS2 s)) st in
      do st <- AD9833_PhaseSet CS2 (phaseReg (AD_CS2 s)) (phase (AD_CS2 s)) st;
      Returns (AD9833_Write CS_BOTH (start_cmd (wave (AD_CS1 s))) st)
  end.

End ChannelController.

(** ** The software-SPI driver ([AD9833_Soft_MSPM0.c]) *)
Module Soft.

(** [AD9833_Write_Software]: the word is shifted out on MOSI/SCLK. *)
Definition AD9833_Write_Software (TxData : Z) : list pin_event := [SPI_TX TxData].

Definition AD9833_Write (choice : chipChose) (TxData : Z) (st : driver_state) : driver_state :=
  if choice =? CS1 then
    emit ([CS1_L] ++ AD9833_Write_Software TxData ++ [CS1_H]) st
  else if choice =? CS2 then
    emit ([CS2_L] ++ AD9833_Write_Software TxData ++ [CS2_H]) st
  else if choice =? CS_BOTH then
    emit ([CS1_L; CS2_L] ++ AD9833_Write_Software TxData ++ [CS1_H; CS2_H]) st
  else st.

Definition init_pins : list pin_event := [CS1_H; CS2_H; SCLK_H].
Definition full_turn : double := of_Z 360.

Definition AD9833_Init := AD9833_Init AD9833_Write init_pins.
Definition AD9833_SetWaveformAndStart := AD9833_SetWaveformAndStart AD9833_Write.
Definition AD9833_PhaseSet := AD9833_PhaseSet AD9833_Write full_turn.
Definition AD9833_FreqSet := AD9833_FreqSet AD9833_Write.
Definition AD9833_SelectFreqReg := AD9833_SelectFreqReg AD9833_Write.
Definition AD9833_SelectPhaseReg := AD9833_SelectPhaseReg AD9833_Write.
Definition AD9833_Reset := AD9833_Reset AD9833_Write.
Definition AD9833_Sleep := AD9833_Sleep AD9833_Write.

(** Neither entry point tests its argument before using it. *)
Definition AD9833_Cmd (AD_InitStruct : option AD9833_InitTypedef) :=
  AD9833_Cmd_body AD9833_Write init_pins full_turn AD_InitStruct.

Definition AD9833_Cmd_Sync (AD_InitStruct : option AD9833_InitTypedef) :=
  AD9833_Cmd_Sync_body AD9833_Write full_turn AD_InitStruct.

End Soft.

(** The structure of the hardware-SPI drivers also carries the SPI handle
    ([AD_InitStruct->hspi]); its header is not among the sources, the fields
    are those the code reads. *)
Definition SPI_HandleTypeDef := unit.

Record HAL_InitTypedef := {
  hspi : option SPI_HandleTypeDef;       (* SPI_HandleTypeDef* *)
  HAL_cfg : AD9833_InitTypedef
}.

(** [if (!AD_InitStruct || !AD_InitStruct->hspi) return;] lets through only
    a structure that is present and holds a handle. *)
Definition hal_usable (AD_InitStruct : option HAL_InitTypedef) : option AD9833_InitTypedef :=
  match AD_InitStruct with
  | Some s => match hspi s with Some _ => Some (HAL_cfg s) | None => None end
  | None => None
  end.

(** ** The hardware-SPI driver ([AD9833_HAL.c]) *)
Module HAL.

(** [HAL_SPI_Transmit] of [data[0]], [data[1]]: the high byte, then the low byte. *)
Definition HAL_SPI_Transmit (TxData : Z) : list pin_event :=
  let data0 := Z.land (Z.shiftr TxData 8) 0xFF in
  let data1 := Z.land TxData 0xFF in
  [SPI_TX (Z.lor (Z.shiftl data0 8) data1)].

(** Only the two single chip selects are handled. *)
Definition AD9833_Write (choice : chipChose) (TxData : Z) (st : driver_state) : driver_state :=
  if choice =? CS1 then
    emit ([CS1_L] ++ HAL_SPI_Transmit TxData ++ [CS1_H]) st
  else if choice =? CS2 then
    emit ([CS2_L] ++ HAL_SPI_Transmit TxData ++ [CS2_H]) st
  else st.

Definition init_pins : list pin_event := [CS1_H; CS2_H].
Definition full_turn : double := mul (of_Z 2) PI.

Definition AD9833_Init := AD9833_Init AD9833_Write init_pins.
Definition AD9833_SetWaveformAndStart := AD9833_SetWaveformAndStart AD9833_Write.
Definition AD9833_PhaseSet := AD9833_PhaseSet AD9833_Write full_turn.
Definition AD9833_FreqSet := AD9833_FreqSet AD9833_Write.
Definition AD9833_SelectFreqReg := AD9833_SelectFreqReg AD9833_Write.
Definition AD9833_SelectPhaseReg := AD9833_SelectPhaseReg AD9833_Write.
Definition AD9833_Reset := AD9833_Reset AD9833_Write.
Definition AD9833_Sleep := AD9833_Sleep AD9833_Write.

Definition AD9833_Cmd (AD_InitStruct : option HAL_InitTypedef)
    (st : driver_state) : outcome :=
  match hal_usable AD_InitStruct with
  | None => Returns st
  | Some s => AD9833_Cmd_body AD9833_Write init_pins full_turn (Some s) st
  end.

End HAL.

(** ** The hardware-SPI driver with broadcast ([AD9833_HAL.c] v1.0) *)
Module HAL_v1.

(** [HAL_SPI_Transmit] of one data item at the address of [TxData]: one
    16-bit frame. *)
Definition HAL_SPI_Transmit (TxData : Z) : list pin_event := [SPI_TX TxData].

Definition AD9833_Write (choice : chipChose) (TxData : Z) (st : driver_state) : driver_state :=
  if choice =? CS1 then
    emit ([CS1_L] ++ HAL_SPI_Transmit TxData ++ [CS1_H]) st
  else if choice =? CS2 then
    emit ([CS2_L] ++ HAL_SPI_Transmit TxData ++ [CS2_H]) st
  else if choice =? CS_BOTH then
    emit ([CS1_L; CS2_L] ++ HAL_SPI_Transmit TxData ++ [CS1_H; CS2_H]) st
  else st.

Definition init_pins : list pin_event := [CS1_H; CS2_H].
Definition full_turn : double := of_Z 360.

Definition AD9833_Cmd (AD_InitStruct : option HAL_InitTypedef)
    (st : driver_state) : outcome :=
  match hal_usable AD_InitStruct with
  | None => Returns st
  | Some s => AD9833_Cmd_body AD9833_Write init_pins full_turn (Some s) st
  end.

Definition AD9833_Cmd_Sync (AD_InitStruct : option HAL_InitTypedef)
    (st : driver_state) : outcome :=
  match hal_usable AD_InitStruct with
  | None => Returns st
  | Some s => AD9833_Cmd_Sync_body AD9833_Write full_turn (Some s) st
  end.

End HAL_v1.

(** ** Vocabulary of the statements *)

(** The bit positions of the control-register masks. *)
Definition B28_bit     : Z := 13.
Definition FSELECT_bit : Z := 11.
Definition PSELECT_bit : Z := 10.
Definition RESET_bit   : Z := 8.
Definition SLEEP1_bit  : Z := 7.
Definition SLEEP12_bit : Z := 6.
Definition OPBITEN_bit : Z := 5.
Definition DIV2_bit    : Z := 3.
Definition MODE_bit    : Z := 1.

(** The pins of one word sent to the chip behind a shadow register. *)
Definition single_frame (p : shadow_ptr) (w : Z) : list pin_event :=
  match p with
  | p_control_reg_cs1 => [CS1_L; SPI_TX w; CS1_H]
  | p_control_reg_cs2 => [CS2_L; SPI_TX w; CS2_H]
  end.

(** The pins of one word broadcast to both chips. *)
Definition broadcast_frame (w : Z) : list pin_event :=
  [CS1_L; CS2_L; SPI_TX w; CS1_H; CS2_H].

(** The shadow register of the other chip. *)
Definition other (p : shadow_ptr) : shadow_ptr :=
  match p with
  | p_control_reg_cs1 => p_control_reg_cs2
  | p_control_reg_cs2 => p_control_reg_cs1
  end.

(** What one call does to the shadow register [p] of the addressed chip:
    the three waveform bits hold the combination of [wave], RESET is clear,
    every other bit is kept, the other chip's shadow is untouched, and the
    new word goes out once, framed by that chip's select line. *)
Definition waveform_started (p : shadow_ptr) (wave : waveType)
    (st st' : driver_state) : Prop :=
  Z.testbit (deref p st') MODE_bit = (wave =? TRIANGLE_WAVE) /\
  Z.testbit (deref p st') OPBITEN_bit = (wave =? SQUARE_WAVE) /\
  Z.testbit (deref p st') DIV2_bit = (wave =? SQUARE_WAVE) /\
  Z.testbit (deref p st') RESET_bit = false /\
  (forall n, 0 <= n < 16 ->
     n <> MODE_bit -> n <> OPBITEN_bit -> n <> DIV2_bit -> n <> RESET_bit ->
     Z.testbit (deref p st') n = Z.testbit (deref p st) n) /\
  0 <= deref p st' < 2 ^ 16 /\
  deref (other p) st' = deref (other p) st /\
  bus st' = bus st ++ single_frame p (deref p st').

(** The shadow pair [AD9833_Init] leaves for an operating mode. *)
Definition init_shadows (status : workStatus) : Z * Z :=
  let dflt := Z.lor AD9833_CTRL_B28 AD9833_CTRL_RESET in
  if status =? CS1_SINGLE then (dflt, Z.lor dflt AD9833_CTRL_SLEEP12)
  else if status =? CS2_SINGLE then (Z.lor dflt AD9833_CTRL_SLEEP12, dflt)
  else if status =? CS1_CS2_DOUBLE then (dflt, dflt)
  else (Z.lor dflt (Z.lor AD9833_CTRL_SLEEP1 AD9833_CTRL_SLEEP12),
        Z.lor dflt (Z.lor AD9833_CTRL_SLEEP1 AD9833_CTRL_SLEEP12)).

(** The conversion as the specification words it, on a whole number of
    hertz: clamp to [0, 12.5 MHz], [raw = round(freqHz * 2^28 / 25000000)]
    (to the nearest integer), mask to 28 bits, split into bits 0-13 and
    bits 14-27. *)
Definition spec_round_div (a b : Z) : Z := (2 * a + b) / (2 * b).

Definition spec_frequencyToTuningWord (freqHz : Z) : Z * Z :=
  let clamped := Z.min (Z.max freqHz 0) 12500000 in
  let raw := Z.land (spec_round_div (clamped * 2 ^ 28) 25000000) (2 ^ 28 - 1) in
  (Z.land raw (2 ^ 14 - 1), Z.land (Z.shiftr raw 14) (2 ^ 14 - 1)).

(** [-(90 + 45/1024)] degrees and its equivalent in the first turn. *)
Definition minus_90_and_half_step : double := binary_normalize prec emax (-92205) (-10) false.
Definition plus_270_less_half_step : double := binary_normalize prec emax 276435 (-10) false.

(** A Sine channel on frequency and phase register 0, and a configuration
    of two such channels (1 kHz at 0 degrees, 2 kHz at 90 degrees). *)
Definition sine_bank0 (hz deg : Z) : DDS_InitTypedef :=
  {| wave := SINE_WAVE; freq := of_Z hz; phase := of_Z deg; freqReg := 0; phaseReg := 0 |}.

Definition both_sine : AD9833_InitTypedef :=
  {| status := CS1_CS2_DOUBLE; AD_CS1 := sine_bank0 1000 0; AD_CS2 := sine_bank0 2000 90 |}.


(** The state an execution ends in, or reaches before it goes undefined. *)
Definition run (o : outcome) : driver_state :=
  match o with Returns st | Undefined st => st end.

(** The command prefix of a frequency or phase register number. *)
Definition freq_cmd (freq_reg_num : Z) : Z :=
  if freq_reg_num =? 0 then AD9833_CMD_FREQ0REG else AD9833_CMD_FREQ1REG.

Definition phase_cmd (phase_reg_num : Z) : Z :=
  if phase_reg_num =? 0 then AD9833_CMD_PHASE0REG else AD9833_CMD_PHASE1REG.

(** The control word after a bank selection: the select bit [mask] cleared
    for register 0 and set for any other number. *)
Definition select_word (mask reg s : Z) : Z :=
  if reg =? 0 then u16 (Z.land s (not32 mask)) else u16 (Z.lor s mask).

(** The words [AD9833_FreqSet] and [AD9833_PhaseSet] send for a register
    number: none when it is neither 0 nor 1. *)
Definition freq_words (reg low14 high14 : Z) : list Z :=
  if (reg =? 0) || (reg =? 1)
  then [Z.lor (freq_cmd reg) low14; Z.lor (freq_cmd reg) high14] else [].

Definition phase_words (reg w : Z) : list Z :=
  if (reg =? 0) || (reg =? 1) then [Z.lor (phase_cmd reg) w] else [].


(** A list of words sent one after the other to one chip. *)
Definition frames (p : shadow_ptr) (ws : list Z) : list pin_event :=
  flat_map (single_frame p) ws.

(** The chip a shadow register mirrors. *)
Definition chip_of (p : shadow_ptr) : chip :=
  match p with p_control_reg_cs1 => ChipA | p_control_reg_cs2 => ChipB end.

(** The masks the driver sets and clears leave D15 and D14 alone. *)
Definition control_mask (m : Z) : Prop :=
  Z.testbit m 14 = false /\ Z.testbit m 15 = false.

(** The invariant of the shadow store: both chip selects idle, and for each
    chip the shadow is a control word and is the last control word the chip
    has received. *)
Definition in_sync (st : driver_state) : Prop :=
  forall c,
    fold_left (select_after c) (bus st) false = false /\
    is_control_word (shadow_of c st) = true /\
    last_control_word c (bus st) = Some (shadow_of c st).

(** ** The software-SPI transfer at pin level *)

Module Wire.

(** One write to the clock or the data line ([AD9833_SCLK_H()], [AD9833_MOSI_L()], ...). *)
Inductive pin_write := MOSI_H | MOSI_L | SCLK_L | SCLK_H.

(** The [for] loop of [AD9833_Write_Software] with [n] iterations left: the
    data line takes bit 15 of [TxData], the clock falls, [TxData] is shifted
    left within its sixteen bits, the clock rises. *)
Fixpoint shift_out (n : nat) (TxData : Z) : list pin_write :=
  match n with
  | O => []
  | S n' =>
      (if negb (Z.land TxData 0x8000 =? 0) then MOSI_H else MOSI_L)
        :: SCLK_L :: SCLK_H :: shift_out n' (u16 (Z.shiftl TxData 1))
  end.

Definition AD9833_Write_Software (TxData : Z) : list pin_write := shift_out 16 TxData.

(** The level of the data line at each falling edge of the clock, given the
    levels of the two lines before the first write. *)
Fixpoint falling_edges (sclk mosi : bool) (ws : list pin_write) : list bool :=
  match ws with
  | [] => []
  | MOSI_H :: ws' => falling_edges sclk true ws'
  | MOSI_L :: ws' => falling_edges sclk false ws'
  | SCLK_L :: ws' =>
      if sclk then mosi :: falling_edges false mosi ws' else falling_edges false mosi ws'
  | SCLK_H :: ws' => falling_edges true mosi ws'
  end.

(** The level of the clock line after a sequence of writes. *)
Definition clock_after (sclk : bool) (ws : list pin_write) : bool :=
  fold_left (fun lvl w => match w with SCLK_L => false | SCLK_H => true | _ => lvl end) ws sclk.

(** The number received most significant bit first. *)
Definition word_of_bits (bs : list bool) : Z :=
  fold_left (fun acc (b : bool) => 2 * acc + Z.b2z b) bs 0.

(** Bits 15 down to [16 - n] of a word, the most significant first. *)
Definition top_bits (n : nat) (w : Z) : list bool :=
  map (fun i => Z.testbit w (15 - Z.of_nat i)) (seq 0 n).

End Wire.

(** ** Vocabulary of the further properties *)

(** What a control operation does through the shadow register [p] of the
    addressed chip: each listed bit takes its listed value, every other bit
    is kept, the other chip's shadow is untouched, and the new word goes out
    once, framed by that chip's select line. *)
Definition shadow_bits_written (p : shadow_ptr) (written : list (Z * bool))
    (st st' : driver_state) : Prop :=
  (forall b v, In (b, v) written -> Z.testbit (deref p st') b = v) /\
  (forall n, 0 <= n < 16 -> ~ In n (map fst written) ->
     Z.testbit (deref p st') n = Z.testbit (deref p st) n) /\
  0 <= deref p st' < 2 ^ 16 /\
  deref (other p) st' = deref (other p) st /\
  bus st' = bus st ++ single_frame p (deref p st').

(** A C condition on an integer: any value but 0 counts as true. *)
Definition nonzero (x : Z) : bool := negb (x =? 0).

(** The control word [AD9833_SetWaveformAndStart] leaves in a shadow that
    held [s]. *)
Definition start_word (wave : waveType) (s : Z) : Z :=
  let s := u16 (Z.land s (not32 (Z.lor (Z.lor AD9833_CTRL_MODE AD9833_CTRL_OPBITEN)
                                       AD9833_CTRL_DIV2))) in
  let s :=
    if wave =? SINE_WAVE then s
    else if wave =? TRIANGLE_WAVE then u16 (Z.lor s AD9833_CTRL_MODE)
    else if wave =? SQUARE_WAVE then
      u16 (Z.lor (u16 (Z.lor s AD9833_CTRL_OPBITEN)) AD9833_CTRL_DIV2)
    else s in
  u16 (Z.land s (not32 AD9833_CTRL_RESET)).

(** The control word after the two bank selections of a channel. *)
Definition selected_word (s : Z) (cfg : DDS_InitTypedef) : Z :=
  select_word AD9833_CTRL_PSELECT (phaseReg cfg)
    (select_word AD9833_CTRL_FSELECT (freqReg cfg) s).

(** The words [AD9833_Cmd] sends an active channel after [AD9833_Init]: the
    two bank selections, the frequency (low, high), the phase, the start. *)
Definition configured_words (s : Z) (cfg : DDS_InitTypedef) (low14 high14 w : Z) : list Z :=
  [select_word AD9833_CTRL_FSELECT (freqReg cfg) s; selected_word s cfg]
  ++ freq_words (freqReg cfg) low14 high14
  ++ phase_words (phaseReg cfg) w
  ++ [start_word (wave cfg) (selected_word s cfg)].

(** The two conditions of [AD9833_Cmd] on the operating mode. *)
Definition channel1_active (status : workStatus) : bool :=
  (status =? CS1_SINGLE) || (status =? CS1_CS2_DOUBLE).

Definition channel2_active (status : workStatus) : bool :=
  (status =? CS2_SINGLE) || (status =? CS1_CS2_DOUBLE).

(** ** Sequences of driver calls *)

(** The functions declared in [AD9833_Soft_MSPM0.h], as a client calls them. *)
Inductive call :=
  | Call_Init (status : workStatus)
  | Call_Write (choice : chipChose) (TxData : Z)
  | Call_PhaseSet (choice : chipChose) (phase_reg_num : Z) (phase : double)
  | Call_FreqSet (choice : chipChose) (freq_reg_num : Z) (freq : double)
  | Call_SetWaveformAndStart (choice : chipChose) (wave : waveType)
  | Call_Cmd (AD_InitStruct : option AD9833_InitTypedef)
  | Call_SelectFreqReg (choice : chipChose) (freq_reg_num : Z)
  | Call_SelectPhaseReg (choice : chipChose) (phase_reg_num : Z)
  | Call_Reset (choice : chipChose) (reset_active : Z)
  | Call_Sleep (choice : chipChose) (sleep1_active sleep12_active : Z)
  | Call_Cmd_Sync (AD_InitStruct : option AD9833_InitTypedef).

Definition exec (c : call) (st : driver_state) : outcome :=
  match c with
  | Call_Init status => Returns (Soft.AD9833_Init status st)
  | Call_Write choice TxData => Returns (Soft.AD9833_Write choice TxData st)
  | Call_PhaseSet choice n phase => Soft.AD9833_PhaseSet choice n phase st
  | Call_FreqSet choice n freq => Soft.AD9833_FreqSet choice n freq st
  | Call_SetWaveformAndStart choice wave =>
      Returns (Soft.AD9833_SetWaveformAndStart choice wave st)
  | Call_Cmd s => Soft.AD9833_Cmd s st
  | Call_SelectFreqReg choice n => Returns (Soft.AD9833_SelectFreqReg choice n st)
  | Call_SelectPhaseReg choice n => Returns (Soft.AD9833_SelectPhaseReg choice n st)
  | Call_Reset choice a => Returns (Soft.AD9833_Reset choice a st)
  | Call_Sleep choice a b => Returns (Soft.AD9833_Sleep choice a b st)
  | Call_Cmd_Sync s => Soft.AD9833_Cmd_Sync s st
  end.

(** One call after the other; undefined behaviour ends the execution. *)
Fixpoint exec_all (cs : list call) (st : driver_state) : outcome :=
  match cs with
  | [] => Returns st
  | c :: cs' => do st' <- exec c st; exec_all cs' st'
  end.

(** A call of the transport itself, which goes past the shadow registers. *)
Definition raw_write (c : call) : bool :=
  match c with Call_Write _ _ => true | _ => false end.

(** A call that sends control words the shadows do not record. *)
Definition bypasses_shadow (c : call) : bool :=
  match c with Call_Write _ _ | Call_Cmd_Sync _ => true | _ => false end.

(** What the driver puts on the bus as a unit: the idle levels of
    [AD9833_Init], a word framed for one chip, a word framed for both. *)
Inductive bus_item :=
  | Idle_lines
  | Frame (p : shadow_ptr) (w : Z)
  | Broadcast (w : Z).

Definition item_pins (i : bus_item) : list pin_event :=
  match i with
  | Idle_lines => Soft.init_pins
  | Frame p w => single_frame p w
  | Broadcast w => broadcast_frame w
  end.

(** The word an item delivers to a chip, if any. *)
Definition item_word (c : chip) (i : bus_item) : list Z :=
  match i, c with
  | Frame p_control_reg_cs1 w, ChipA | Frame p_control_reg_cs2 w, ChipB => [w]
  | Broadcast w, _ => [w]
  | _, _ => []
  end.

(** The bits of a control word the driver never sets: the register address
    D15/D14, HLB, and the reserved D9, D4, D2 and D0. *)
Definition never_set_bits : list Z := [15; 14; 12; 9; 4; 2; 0].

(** A control word with B28 set and none of those bits. *)
Definition conforming (w : Z) : bool :=
  Z.testbit w B28_bit && forallb (fun n => negb (Z.testbit w n)) never_set_bits.

(** The bank-select and waveform bits of a channel's configuration. *)
Definition bank_bits (cfg : DDS_InitTypedef) : Z :=
  (if freqReg cfg =? 0 then 0 else AD9833_CTRL_FSELECT) +
  (if phaseReg cfg =? 0 then 0 else AD9833_CTRL_PSELECT).

Definition wave_bits (wave : waveType) : Z :=
  if wave =? TRIANGLE_WAVE then AD9833_CTRL_MODE
  else if wave =? SQUARE_WAVE then AD9833_CTRL_OPBITEN + AD9833_CTRL_DIV2
  else 0.

(** One channel on frequency register 1 and phase register 1, and a
    configuration that runs it alone on chip 1; channel 2 is left with a
    frequency that is not a number. *)
Definition square_bank1 : DDS_InitTypedef :=
  {| wave := SQUARE_WAVE; freq := of_Z 1000000; phase := of_Z 180; freqReg := 1; phaseReg := 1 |}.

Definition chip1_alone : AD9833_InitTypedef :=
  {| status := CS1_SINGLE; AD_CS1 := square_bank1;
     AD_CS2 := {| wave := 0; freq := S754_nan; phase := S754_nan; freqReg := 0; phaseReg := 0 |} |}.

(** The bus history of [st'] continues that of [st] with whole items. *)
Definition bus_extended (st st' : driver_state) : Prop :=
  exists items, bus st' = bus st ++ flat_map item_pins items.

(** Both shadows conform; in the strict reading every control word put on
    the bus so far conforms as well. *)
Definition hygienic (strict : bool) (st : driver_state) : Prop :=
  conforming (s_control_reg_cs1 st) = true /\
  conforming (s_control_reg_cs2 st) = true /\
  (strict = true ->
   forall w, In (SPI_TX w) (bus st) -> is_control_word w = true -> conforming w = true).

(** A mask the driver may set: it has none of the bits that are never set. *)
Definition settable (m : Z) : bool := forallb (fun n => negb (Z.testbit m n)) never_set_bits.

(** The two together, for a state reached from [st0]. *)
Definition kept (strict : bool) (st0 st : driver_state) : Prop :=
  bus_extended st0 st /\ hygienic strict st.

(** The register address of a word: D15 and D14. *)
Definition register_address (w : Z) : Z := Z.land w 0xC000.

(** The 28-bit value a frequency register takes from two consecutive writes
    while B28 is set: the first carries the fourteen low bits, the second the
    fourteen high bits. *)
Definition loaded_frequency (w1 w2 : Z) : Z :=
  Z.land w1 0x3FFF + 2 ^ 14 * Z.land w2 0x3FFF.

(** * Properties *)

(** ** Bits of 16-bit words *)

Lemma u16_mod (x : Z) : u16 x = x mod 2 ^ 16.
Proof. unfold u16. change 0xFFFF with (Z.ones 16). apply Z.land_ones. lia. Qed.

Lemma u16_range (x : Z) : 0 <= u16 x < 2 ^ 16.
Proof. rewrite u16_mod. apply Z.mod_pos_bound. lia. Qed.

Lemma u16_small (x : Z) : 0 <= x < 2 ^ 16 -> u16 x = x.
Proof. intros H. rewrite u16_mod. apply Z.mod_small. exact H. Qed.

Lemma testbit_u16 (x n : Z) :
  0 <= n -> Z.testbit (u16 x) n = Z.testbit x n && (n <? 16).
Proof.
  intros Hn. unfold u16. change 0xFFFF with (Z.ones 16).
  rewrite Z.land_spec. f_equal.
  destruct (Z.ltb_spec n 16).
  - apply Z.ones_spec_low. lia.
  - apply Z.ones_spec_high. lia.
Qed.

Lemma testbit_not32 (x n : Z) :
  0 <= n < 32 -> Z.testbit (not32 x) n = negb (Z.testbit x n).
Proof.
  intros Hn. unfold not32. change 0xFFFFFFFF with (Z.ones 32).
  rewrite Z.lxor_spec, Z.ones_spec_low by lia.
  now destruct (Z.testbit x n).
Qed.

(** Each mask of the header is the single bit at its position. *)
Lemma control_masks :
  AD9833_CTRL_B28 = 2 ^ B28_bit /\ AD9833_CTRL_FSELECT = 2 ^ FSELECT_bit /\
  AD9833_CTRL_PSELECT = 2 ^ PSELECT_bit /\ AD9833_CTRL_RESET = 2 ^ RESET_bit /\
  AD9833_CTRL_SLEEP1 = 2 ^ SLEEP1_bit /\ AD9833_CTRL_SLEEP12 = 2 ^ SLEEP12_bit /\
  AD9833_CTRL_OPBITEN = 2 ^ OPBITEN_bit /\ AD9833_CTRL_DIV2 = 2 ^ DIV2_bit /\
  AD9833_CTRL_MODE = 2 ^ MODE_bit.
Proof. repeat split. Qed.

(** The sixteen bit positions of a word, for proofs by cases. *)
Lemma bit_positions_complete (n : Z) :
  0 <= n < 16 -> In n (map Z.of_nat (seq 0 16)).
Proof.
  intros Hn. apply in_map_iff. exists (Z.to_nat n).
  split; [lia|]. apply in_seq. lia.
Qed.

(** One bit of a shadow register after [*p |= m] and after [*p &= ~m]. *)
Lemma testbit_set (s m n : Z) :
  0 <= n < 16 -> Z.testbit (u16 (Z.lor s m)) n = Z.testbit s n || Z.testbit m n.
Proof.
  intros Hn. rewrite testbit_u16, Z.lor_spec by lia.
  replace (n <? 16) with true by (symmetry; apply Z.ltb_lt; lia).
  apply andb_true_r.
Qed.

Lemma testbit_clear (s m n : Z) :
  0 <= n < 16 ->
  Z.testbit (u16 (Z.land s (not32 m))) n = Z.testbit s n && negb (Z.testbit m n).
Proof.
  intros Hn. rewrite testbit_u16, Z.land_spec, testbit_not32 by lia.
  replace (n <? 16) with true by (symmetry; apply Z.ltb_lt; lia).
  apply andb_true_r.
Qed.

Ltac eval_bits :=
  repeat match goal with
  | |- context [Z.testbit ?m ?n] =>
      let v := eval vm_compute in (Z.testbit m n) in
      match v with
      | true => change (Z.testbit m n) with true
      | false => change (Z.testbit m n) with false
      end
  end.

Ltac shadow_bits :=
  repeat first [ rewrite testbit_clear by lia | rewrite testbit_set by lia ];
  eval_bits;
  repeat first [ rewrite andb_true_r | rewrite orb_false_r | rewrite andb_false_r
               | rewrite orb_true_r ];
  try reflexivity.

(** ** Chip-select framing of the software-SPI transport *)

Lemma GetShadowCtrlReg_Some (choice : chipChose) (p : shadow_ptr) :
  AD9833_GetShadowCtrlReg choice = Some p <->
  (choice = CS1 /\ p = p_control_reg_cs1) \/ (choice = CS2 /\ p = p_control_reg_cs2).
Proof.
  unfold AD9833_GetShadowCtrlReg.
  destruct (Z.eqb_spec choice CS1) as [->|N1].
  - split; [intros [= <-]; auto | intros [[_ ->]|[H _]]; [reflexivity | discriminate H]].
  - destruct (Z.eqb_spec choice CS2) as [->|N2].
    + split; [intros [= <-]; auto | intros [[H _]|[_ ->]]; [discriminate H | reflexivity]].
    + split; [discriminate | intros [[H _]|[H _]]; contradiction].
Qed.

Lemma GetShadowCtrlReg_None (choice : chipChose) :
  AD9833_GetShadowCtrlReg choice = None <-> choice <> CS1 /\ choice <> CS2.
Proof.
  unfold AD9833_GetShadowCtrlReg.
  destruct (Z.eqb_spec choice CS1) as [->|N1]; [split; [discriminate | intros [H _]; contradiction]|].
  destruct (Z.eqb_spec choice CS2) as [->|N2]; [split; [discriminate | intros [_ H]; contradiction]|].
  split; auto.
Qed.

Lemma Soft_Write_single (choice : chipChose) (p : shadow_ptr) (w : Z) (st : driver_state) :
  AD9833_GetShadowCtrlReg choice = Some p ->
  Soft.AD9833_Write choice w st = emit (single_frame p w) st.
Proof.
  intros H. apply GetShadowCtrlReg_Some in H. destruct H as [[-> ->]|[-> ->]]; reflexivity.
Qed.

Lemma Soft_Write_broadcast (w : Z) (st : driver_state) :
  Soft.AD9833_Write CS_BOTH w st = emit (broadcast_frame w) st.
Proof. reflexivity. Qed.

Lemma Soft_Write_unknown (choice : chipChose) (w : Z) (st : driver_state) :
  choice <> CS1 -> choice <> CS2 -> choice <> CS_BOTH ->
  Soft.AD9833_Write choice w st = st.
Proof.
  intros N1 N2 N3. unfold Soft.AD9833_Write.
  destruct (Z.eqb_spec choice CS1); [contradiction|].
  destruct (Z.eqb_spec choice CS2); [contradiction|].
  destruct (Z.eqb_spec choice CS_BOTH); [contradiction|]. reflexivity.
Qed.

(** ** [AD9833_SetWaveformAndStart] *)

Lemma SetWaveformAndStart_started (st : driver_state) (choice : chipChose)
    (p : shadow_ptr) (wave : waveType) :
  AD9833_GetShadowCtrlReg choice = Some p ->
  wave = SINE_WAVE \/ wave = TRIANGLE_WAVE \/ wave = SQUARE_WAVE ->
  waveform_started p wave st (Soft.AD9833_SetWaveformAndStart choice wave st).
Proof.
  intros Hp Hw.
  unfold Soft.AD9833_SetWaveformAndStart, AD9833_SetWaveformAndStart.
  rewrite Hp. rewrite (Soft_Write_single _ _ _ _ Hp).
  unfold waveform_started, MODE_bit, OPBITEN_bit, DIV2_bit, RESET_bit.
  destruct st as [s1 s2 b].
  destruct Hw as [-> | [-> | ->]]; destruct p; cbn -[Z.testbit u16 not32 Z.land Z.lor Z.pow];
    (repeat split;
     [ shadow_bits | shadow_bits | shadow_bits | shadow_bits
     | intros n Hn N1 N5 N3 N8;
       pose proof (bit_positions_complete n Hn) as Hc; cbn in Hc;
       repeat (destruct Hc as [<-|Hc]; [try contradiction; shadow_bits|]); contradiction
     | apply u16_range | apply u16_range ]).
Qed.

(** The two bytes [HAL_SPI_Transmit] sends make up the 16-bit word again. *)
Lemma HAL_bytes (w : Z) :
  0 <= w < 2 ^ 16 ->
  Z.lor (Z.shiftl (Z.land (Z.shiftr w 8) 0xFF) 8) (Z.land w 0xFF) = w.
Proof.
  intros Hw. apply Z.bits_inj'. intros n Hn.
  assert (Hhigh : 16 <= n -> Z.testbit w n = false).
  { intros H16. rewrite <- (u16_small w Hw), testbit_u16 by lia.
    replace (n <? 16) with false by (symmetry; apply Z.ltb_ge; lia). apply andb_false_r. }
  change 0xFF with (Z.ones 8).
  rewrite Z.lor_spec, Z.land_spec.
  destruct (Z.ltb_spec n 8).
  - rewrite Z.shiftl_spec_low, Z.ones_spec_low by lia. now rewrite andb_true_r.
  - rewrite Z.shiftl_spec, Z.land_spec, Z.shiftr_spec by lia.
    replace (n - 8 + 8) with n by lia.
    rewrite (Z.ones_spec_high 8 n) by lia. rewrite andb_false_r, orb_false_r.
    destruct (Z.ltb_spec n 16).
    + rewrite Z.ones_spec_low by lia. apply andb_true_r.
    + rewrite Hhigh by lia. reflexivity.
Qed.

Lemma HAL_Write_single (choice : chipChose) (p : shadow_ptr) (w : Z) (st : driver_state) :
  AD9833_GetShadowCtrlReg choice = Some p -> 0 <= w < 2 ^ 16 ->
  HAL.AD9833_Write choice w st = emit (single_frame p w) st.
Proof.
  intros H Hw. apply GetShadowCtrlReg_Some in H.
  destruct H as [[-> ->]|[-> ->]]; unfold HAL.AD9833_Write, HAL.HAL_SPI_Transmit;
    cbn -[Z.land Z.lor Z.shiftl Z.shiftr Z.pow]; rewrite (HAL_bytes w Hw); reflexivity.
Qed.

(** C7. For a valid chip identity and each of the three waveforms,
    [AD9833_SetWaveformAndStart] leaves exactly the waveform's combination in
    the MODE, OPBITEN and DIV2 bits of that chip's shadow (Sine: none;
    Triangle: MODE; Square: OPBITEN and DIV2), clears RESET, keeps every other
    bit and the other chip's shadow, and transmits the resulting word once to
    that chip, in the software-SPI driver and in the HAL driver alike; so
    Square followed by Sine on one chip leaves the three waveform bits clear. *)
Theorem SetWaveformAndStart_waveform_bits
    (st : driver_state) (choice : chipChose) (p : shadow_ptr) (wave : waveType) :
  AD9833_GetShadowCtrlReg choice = Some p ->
  wave = SINE_WAVE \/ wave = TRIANGLE_WAVE \/ wave = SQUARE_WAVE ->
  waveform_started p wave st (Soft.AD9833_SetWaveformAndStart choice wave st) /\
  waveform_started p wave st (HAL.AD9833_SetWaveformAndStart choice wave st) /\
  (let st2 := Soft.AD9833_SetWaveformAndStart choice SINE_WAVE
                (Soft.AD9833_SetWaveformAndStart choice SQUARE_WAVE st) in
   Z.testbit (deref p st2) MODE_bit = false /\
   Z.testbit (deref p st2) OPBITEN_bit = false /\
   Z.testbit (deref p st2) DIV2_bit = false).
Proof.
  intros Hp Hw.
  assert (Hsoft : forall w s, wave = w \/ SINE_WAVE = w ->
            waveform_started p w s (Soft.AD9833_SetWaveformAndStart choice w s)).
  { intros w s [<-|<-]; apply SetWaveformAndStart_started; auto. }
  split; [apply Hsoft; auto|]. split.
  - assert (E : HAL.AD9833_SetWaveformAndStart choice wave st
                = Soft.AD9833_SetWaveformAndStart choice wave st).
    { unfold HAL.AD9833_SetWaveformAndStart, Soft.AD9833_SetWaveformAndStart,
        AD9833_SetWaveformAndStart. rewrite Hp.
      rewrite (Soft_Write_single _ _ _ _ Hp). apply HAL_Write_single; [exact Hp|].
      destruct p; apply u16_range. }
    rewrite E. apply Hsoft; auto.
  - cbv zeta.
    destruct (Hsoft SINE_WAVE (Soft.AD9833_SetWaveformAndStart choice SQUARE_WAVE st))
      as (Hm & Ho & Hd & _); auto.
Qed.

Lemma SetWaveformAndStart_waveform_bits_witness :
  waveform_started p_control_reg_cs2 SQUARE_WAVE power_on
    (Soft.AD9833_SetWaveformAndStart CS2 SQUARE_WAVE power_on) /\
  s_control_reg_cs2 (Soft.AD9833_SetWaveformAndStart CS2 SQUARE_WAVE power_on) = 0x2028.
Proof.
  split.
  - exact (proj1 (SetWaveformAndStart_waveform_bits power_on CS2 p_control_reg_cs2 SQUARE_WAVE
                    eq_refl (or_intror (or_intror eq_refl)))).
  - reflexivity.
Defined.

(** ** [AD9833_Init] *)

(** C8. [AD9833_Init] sets both shadows to B28 + RESET, then adds SLEEP12 on
    chip 2 only for [CS1_SINGLE], on chip 1 only for [CS2_SINGLE], on neither
    for [CS1_CS2_DOUBLE], and SLEEP1 + SLEEP12 on both for any other mode
    value; it then transmits chip 1's control word followed by chip 2's (after
    raising the idle lines), in the software-SPI and in the HAL driver. *)
Theorem Init_shadows_then_words (status : workStatus) (st : driver_state) :
  (s_control_reg_cs1 (Soft.AD9833_Init status st),
   s_control_reg_cs2 (Soft.AD9833_Init status st)) = init_shadows status /\
  bus (Soft.AD9833_Init status st) =
    bus st ++ [CS1_H; CS2_H; SCLK_H]
           ++ [CS1_L; SPI_TX (fst (init_shadows status)); CS1_H]
           ++ [CS2_L; SPI_TX (snd (init_shadows status)); CS2_H] /\
  (s_control_reg_cs1 (HAL.AD9833_Init status st),
   s_control_reg_cs2 (HAL.AD9833_Init status st)) = init_shadows status /\
  bus (HAL.AD9833_Init status st) =
    bus st ++ [CS1_H; CS2_H]
           ++ [CS1_L; SPI_TX (fst (init_shadows status)); CS1_H]
           ++ [CS2_L; SPI_TX (snd (init_shadows status)); CS2_H] /\
  init_shadows CS1_SINGLE = (0x2100, 0x2140) /\
  init_shadows CS2_SINGLE = (0x2140, 0x2100) /\
  init_shadows CS1_CS2_DOUBLE = (0x2100, 0x2100) /\
  (status <> CS1_SINGLE -> status <> CS2_SINGLE -> status <> CS1_CS2_DOUBLE ->
   init_shadows status = (0x21C0, 0x21C0)).
Proof.
  destruct st as [s1 s2 b].
  unfold init_shadows, Soft.AD9833_Init, HAL.AD9833_Init, AD9833_Init.
  destruct (Z.eqb_spec status CS1_SINGLE) as [E0|N0];
    [|destruct (Z.eqb_spec status CS2_SINGLE) as [E1|N1];
      [|destruct (Z.eqb_spec status CS1_CS2_DOUBLE) as [E2|N2]]];
    cbn; rewrite <- ?app_assoc; repeat split; try reflexivity; try contradiction.
Qed.

(** ** Rounding of binary64 results *)

Lemma digits2_pos_bounds (p : positive) :
  2 ^ (Zpos (digits2_pos p) - 1) <= Zpos p < 2 ^ Zpos (digits2_pos p).
Proof.
  induction p as [p IH|p IH|]; cbn [digits2_pos].
  - rewrite Pos2Z.inj_succ, Z.pow_succ_r by lia.
    replace (Z.succ (Zpos (digits2_pos p)) - 1) with (Z.succ (Zpos (digits2_pos p) - 1)) by lia.
    rewrite Z.pow_succ_r by lia. lia.
  - rewrite Pos2Z.inj_succ, Z.pow_succ_r by lia.
    replace (Z.succ (Zpos (digits2_pos p)) - 1) with (Z.succ (Zpos (digits2_pos p) - 1)) by lia.
    rewrite Z.pow_succ_r by lia. lia.
  - cbn. lia.
Qed.

Lemma Zdigits2_bounds (m : Z) :
  0 < m -> 2 ^ (Zdigits2 m - 1) <= m < 2 ^ Zdigits2 m.
Proof. destruct m as [|p|p]; try lia. intros _. apply digits2_pos_bounds. Qed.

Lemma Zdigits2_le (m k : Z) : 0 < m -> m <= 2 ^ k -> 0 <= k -> Zdigits2 m <= k + 1.
Proof.
  intros Hm Hk H0. destruct (Zdigits2_bounds m Hm) as [Hlo _].
  destruct (Z.le_gt_cases (Zdigits2 m) (k + 1)) as [|Hgt]; [assumption|exfalso].
  assert (2 ^ (k + 1) <= 2 ^ (Zdigits2 m - 1)) by (apply Z.pow_le_mono_r; lia).
  rewrite Z.pow_add_r in * by lia. lia.
Qed.

Lemma shr_1_m (mrs : shr_record) :
  0 <= shr_m mrs -> shr_m (shr_1 mrs) = shr_m mrs / 2.
Proof.
  destruct mrs as [m r s]. cbn [shr_m]. intros Hm.
  rewrite <- Z.div2_div.
  destruct m as [|[p|p|]|p]; try reflexivity. lia.
Qed.

Lemma iter_shr_1_m (p : positive) (mrs : shr_record) :
  0 <= shr_m mrs -> shr_m (iter_pos shr_1 p mrs) = shr_m mrs / 2 ^ Zpos p.
Proof.
  revert mrs. induction p as [p IH|p IH|]; intros mrs Hm; cbn [iter_pos].
  - assert (H1 : 0 <= shr_m (shr_1 mrs)) by (rewrite shr_1_m by lia; apply Z.div_pos; lia).
    assert (Hp : 0 < 2 ^ Zpos p) by (apply Z.pow_pos_nonneg; lia).
    assert (H2 : 0 <= shr_m (iter_pos shr_1 p (shr_1 mrs)))
      by (rewrite IH by lia; apply Z.div_pos; lia).
    rewrite IH, IH, shr_1_m by lia.
    rewrite !Z.div_div by lia.
    f_equal. rewrite (Pos2Z.inj_xI p).
    replace (2 * Zpos p + 1) with (Zpos p + Zpos p + 1) by lia.
    rewrite !Z.pow_add_r by lia. lia.
  - assert (Hp : 0 < 2 ^ Zpos p) by (apply Z.pow_pos_nonneg; lia).
    assert (H2 : 0 <= shr_m (iter_pos shr_1 p mrs))
      by (rewrite IH by lia; apply Z.div_pos; lia).
    rewrite IH, IH by lia.
    rewrite !Z.div_div by lia.
    f_equal. rewrite (Pos2Z.inj_xO p).
    replace (2 * Zpos p) with (Zpos p + Zpos p) by lia.
    rewrite !Z.pow_add_r by lia. lia.
  - rewrite shr_1_m by lia. reflexivity.
Qed.

Lemma shr_m_of_loc (m : Z) (l : location) : shr_m (shr_record_of_loc m l) = m.
Proof. destruct l as [|[]]; reflexivity. Qed.

(** The first component of [shr_fexp]: the mantissa divided by [2^n], where
    [n] is the number of bits the format cannot hold. *)
Lemma shr_fexp_m (m e : Z) (l : location) :
  0 <= m ->
  let n := Z.max 0 (fexp prec emax (Zdigits2 m + e) - e) in
  shr_m (fst (shr_fexp prec emax m e l)) = m / 2 ^ n /\
  snd (shr_fexp prec emax m e l) = e + n.
Proof.
  intros Hm n. unfold shr_fexp, shr. subst n.
  remember (fexp prec emax (Zdigits2 m + e) - e) as k eqn:E.
  destruct k as [|p|p]; cbn [fst snd].
  - rewrite shr_m_of_loc. cbn. rewrite Z.div_1_r. lia.
  - rewrite iter_shr_1_m by (rewrite shr_m_of_loc; lia). rewrite shr_m_of_loc.
    rewrite Z.max_r by lia. split; reflexivity.
  - rewrite shr_m_of_loc. rewrite Z.max_l by lia. cbn. rewrite Z.div_1_r. lia.
Qed.

Lemma round_nearest_even_bounds (m : Z) (l : location) :
  m <= round_nearest_even m l <= m + 1.
Proof.
  destruct l as [|[]]; cbn; try lia. destruct (Z.even m); lia.
Qed.

Lemma Zdigits2_nonneg (m : Z) : 0 <= Zdigits2 m.
Proof. destruct m; cbn; lia. Qed.

Lemma Zdigits2_upper (m : Z) : 0 <= m -> m < 2 ^ Zdigits2 m.
Proof.
  intros Hm. destruct (Z.eq_dec m 0) as [->|N]; [cbn; lia|].
  apply Zdigits2_bounds. lia.
Qed.

(** A non-negative mantissa rounded to binary64: when the exact value
    [m * 2^e] lies below [2^53] and [e <= 0], the result is a zero or a
    finite number [m'' * 2^e''] with [e <= e'' <= 0] and, in units of [2^e],
    [m'' * 2^(e'' - e) <= m + 2^n], where [n] is the number of mantissa bits
    dropped. *)
Lemma binary_round_aux_value (m e : Z) (l : location) :
  0 <= m -> e <= 0 -> Zdigits2 m + e + 1 <= prec ->
  let n := Z.max 0 (fexp prec emax (Zdigits2 m + e) - e) in
  binary_round_aux prec emax false m e l = S754_zero false \/
  exists m'' e'',
    binary_round_aux prec emax false m e l = S754_finite false m'' e'' /\
    e <= e'' <= 0 /\ Zpos m'' * 2 ^ (e'' - e) <= m + 2 ^ n.
Proof.
  intros Hm0 He Hd n.
  pose proof (Zdigits2_upper m Hm0) as Hdig.
  pose proof (Zdigits2_nonneg m) as Hd0.
  set (d := Zdigits2 m) in *.
  unfold binary_round_aux.
  destruct (shr_fexp_m m e l Hm0) as [Hm' He'].
  cbv zeta in Hm', He'. fold d in Hm', He'. fold n in Hm', He'.
  destruct (shr_fexp prec emax m e l) as [mrs' e']. cbn [fst snd] in Hm', He'.
  assert (Hn : 0 <= n) by (unfold n; lia).
  assert (Hen : e + n <= 0) by (unfold n, fexp, emin, prec, emax in *; lia).
  assert (P2n : 0 < 2 ^ n) by (apply Z.pow_pos_nonneg; lia).
  set (m' := shr_m mrs') in *.
  assert (Hm'0 : 0 <= m') by (rewrite Hm'; apply Z.div_pos; lia).
  assert (Hm'n : m' * 2 ^ n <= m)
    by (rewrite Hm', Z.mul_comm; apply Z.mul_div_le; lia).
  pose proof (round_nearest_even_bounds m' (loc_of_shr_record mrs')) as Hr.
  set (m1 := round_nearest_even m' (loc_of_shr_record mrs')) in *.
  destruct (shr_fexp_m m1 e' loc_Exact ltac:(lia)) as [Hm'' He''].
  cbv zeta in Hm'', He''.
  set (n2 := Z.max 0 (fexp prec emax (Zdigits2 m1 + e') - e')) in *.
  destruct (shr_fexp prec emax m1 e' loc_Exact) as [mrs'' e'']. cbn [fst snd] in Hm'', He''.
  assert (Hn2 : 0 <= n2) by (unfold n2; lia).
  assert (P2n2 : 0 < 2 ^ n2) by (apply Z.pow_pos_nonneg; lia).
  assert (Hm''1 : shr_m mrs'' * 2 ^ n2 <= m1)
    by (rewrite Hm'', Z.mul_comm; apply Z.mul_div_le; lia).
  assert (Hm''0 : 0 <= shr_m mrs'') by (rewrite Hm''; apply Z.div_pos; lia).
  assert (Hdig1 : Zdigits2 m1 + e' <= prec).
  { destruct (Z.eq_dec m1 0) as [->|Hm1]; [cbn; unfold prec; lia|].
    assert (Hq : m1 <= 2 ^ Z.max 0 (d - n)).
    { destruct (Z.le_gt_cases n d) as [Hnd|Hnd].
      - rewrite Z.max_r by lia.
        assert (m' < 2 ^ (d - n)); [|lia].
        apply Z.mul_lt_mono_pos_r with (p := 2 ^ n); [lia|].
        rewrite <- Z.pow_add_r by lia. replace (d - n + n) with d by lia. lia.
      - rewrite Z.max_l by lia. change (2 ^ 0) with 1.
        assert (m' = 0); [|lia].
        rewrite Hm'. apply Z.div_small. split; [lia|].
        apply Z.lt_le_trans with (2 ^ d); [lia|]. apply Z.pow_le_mono_r; lia. }
    pose proof (Zdigits2_le m1 _ ltac:(lia) Hq ltac:(lia)). unfold prec in *. lia. }
  assert (He''0 : e'' <= 0) by (unfold n2, fexp, emin, prec, emax in *; lia).
  destruct (shr_m mrs'') as [|m''|m''] eqn:Em'';
    [left; reflexivity| |exfalso; pose proof (Pos2Z.neg_is_neg m''); lia].
  right. exists m'', e''.
  replace (e'' <=? emax - prec) with true
    by (symmetry; apply Z.leb_le; unfold emax, prec; lia).
  split; [reflexivity|]. split; [lia|].
  replace (e'' - e) with (n2 + n) by lia. rewrite Z.pow_add_r, Z.mul_assoc by lia.
  apply Z.le_trans with (m1 * 2 ^ n); [apply Z.mul_le_mono_nonneg_r; lia|].
  apply Z.le_trans with ((m' + 1) * 2 ^ n); [apply Z.mul_le_mono_nonneg_r; lia|lia].
Qed.

(** The integral part of such a result. *)
Lemma Ztrunc_scaled (m'' : positive) (e'' e : Z) :
  e <= e'' <= 0 ->
  exists z, Ztrunc (S754_finite false m'' e'') = Some z /\ 0 <= z /\
            z * 2 ^ (- e) <= Zpos m'' * 2 ^ (e'' - e).
Proof.
  intros He. assert (P2e : 0 < 2 ^ (- e'')) by (apply Z.pow_pos_nonneg; lia).
  exists (Zpos m'' / 2 ^ (- e'')). split; [|split].
  - cbn [Ztrunc cond_Zopp]. destruct (Z.leb_spec 0 e''); [|reflexivity].
    replace e'' with 0 by lia. change (- 0) with 0.
    rewrite Z.pow_0_r, Z.mul_1_r, Z.div_1_r. reflexivity.
  - apply Z.div_pos; lia.
  - replace (- e) with (- e'' + (e'' - e)) by lia.
    rewrite Z.pow_add_r, Z.mul_assoc by lia.
    apply Z.mul_le_mono_nonneg_r; [apply Z.pow_nonneg; lia|].
    rewrite Z.mul_comm. apply Z.mul_div_le. lia.
Qed.

(** The integral part of a rounded product or quotient: [z * 2^-e <= m + 2^n]. *)
Lemma binary_round_aux_trunc (m : positive) (e : Z) (l : location) :
  e <= 0 -> Zpos (digits2_pos m) + e + 1 <= prec ->
  let n := Z.max 0 (fexp prec emax (Zpos (digits2_pos m) + e) - e) in
  exists z, Ztrunc (binary_round_aux prec emax false (Zpos m) e l) = Some z /\
            0 <= z /\ z * 2 ^ (- e) <= Zpos m + 2 ^ n.
Proof.
  intros He Hd n.
  destruct (binary_round_aux_value (Zpos m) e l ltac:(lia) He Hd) as [->|(m'' & e'' & -> & He'' & Hv)].
  - exists 0. split; [reflexivity|]. split; [lia|]. rewrite Z.mul_0_l.
    assert (0 < 2 ^ n) by (apply Z.pow_pos_nonneg; unfold n; lia). lia.
  - destruct (Ztrunc_scaled m'' e'' e He'') as (z & Hz & Hz0 & Hzb).
    exists z. split; [exact Hz|]. split; [exact Hz0|].
    cbv zeta in Hv. change (Zdigits2 (Zpos m)) with (Zpos (digits2_pos m)) in Hv.
    fold n in Hv. lia.
Qed.

(** ** The frequency conversion is defined for every number *)

(** [PI] is within half a unit in the last place of the decimal constant. *)
Lemma PI_nearest :
  2 * Z.abs (0x1921FB54442D18 * 10 ^ 20 - 314159265358979323846 * 2 ^ 51) <= 10 ^ 20.
Proof. vm_compute. discriminate. Qed.

Lemma freqScale_value : freqScale = S754_finite false 6044629098073146 (-49).
Proof. vm_compute. reflexivity. Qed.

Lemma freq_max_value : of_Z 12500000 = S754_finite false 6710886400000000 (-29).
Proof. vm_compute. reflexivity. Qed.

Lemma bounded_double (m : positive) (e : Z) :
  bounded prec emax m e = true -> Zpos m < 2 ^ 53 /\ -1074 <= e <= 971.
Proof.
  intros H. unfold bounded, canonical_mantissa, fexp, emin, prec, emax in H.
  apply andb_true_iff in H. destruct H as [H1 H2].
  apply Z.eqb_eq in H1. apply Z.leb_le in H2.
  pose proof (digits2_pos_bounds m) as [_ Hhi].
  split; [|lia].
  apply Z.lt_le_trans with (1 := Hhi). apply Z.pow_le_mono_r; lia.
Qed.

(** A finite frequency of at most 12.5 MHz, scaled and truncated, is at
    most [2^27]. *)
Lemma scaled_trunc_bound (mx : positive) (ex : Z) :
  Zpos mx < 2 ^ 53 -> ex <= -29 -> (ex = -29 -> Zpos mx <= 6710886400000000) ->
  exists z, Ztrunc (mul (S754_finite false mx ex) freqScale) = Some z /\ 0 <= z <= 2 ^ 27.
Proof.
  intros Hmx Hex Hmax. rewrite freqScale_value. unfold mul, SFmul. cbn [xorb].
  set (M := 6044629098073146%positive).
  assert (Hprod : Zpos (mx * M) < 2 ^ 106).
  { rewrite Pos2Z.inj_mul. change (2 ^ 106) with (2 ^ 53 * 2 ^ 53).
    apply Z.mul_lt_mono_nonneg; [lia|lia|lia|]. subst M. lia. }
  assert (Hd : Zpos (digits2_pos (mx * M)) <= 107).
  { apply (Zdigits2_le (Zpos (mx * M)) 106); lia. }
  destruct (binary_round_aux_trunc (mx * M) (ex + -49) loc_Exact) as (z & Hz & Hz0 & Hzb).
  { lia. } { unfold prec. lia. }
  exists z. split; [exact Hz|]. split; [exact Hz0|].
  set (n := Z.max 0 (fexp prec emax (Zpos (digits2_pos (mx * M)) + (ex + -49)) - (ex + -49))) in *.
  assert (Hn : 0 <= n <= 54 \/ n = -1025 - ex) by (unfold n, fexp, emin, prec, emax; lia).
  set (k := -29 - ex).
  assert (Hk : 0 <= k) by (unfold k; lia).
  replace (- (ex + -49)) with (78 + k) in Hzb by (unfold k; lia).
  rewrite Z.pow_add_r in Hzb by lia.
  assert (P2k : 1 <= 2 ^ k) by (apply (Z.pow_le_mono_r 2 0 k); lia).
  assert (Hmk : Zpos mx <= 6710886400000000 * 2 ^ k).
  { destruct (Z.eq_dec k 0) as [E|N].
    - rewrite E. change (2 ^ 0) with 1. unfold k in E. specialize (Hmax ltac:(lia)). lia.
    - assert (2 ^ 1 <= 2 ^ k) by (apply Z.pow_le_mono_r; lia). change (2 ^ 1) with 2 in *.
      change (2 ^ 53) with 9007199254740992 in Hmx. lia. }
  assert (Hn2 : 2 ^ n <= 2 ^ 54 * 2 ^ k).
  { destruct Hn as [Hn|Hn].
    - apply Z.le_trans with (2 ^ 54); [apply Z.pow_le_mono_r; lia|lia].
    - destruct (Z.le_gt_cases n 54).
      + apply Z.le_trans with (2 ^ 54); [apply Z.pow_le_mono_r; unfold n; lia|lia].
      + apply Z.le_trans with (2 ^ k); [apply Z.pow_le_mono_r; unfold k; lia|lia]. }
  rewrite Pos2Z.inj_mul in Hzb. subst M.
  change (2 ^ 78) with 302231454903657293676544 in Hzb.
  change (2 ^ 54) with 18014398509481984 in Hn2.
  change (2 ^ 27) with 134217728.
  destruct (Z.le_gt_cases z 134217728) as [|Hgt]; [assumption|exfalso].
  assert (134217729 * 2 ^ k <= z * 2 ^ k) by (apply Z.mul_le_mono_nonneg_r; lia).
  lia.
Qed.

(** The integral part really is a truncation: for a non-negative finite
    value [m * 2^e] with a fraction ([e < 0]), it is the integer [z] with
    [z <= m * 2^e < z + 1]. *)
Lemma Ztrunc_nonneg_floor (m : positive) (e z : Z) :
  e < 0 -> Ztrunc (S754_finite false m e) = Some z ->
  z * 2 ^ (- e) <= Zpos m < (z + 1) * 2 ^ (- e).
Proof.
  intros He H. cbn [Ztrunc cond_Zopp] in H.
  destruct (Z.leb_spec 0 e); [lia|]. injection H as <-.
  assert (0 < 2 ^ (- e)) by (apply Z.pow_pos_nonneg; lia).
  split.
  - rewrite Z.mul_comm. apply Z.mul_div_le. lia.
  - rewrite Z.mul_comm. replace (Zpos m / 2 ^ (- e) + 1) with (Z.succ (Zpos m / 2 ^ (- e))) by lia.
    apply Z.mul_succ_div_gt. lia.
Qed.

(** The clamp of [AD9833_FreqSet], read as one three-way choice. *)
Lemma freq_clamp_cases (f : double) :
  freq_clamp f =
    if ltb f zero then zero
    else if ltb (of_Z 12500000) f then of_Z 12500000 else f.
Proof. unfold freq_clamp. destruct (ltb f zero); reflexivity. Qed.

Lemma clamped_trunc_bound (f : double) :
  is_double f -> is_nan f = false ->
  exists z, Ztrunc (mul (freq_clamp f) freqScale) = Some z /\ 0 <= z <= 2 ^ 27.
Proof.
  intros Hv Hn. rewrite freq_clamp_cases.
  destruct f as [s|s| |s m e]; try discriminate Hn.
  - exists 0. destruct s; vm_compute; intuition congruence.
  - destruct s.
    + exists 0. vm_compute; intuition congruence.
    + exists (2 ^ 27). vm_compute; intuition congruence.
  - destruct s.
    + exists 0. vm_compute; intuition congruence.
    + change (ltb (S754_finite false m e) zero) with false. cbv iota.
      destruct (ltb (of_Z 12500000) (S754_finite false m e)) eqn:Hlt.
      * exists (2 ^ 27). vm_compute; intuition congruence.
      * apply bounded_double in Hv. destruct Hv as [Hm He].
        rewrite freq_max_value in Hlt. unfold ltb, SFltb, SFcompare in Hlt.
        destruct (Z.compare_spec (-29) e) as [E|L|G]; try discriminate Hlt.
        -- apply scaled_trunc_bound; [exact Hm|lia|]. intros _.
           rewrite Pos.compare_cont_spec in Hlt. cbn [Pos.switch_Eq] in Hlt.
           revert Hlt.
           destruct (Pos.compare_spec 6710886400000000 m) as [E'|L'|G'];
             intros Hlt; [subst m; reflexivity|discriminate Hlt|].
           apply Z.lt_le_incl. exact G'.
        -- apply scaled_trunc_bound; [exact Hm|lia|lia].
Qed.

Lemma fragments_of_raw (raw : Z) :
  0 <= raw < 2 ^ 28 ->
  Z.land raw 0x0FFFFFFF = raw /\
  freq_LSB raw = raw mod 2 ^ 14 /\
  freq_MSB raw = raw / 2 ^ 14.
Proof.
  intros Hr.
  assert (Hq : 0 <= raw / 2 ^ 14 < 2 ^ 14).
  { split; [apply Z.div_pos; lia|]. apply Z.div_lt_upper_bound; [lia|].
    change (2 ^ 14 * 2 ^ 14) with (2 ^ 28). lia. }
  assert (Hm : 0 <= raw mod 2 ^ 14 < 2 ^ 14) by (apply Z.mod_pos_bound; lia).
  unfold freq_LSB, freq_MSB.
  change 0x0FFFFFFF with (Z.ones 28). change 0x3FFF with (Z.ones 14).
  rewrite !Z.land_ones, Z.shiftr_div_pow2 by lia.
  rewrite (Z.mod_small raw (2 ^ 28)) by lia.
  rewrite (Z.mod_small (raw / 2 ^ 14)) by lia.
  rewrite !u16_small; [auto| |]; change (2 ^ 16) with (4 * 2 ^ 14); lia.
Qed.

(** Every frequency that is a number converts: the raw tuning word is the
    truncated product and never exceeds [2^27]. *)
Lemma freq_fragments_defined (f : double) :
  is_double f -> is_nan f = false ->
  exists raw,
    Ztrunc (mul (freq_clamp f) freqScale) = Some raw /\ 0 <= raw <= 2 ^ 27 /\
    freq_data_raw f = Some raw /\
    freq_fragments f = Some (raw mod 2 ^ 14, raw / 2 ^ 14).
Proof.
  intros Hv Hn. destruct (clamped_trunc_bound f Hv Hn) as (z & Hz & Hz0).
  assert (Hr : 0 <= z < 2 ^ 28) by (change (2 ^ 28) with (2 * 2 ^ 27); lia).
  destruct (fragments_of_raw z Hr) as (E1 & E2 & E3).
  assert (Hraw : freq_data_raw f = Some z).
  { unfold freq_data_raw, to_unsigned. rewrite Hz.
    replace ((0 <=? z) && (z <? 2 ^ 32)) with true.
    - rewrite E1. reflexivity.
    - symmetry. apply andb_true_iff. split; [apply Z.leb_le; lia|apply Z.ltb_lt].
      change (2 ^ 32) with (32 * 2 ^ 27). lia. }
  exists z. repeat split; try lia; try assumption.
  unfold freq_fragments. rewrite Hraw, E2, E3. reflexivity.
Qed.

(** C2, as stated, fails at 1 Hz: the exact scaled value is 10.737..., the
    nearest integer is 11, and the code's cast yields 10.  (A NaN argument
    has no defined conversion at all.) *)
Lemma freq_conversion_not_rounded :
  spec_frequencyToTuningWord 1 = (11, 0) /\
  freq_fragments (of_Z 1) = Some (10, 0) /\
  freq_fragments (of_Z 1) <> Some (spec_frequencyToTuningWord 1) /\
  freq_fragments S754_nan = None.
Proof.
  assert (E : freq_fragments (of_Z 1) = Some (10, 0)) by (vm_compute; reflexivity).
  assert (S : spec_frequencyToTuningWord 1 = (11, 0)) by (vm_compute; reflexivity).
  split; [exact S|]. split; [exact E|]. split.
  - rewrite E, S. discriminate.
  - vm_compute. reflexivity.
Qed.

(** C2, amended. For every frequency that is a number, [AD9833_FreqSet]
    clamps it to [0, 12.5 MHz] (0 below, 12.5 MHz above), takes as raw
    tuning word the integral part (truncation toward zero, not rounding) of
    the [double] product [freq * freqScale], which never exceeds [2^27] so
    that the 28-bit mask keeps it, and splits it into bits 0-13 and bits
    14-27; every frequency above the bound gives the pair of the bound itself,
    and a zero frequency gives (0, 0). *)
Theorem freq_conversion_truncates (freq : double) :
  is_double freq -> is_nan freq = false ->
  freq_clamp freq =
    (if ltb freq zero then zero
     else if ltb (of_Z 12500000) freq then of_Z 12500000 else freq) /\
  (exists raw,
     Ztrunc (mul (freq_clamp freq) freqScale) = Some raw /\
     0 <= raw <= 2 ^ 27 /\
     freq_data_raw freq = Some (Z.land raw 0x0FFFFFFF) /\
     freq_fragments freq = Some (raw mod 2 ^ 14, raw / 2 ^ 14 mod 2 ^ 14)) /\
  (ltb (of_Z 12500000) freq = true ->
     freq_fragments freq = freq_fragments (of_Z 12500000)) /\
  (forall s, freq = S754_zero s -> freq_fragments freq = Some (0, 0)).
Proof.
  intros Hv Hn. split; [apply freq_clamp_cases|]. split; [|split].
  - destruct (freq_fragments_defined freq Hv Hn) as (raw & Ht & Hr & Hd & Hf).
    exists raw. repeat split; try lia; try assumption.
    + rewrite Hd. f_equal. symmetry. apply fragments_of_raw.
      change (2 ^ 28) with (2 * 2 ^ 27). lia.
    + rewrite Hf. do 2 f_equal. symmetry. apply Z.mod_small.
      split; [apply Z.div_pos; lia|]. apply Z.div_lt_upper_bound; [lia|].
      change (2 ^ 14 * 2 ^ 14) with (2 * 2 ^ 27). lia.
  - intros Hlt. unfold freq_fragments, freq_data_raw. rewrite !freq_clamp_cases.
    rewrite Hlt.
    replace (ltb freq zero) with false.
    + reflexivity.
    + destruct freq as [s|[|]| |[|] m e]; try reflexivity; discriminate Hlt.
  - intros s ->. destruct s; vm_compute; reflexivity.
Qed.

Lemma freq_conversion_truncates_witness :
  freq_fragments (of_Z 1000000) = Some (10737418 mod 2 ^ 14, 10737418 / 2 ^ 14 mod 2 ^ 14).
Proof.
  destruct (freq_conversion_truncates (of_Z 1000000) eq_refl eq_refl)
    as (_ & (raw & Ht & _ & _ & Hf) & _).
  vm_compute in Ht. injection Ht as <-. exact Hf.
Defined.

(** ** The phase conversion is defined for every non-negative angle *)

(** The phase word, once defined, has twelve bits. *)
Lemma phase_raw_range (turn ph : double) (w : Z) :
  phase_data_raw turn ph = Some w -> 0 <= w < 2 ^ 12.
Proof.
  unfold phase_data_raw. destruct (to_unsigned 16 (phase_scaled turn ph)) as [raw|]; [|discriminate].
  intros [= <-]. change 0x0FFF with (Z.ones 12). rewrite Z.land_ones by lia.
  assert (H1 : 0 <= raw mod 2 ^ 12 < 2 ^ 12) by (apply Z.mod_pos_bound; lia).
  rewrite u16_small; [auto|]. change (2 ^ 16) with (16 * 2 ^ 12). lia.
Qed.

Lemma Zdigits2_lt (m k : Z) : 0 <= m < 2 ^ k -> 0 <= k -> Zdigits2 m <= k.
Proof.
  intros [Hm Hk] H0. destruct (Z.eq_dec m 0) as [->|N]; [cbn; lia|].
  destruct (Zdigits2_bounds m ltac:(lia)) as [Hlo _].
  destruct (Z.le_gt_cases (Zdigits2 m) k) as [|Hgt]; [assumption|exfalso].
  assert (2 ^ k <= 2 ^ (Zdigits2 m - 1)) by (apply Z.pow_le_mono_r; lia). lia.
Qed.

Lemma iter_xO_pow2 (m d : positive) : Zpos (Pos.iter xO m d) = Zpos m * 2 ^ Zpos d.
Proof.
  induction d as [|d IH] using Pos.peano_ind.
  - cbn [Pos.iter]. rewrite Pos2Z.inj_xO. change (2 ^ 1) with 2. lia.
  - rewrite Pos.iter_succ, Pos2Z.inj_xO, IH, Pos2Z.inj_succ, Z.pow_succ_r by lia. lia.
Qed.

Lemma shl_align_spec (m : positive) (e e' : Z) :
  let '(mz, ez) := shl_align m e e' in
  ez = Z.min e e' /\ Zpos mz = Zpos m * 2 ^ (e - ez).
Proof.
  unfold shl_align. destruct (e' - e) as [|d|d] eqn:E.
  - split; [lia|]. replace (e - e) with 0 by lia. lia.
  - split; [lia|]. replace (e - e) with 0 by lia. lia.
  - split; [lia|]. rewrite iter_xO_pow2. f_equal. f_equal. lia.
Qed.

Lemma full_turn_value : Soft.full_turn = S754_finite false 6333186975989760 (-44).
Proof. vm_compute. reflexivity. Qed.

(** [fmod] of a non-negative finite angle by 360: a zero, or a finite value
    below 361 (the value itself is below 360; the slack absorbs the bound of
    the normalisation step). *)
Lemma fmod_first_turn (m : positive) (e : Z) :
  -1074 <= e ->
  fmod (S754_finite false m e) Soft.full_turn = S754_zero false \/
  exists m2 e2,
    fmod (S754_finite false m e) Soft.full_turn = S754_finite false m2 e2 /\
    -1074 <= e2 <= 0 /\ Zpos m2 < 361 * 2 ^ (- e2).
Proof.
  intros He. rewrite full_turn_value. unfold fmod.
  set (MT := 6333186975989760%positive).
  set (e0 := Z.min e (-44)).
  assert (He0 : -1074 <= e0 <= -44) by (unfold e0; lia).
  set (A := 2 ^ (-44 - e0)).
  assert (HA : 0 < A) by (apply Z.pow_pos_nonneg; lia).
  assert (Hr : 0 <= (Zpos m * 2 ^ (e - e0)) mod (Zpos MT * A) < Zpos MT * A)
    by (apply Z.mod_pos_bound; lia).
  destruct ((Zpos m * 2 ^ (e - e0)) mod (Zpos MT * A)) as [|mr|mr];
    [left; reflexivity| |lia].
  cbn [cond_Zopp binary_normalize]. unfold binary_round.
  pose proof (shl_align_spec mr e0 (fexp prec emax (Zpos (digits2_pos mr) + e0))) as Hal.
  destruct (shl_align mr e0 (fexp prec emax (Zpos (digits2_pos mr) + e0))) as [mz ez].
  destruct Hal as [Hez Hmz].
  assert (Hez' : -1074 <= ez <= -44) by (unfold fexp, emin, prec, emax in Hez; lia).
  set (B := 2 ^ (e0 - ez)) in *.
  assert (HB : 0 < B) by (apply Z.pow_pos_nonneg; lia).
  assert (Hpow : 2 ^ (- ez) = 17592186044416 * (A * B)).
  { unfold A, B. rewrite <- Z.pow_add_r by lia. change 17592186044416 with (2 ^ 44).
    rewrite <- Z.pow_add_r by lia. f_equal. lia. }
  assert (HAB : 0 < A * B) by lia.
  assert (Hmz' : Zpos mz < 360 * 2 ^ (- ez)).
  { rewrite Hmz, Hpow. subst MT.
    apply Z.lt_le_trans with (6333186975989760 * A * B); [|lia].
    apply Z.mul_lt_mono_pos_r; lia. }
  assert (Hdz : Zdigits2 (Zpos mz) <= 9 - ez).
  { apply Zdigits2_lt; [|lia]. split; [lia|].
    replace (9 - ez) with (9 + - ez) by lia. rewrite Z.pow_add_r by lia.
    change (2 ^ 9) with 512. assert (0 < 2 ^ (- ez)) by (apply Z.pow_pos_nonneg; lia). lia. }
  destruct (binary_round_aux_value (Zpos mz) ez loc_Exact)
    as [->|(m2 & e2 & -> & He2 & Hv)]; [lia|lia|unfold prec; lia|left; reflexivity|].
  right. exists m2, e2. split; [reflexivity|]. split; [lia|].
  cbv zeta in Hv.
  set (n := Z.max 0 (fexp prec emax (Zdigits2 (Zpos mz) + ez) - ez)) in *.
  assert (Hn : 0 <= n <= -44 - ez) by (unfold n, fexp, emin, prec, emax; lia).
  assert (H2n : 2 ^ n <= 2 ^ (-44 - ez)) by (apply Z.pow_le_mono_r; lia).
  assert (Hpow' : 2 ^ (- ez) = 17592186044416 * 2 ^ (-44 - ez)).
  { change 17592186044416 with (2 ^ 44). rewrite <- Z.pow_add_r by lia. f_equal. lia. }
  assert (P : 0 < 2 ^ (-44 - ez)) by (apply Z.pow_pos_nonneg; lia).
  set (C := 2 ^ (e2 - ez)) in *.
  assert (HC : 0 < C) by (apply Z.pow_pos_nonneg; lia).
  assert (Hsplit : 2 ^ (- ez) = 2 ^ (- e2) * C).
  { unfold C. rewrite <- Z.pow_add_r by lia. f_equal. lia. }
  apply Z.mul_lt_mono_pos_r with (p := C); [exact HC|].
  rewrite <- Z.mul_assoc, <- Hsplit. lia.
Qed.

(** Such a value divided by 360: a zero, or a finite value below 3. *)
Lemma div_by_turn (m2 : positive) (e2 : Z) :
  -1074 <= e2 <= 0 -> Zpos m2 < 361 * 2 ^ (- e2) ->
  div (S754_finite false m2 e2) Soft.full_turn = S754_zero false \/
  exists m3 e3,
    div (S754_finite false m2 e2) Soft.full_turn = S754_finite false m3 e3 /\
    e3 <= 0 /\ Zpos m3 < 3 * 2 ^ (- e3).
Proof.
  intros He2 Hm2. rewrite full_turn_value. unfold div, SFdiv, SFdiv_core_binary. cbn [xorb].
  set (MT := 6333186975989760%positive).
  change (Zdigits2 (Zpos MT)) with 53.
  assert (P2 : 0 < 2 ^ (- e2)) by (apply Z.pow_pos_nonneg; lia).
  assert (Hd1 : Zdigits2 (Zpos m2) <= 9 - e2).
  { apply Zdigits2_lt; [|lia]. split; [lia|].
    replace (9 - e2) with (9 + - e2) by lia. rewrite Z.pow_add_r by lia.
    change (2 ^ 9) with 512. lia. }
  set (e' := Z.min (fexp prec emax (Zdigits2 (Zpos m2) + e2 - (53 + -44))) (e2 - -44)).
  assert (He' : -1074 <= e' <= -53) by (unfold e', fexp, emin, prec, emax; lia).
  set (s := e2 - -44 - e').
  assert (Hs : 0 <= s) by (unfold s, e'; lia).
  set (m' := match s with
             | 0 => Zpos m2
             | Zpos _ => Z.shiftl (Zpos m2) s
             | Zneg _ => 0
             end).
  assert (Hm' : m' = Zpos m2 * 2 ^ s).
  { unfold m'. destruct s as [|p|p] eqn:Es; [change (2 ^ 0) with 1; lia| |lia].
    apply Z.shiftl_mul_pow2. lia. }
  pose proof (Z.div_eucl_eq m' (Zpos MT) ltac:(lia)) as Heq.
  pose proof (Z.mod_pos_bound m' (Zpos MT) ltac:(lia)) as Hmod.
  unfold Z.modulo in Hmod.
  destruct (Z.div_eucl m' (Zpos MT)) as [q r].
  assert (Hq0 : 0 <= q) by nia.
  assert (P2s : 0 < 2 ^ s) by (apply Z.pow_pos_nonneg; lia).
  assert (P2e : 0 < 2 ^ (- e')) by (apply Z.pow_pos_nonneg; lia).
  assert (Hpow : 2 ^ (- e2) * 2 ^ s = 17592186044416 * 2 ^ (- e')).
  { change 17592186044416 with (2 ^ 44). rewrite <- !Z.pow_add_r by lia.
    f_equal. unfold s. lia. }
  assert (Hq : q < 2 * 2 ^ (- e')).
  { assert (Zpos MT * q <= Zpos m2 * 2 ^ s) by lia.
    assert (Zpos m2 * 2 ^ s < 361 * 2 ^ (- e2) * 2 ^ s) by (apply Z.mul_lt_mono_pos_r; lia).
    subst MT. nia. }
  assert (Hdq : Zdigits2 q <= 1 - e').
  { apply Zdigits2_lt; [|lia]. split; [lia|].
    replace (1 - e') with (1 + - e') by lia. rewrite Z.pow_add_r by lia.
    change (2 ^ 1) with 2. lia. }
  destruct (binary_round_aux_value q e' (new_location (Zpos MT) r))
    as [->|(m3 & e3 & -> & He3 & Hv)]; [lia|lia|unfold prec; lia|left; reflexivity|].
  right. exists m3, e3. split; [reflexivity|]. split; [lia|].
  cbv zeta in Hv.
  set (n := Z.max 0 (fexp prec emax (Zdigits2 q + e') - e')) in *.
  pose proof (Zdigits2_nonneg q) as Hdq0.
  assert (Hn : 0 <= n <= - e') by (unfold n, fexp, emin, prec, emax; lia).
  assert (H2n : 2 ^ n <= 2 ^ (- e')) by (apply Z.pow_le_mono_r; lia).
  set (C := 2 ^ (e3 - e')) in *.
  assert (HC : 0 < C) by (apply Z.pow_pos_nonneg; lia).
  assert (Hsplit : 2 ^ (- e') = 2 ^ (- e3) * C).
  { unfold C. rewrite <- Z.pow_add_r by lia. f_equal. lia. }
  apply Z.mul_lt_mono_pos_r with (p := C); [exact HC|].
  rewrite <- Z.mul_assoc, <- Hsplit. lia.
Qed.

Lemma scale_4096_value : of_Z 4096 = S754_finite false 4503599627370496 (-40).
Proof. vm_compute. reflexivity. Qed.

(** ... and multiplied by 4096: the integral part is defined and small. *)
Lemma scaled_by_4096 (m3 : positive) (e3 : Z) :
  e3 <= 0 -> Zpos m3 < 3 * 2 ^ (- e3) ->
  exists z, Ztrunc (mul (S754_finite false m3 e3) (of_Z 4096)) = Some z /\ 0 <= z < 2 ^ 16.
Proof.
  intros He3 Hm3. rewrite scale_4096_value. unfold mul, SFmul. cbn [xorb].
  set (K := 4503599627370496%positive).
  assert (P3 : 0 < 2 ^ (- e3)) by (apply Z.pow_pos_nonneg; lia).
  assert (Hprod : Zpos (m3 * K) < 2 ^ (54 - e3)).
  { rewrite Pos2Z.inj_mul. replace (54 - e3) with (54 + - e3) by lia.
    rewrite Z.pow_add_r by lia. change (2 ^ 54) with (4 * 4503599627370496).
    subst K. lia. }
  assert (Hd : Zpos (digits2_pos (m3 * K)) <= 54 - e3).
  { apply (Zdigits2_lt (Zpos (m3 * K))); lia. }
  destruct (binary_round_aux_trunc (m3 * K) (e3 + -40) loc_Exact) as (z & Hz & Hz0 & Hzb);
    [lia|unfold prec; lia|].
  exists z. split; [exact Hz|]. split; [exact Hz0|].
  set (n := Z.max 0 (fexp prec emax (Zpos (digits2_pos (m3 * K)) + (e3 + -40)) - (e3 + -40))) in *.
  assert (Hn : 0 <= n <= 1 - e3) by (unfold n, fexp, emin, prec, emax; lia).
  assert (H2n : 2 ^ n <= 2 ^ (1 - e3)) by (apply Z.pow_le_mono_r; lia).
  replace (1 - e3) with (1 + - e3) in H2n by lia. rewrite Z.pow_add_r in H2n by lia.
  change (2 ^ 1) with 2 in H2n.
  replace (- (e3 + -40)) with (40 + - e3) in Hzb by lia.
  rewrite Z.pow_add_r in Hzb by lia. change (2 ^ 40) with 1099511627776 in Hzb.
  rewrite Pos2Z.inj_mul in Hzb. subst K.
  change (2 ^ 16) with 65536.
  destruct (Z.lt_ge_cases z 65536) as [|Hge]; [assumption|exfalso].
  assert (65536 * 2 ^ (- e3) <= z * 2 ^ (- e3)) by (apply Z.mul_le_mono_nonneg_r; lia).
  lia.
Qed.

(** Every non-negative finite angle (in degrees) has a defined phase word. *)
Lemma phase_data_raw_defined (ph : double) :
  is_double ph ->
  (exists s, ph = S754_zero s) \/ (exists m e, ph = S754_finite false m e) ->
  exists w, phase_data_raw Soft.full_turn ph = Some w /\ 0 <= w < 2 ^ 12.
Proof.
  intros Hv Hnn.
  assert (Hdef : exists z, Ztrunc (phase_scaled Soft.full_turn ph) = Some z /\ 0 <= z < 2 ^ 16).
  { destruct Hnn as [[s ->]|(m & e & ->)].
    - exists 0. destruct s; vm_compute; intuition congruence.
    - apply bounded_double in Hv. unfold phase_scaled.
      destruct (fmod_first_turn m e ltac:(lia)) as [->|(m2 & e2 & -> & He2 & Hm2)].
      + exists 0. vm_compute; intuition congruence.
      + destruct (div_by_turn m2 e2 He2 Hm2) as [->|(m3 & e3 & -> & He3 & Hm3)].
        * exists 0. vm_compute; intuition congruence.
        * apply scaled_by_4096; assumption. }
  destruct Hdef as (z & Hz & Hz0).
  assert (E : phase_data_raw Soft.full_turn ph = Some (u16 (Z.land z 0x0FFF))).
  { unfold phase_data_raw, to_unsigned. rewrite Hz.
    replace ((0 <=? z) && (z <? 2 ^ 16)) with true; [reflexivity|].
    symmetry. apply andb_true_iff. split; [apply Z.leb_le|apply Z.ltb_lt]; lia. }
  exists (u16 (Z.land z 0x0FFF)). split; [exact E|]. exact (phase_raw_range _ _ _ E).
Qed.

(** ** The phase conversion on negative angles *)

(** C3 fails on the code at -90 degrees: [fmod] keeps the sign of its
    argument, so the reduced angle is -90 (not 270), the scaled value is
    -1024, and its conversion to [uint16_t] is undefined, where 270 degrees
    gives 3072.  The same holds in radians in the HAL driver.  Even an
    implementation whose conversion wraps modulo [2^16] breaks periodicity:
    at [-(90 + 45/1024)] degrees the integral part is -1024, which wraps to
    the phase word 3072, while the same angle plus one turn gives 3071. *)
Theorem PhaseSet_negative_angle :
  fmod (of_Z (-90)) (of_Z 360) = of_Z (-90) /\
  phase_scaled Soft.full_turn (of_Z (-90)) = of_Z (-1024) /\
  phase_data_raw Soft.full_turn (of_Z (-90)) = None /\
  phase_data_raw Soft.full_turn (of_Z 270) = Some 3072 /\
  Soft.AD9833_PhaseSet CS1 0 (of_Z (-90)) power_on = Undefined power_on /\
  fmod (SFopp PI) HAL.full_turn = SFopp PI /\
  phase_data_raw HAL.full_turn (SFopp PI) = None /\
  phase_data_raw HAL.full_turn PI = Some 2048 /\
  Ztrunc (phase_scaled Soft.full_turn minus_90_and_half_step) = Some (-1024) /\
  Z.land (u16 (-1024)) 0x0FFF = 3072 /\
  phase_data_raw Soft.full_turn plus_270_less_half_step = Some 3071.
Proof. vm_compute. repeat split; reflexivity. Qed.

(** ** Invalid selectors *)

Lemma emit_emit (a b : list pin_event) (st : driver_state) :
  emit b (emit a st) = emit (a ++ b) st.
Proof. unfold emit. cbn. now rewrite app_assoc. Qed.

(** An identity that no [case] of [AD9833_Write] and no branch of
    [AD9833_GetShadowCtrlReg] recognises: every operation returns at once. *)
Lemma unknown_chip_is_noop (choice : chipChose) (st : driver_state) :
  choice <> CS1 -> choice <> CS2 -> choice <> CS_BOTH ->
  (forall reg, Soft.AD9833_SelectFreqReg choice reg st = st) /\
  (forall reg, Soft.AD9833_SelectPhaseReg choice reg st = st) /\
  (forall wave, Soft.AD9833_SetWaveformAndStart choice wave st = st) /\
  (forall active, Soft.AD9833_Reset choice active st = st) /\
  (forall s1 s12, Soft.AD9833_Sleep choice s1 s12 st = st) /\
  (forall reg f raw, freq_data_raw f = Some raw ->
     Soft.AD9833_FreqSet choice reg f st = Returns st) /\
  (forall reg ph w, phase_data_raw Soft.full_turn ph = Some w ->
     Soft.AD9833_PhaseSet choice reg ph st = Returns st).
Proof.
  intros N1 N2 N3.
  assert (Hnone : AD9833_GetShadowCtrlReg choice = None) by (apply GetShadowCtrlReg_None; auto).
  unfold Soft.AD9833_SelectFreqReg, Soft.AD9833_SelectPhaseReg, Soft.AD9833_SetWaveformAndStart,
    Soft.AD9833_Reset, Soft.AD9833_Sleep, Soft.AD9833_FreqSet, Soft.AD9833_PhaseSet,
    AD9833_SelectFreqReg, AD9833_SelectPhaseReg, AD9833_SetWaveformAndStart,
    AD9833_Reset, AD9833_Sleep, AD9833_FreqSet, AD9833_PhaseSet.
  rewrite Hnone. repeat split; try reflexivity.
  - intros reg f raw ->. rewrite !Soft_Write_unknown by assumption.
    destruct (reg =? 0), (reg =? 1); reflexivity.
  - intros reg ph w ->. rewrite !Soft_Write_unknown by assumption.
    destruct (reg =? 0), (reg =? 1); reflexivity.
Qed.

(** A register number other than 0 and 1 makes [AD9833_FreqSet] and
    [AD9833_PhaseSet] return before anything is written. *)
Lemma invalid_register_is_noop (choice : chipChose) (reg : Z) (st : driver_state) :
  reg <> 0 -> reg <> 1 ->
  (forall f raw, freq_data_raw f = Some raw ->
     Soft.AD9833_FreqSet choice reg f st = Returns st) /\
  (forall ph w, phase_data_raw Soft.full_turn ph = Some w ->
     Soft.AD9833_PhaseSet choice reg ph st = Returns st).
Proof.
  intros N0 N1. unfold Soft.AD9833_FreqSet, Soft.AD9833_PhaseSet, AD9833_FreqSet, AD9833_PhaseSet.
  destruct (Z.eqb_spec reg 0); [contradiction|]. destruct (Z.eqb_spec reg 1); [contradiction|].
  split; intros ? ? ->; reflexivity.
Qed.

(** [AD9833_SelectFreqReg] and [AD9833_SelectPhaseReg] have no such test:
    any register number other than 0 acts as 1. *)
Lemma Select_nonzero_as_one (choice : chipChose) (reg : Z) (st : driver_state) :
  reg <> 0 ->
  Soft.AD9833_SelectFreqReg choice reg st = Soft.AD9833_SelectFreqReg choice 1 st /\
  Soft.AD9833_SelectPhaseReg choice reg st = Soft.AD9833_SelectPhaseReg choice 1 st.
Proof.
  intros N0. unfold Soft.AD9833_SelectFreqReg, Soft.AD9833_SelectPhaseReg,
    AD9833_SelectFreqReg, AD9833_SelectPhaseReg.
  destruct (Z.eqb_spec reg 0); [contradiction|]. split; reflexivity.
Qed.

(** C4 fails on the code at register number 2: [AD9833_SelectFreqReg] and
    [AD9833_SelectPhaseReg] set the select bit in the shadow and transmit it,
    in both drivers, where [AD9833_FreqSet] and [AD9833_PhaseSet] called with
    the same number return without writing. *)
Theorem Select_out_of_range_register_transmits :
  Soft.AD9833_SelectFreqReg CS1 2 power_on =
    {| s_control_reg_cs1 := 0x2900; s_control_reg_cs2 := 0x2100;
       bus := [CS1_L; SPI_TX 0x2900; CS1_H] |} /\
  Soft.AD9833_SelectPhaseReg CS2 2 power_on =
    {| s_control_reg_cs1 := 0x2100; s_control_reg_cs2 := 0x2500;
       bus := [CS2_L; SPI_TX 0x2500; CS2_H] |} /\
  HAL.AD9833_SelectFreqReg CS1 2 power_on =
    {| s_control_reg_cs1 := 0x2900; s_control_reg_cs2 := 0x2100;
       bus := [CS1_L; SPI_TX 0x2900; CS1_H] |} /\
  Soft.AD9833_FreqSet CS1 2 (of_Z 1000) power_on = Returns power_on /\
  Soft.AD9833_PhaseSet CS2 2 (of_Z 90) power_on = Returns power_on.
Proof. vm_compute. repeat split; reflexivity. Qed.

(** ** Absent configuration *)

(** C9 fails on the software-SPI driver: [AD9833_Cmd] reads
    [AD_InitStruct->status] at once, and [AD9833_Cmd_Sync] broadcasts the
    reset word and then reads [AD_InitStruct->AD_CS1.freqReg]; with a null
    pointer neither is a no-op.  Both hardware-SPI drivers test the pointer
    (and the handle in it) first and return. *)
Theorem null_configuration (st : driver_state) :
  Soft.AD9833_Cmd None st = Undefined st /\
  Soft.AD9833_Cmd_Sync None st = Undefined (emit (broadcast_frame 0x2100) st) /\
  HAL.AD9833_Cmd None st = Returns st /\
  HAL_v1.AD9833_Cmd None st = Returns st /\
  HAL_v1.AD9833_Cmd_Sync None st = Returns st /\
  (forall cfg, HAL.AD9833_Cmd (Some {| hspi := None; HAL_cfg := cfg |}) st = Returns st).
Proof. repeat split. Qed.

(** ** The shadow registers after a synchronised start *)

(** C1 fails on the code after [AD9833_Cmd_Sync]: the broadcast reset and
    start words are sent with no shadow written.  From power-on, with both
    channels Sine on bank 0, the last control word either chip received is the
    start word 0x2000 while both shadows hold 0x2100 (RESET set); a later
    [AD9833_SelectPhaseReg] then sends RESET = 1 to a running chip.  And after
    an [AD9833_Cmd] has cleared RESET in the shadows, [AD9833_Cmd_Sync] sends
    chip 1 the stale word 0x2000 right after the broadcast reset, releasing it
    before the common start. *)
Theorem Cmd_Sync_leaves_shadows_stale :
  let st := run (Soft.AD9833_Cmd_Sync (Some both_sine) power_on) in
  Soft.AD9833_Cmd_Sync (Some both_sine) power_on = Returns st /\
  last_control_word ChipA (bus st) = Some 0x2000 /\ shadow_of ChipA st = 0x2100 /\
  last_control_word ChipB (bus st) = Some 0x2000 /\ shadow_of ChipB st = 0x2100 /\
  last_control_word ChipA (bus (Soft.AD9833_SelectPhaseReg CS1 1 st)) = Some 0x2500 /\
  (let st1 := run (Soft.AD9833_Cmd (Some both_sine) power_on) in
   shadow_of ChipA st1 = 0x2000 /\
   firstn 3 (latched ChipA (bus (run (Soft.AD9833_Cmd_Sync (Some both_sine)
                                        {| s_control_reg_cs1 := s_control_reg_cs1 st1;
                                           s_control_reg_cs2 := s_control_reg_cs2 st1;
                                           bus := [] |}))))
     = [0x2100; 0x2000; 0x4000 + 10737]).
Proof. vm_compute. repeat split; reflexivity. Qed.

(** ** [AD9833_FreqSet] and [AD9833_PhaseSet] on the bus *)

Lemma testbit_high (w n : Z) : 0 <= w < 2 ^ 16 -> 16 <= n -> Z.testbit w n = false.
Proof.
  intros Hw Hn. rewrite <- (u16_small w Hw), testbit_u16 by lia.
  replace (n <? 16) with false by (symmetry; apply Z.ltb_ge; lia). apply andb_false_r.
Qed.

Lemma lor_16bit (a b : Z) : 0 <= a < 2 ^ 16 -> 0 <= b < 2 ^ 16 -> 0 <= Z.lor a b < 2 ^ 16.
Proof.
  intros Ha Hb. replace (Z.lor a b) with (u16 (Z.lor a b)); [apply u16_range|].
  apply Z.bits_inj'. intros n Hn. rewrite testbit_u16 by lia.
  destruct (Z.ltb_spec n 16); [apply andb_true_r|].
  rewrite Z.lor_spec, !testbit_high by lia. reflexivity.
Qed.

Lemma fragments_inv (f : double) (lo hi : Z) :
  freq_fragments f = Some (lo, hi) ->
  exists raw, freq_data_raw f = Some raw /\ lo = freq_LSB raw /\ hi = freq_MSB raw.
Proof.
  unfold freq_fragments. destruct (freq_data_raw f) as [raw|]; [|discriminate].
  intros [= <- <-]. eauto.
Qed.

Lemma fragments_range (f : double) (lo hi : Z) :
  freq_fragments f = Some (lo, hi) -> 0 <= lo < 2 ^ 14 /\ 0 <= hi < 2 ^ 14.
Proof.
  intros H. apply fragments_inv in H. destruct H as (raw & _ & -> & ->).
  unfold freq_LSB, freq_MSB. change 0x3FFF with (Z.ones 14).
  rewrite !Z.land_ones by lia.
  assert (H1 : 0 <= raw mod 2 ^ 14 < 2 ^ 14) by (apply Z.mod_pos_bound; lia).
  assert (H2 : 0 <= Z.shiftr raw 14 mod 2 ^ 14 < 2 ^ 14) by (apply Z.mod_pos_bound; lia).
  rewrite !u16_small; [auto| |]; change (2 ^ 16) with (4 * 2 ^ 14); lia.
Qed.


(** C5. For a valid chip identity, register number 0 or 1 and any
    frequency that is a number, [AD9833_FreqSet] sends exactly two 16-bit
    words to that chip and changes nothing else: the register's command
    prefix ORed with the low 14-bit fragment, then the same prefix ORed with
    the high 14-bit fragment, in the software-SPI and in the HAL driver. *)
Theorem FreqSet_low_then_high
    (st : driver_state) (choice : chipChose) (p : shadow_ptr)
    (freq_reg_num : Z) (freq : double) :
  AD9833_GetShadowCtrlReg choice = Some p ->
  freq_reg_num = 0 \/ freq_reg_num = 1 ->
  is_double freq -> is_nan freq = false ->
  exists low14 high14,
    freq_fragments freq = Some (low14, high14) /\
    0 <= Z.lor (freq_cmd freq_reg_num) low14 < 2 ^ 16 /\
    0 <= Z.lor (freq_cmd freq_reg_num) high14 < 2 ^ 16 /\
    Soft.AD9833_FreqSet choice freq_reg_num freq st =
      Returns (emit (single_frame p (Z.lor (freq_cmd freq_reg_num) low14) ++
                     single_frame p (Z.lor (freq_cmd freq_reg_num) high14)) st) /\
    HAL.AD9833_FreqSet choice freq_reg_num freq st =
      Returns (emit (single_frame p (Z.lor (freq_cmd freq_reg_num) low14) ++
                     single_frame p (Z.lor (freq_cmd freq_reg_num) high14)) st).
Proof.
  intros Hp Hreg Hv Hn.
  destruct (freq_fragments_defined freq Hv Hn) as (raw & _ & _ & Hraw & Hf).
  exists (raw mod 2 ^ 14), (raw / 2 ^ 14). split; [exact Hf|].
  destruct (fragments_range _ _ _ Hf) as [Hlo Hhi].
  destruct (fragments_inv _ _ _ Hf) as (raw' & Hraw' & Elo & Ehi).
  rewrite Hraw in Hraw'. injection Hraw' as <-.
  assert (Hc : 0 <= freq_cmd freq_reg_num < 2 ^ 16)
    by (destruct Hreg as [-> | ->]; vm_compute; intuition congruence).
  assert (Hw1 : 0 <= Z.lor (freq_cmd freq_reg_num) (raw mod 2 ^ 14) < 2 ^ 16)
    by (apply lor_16bit; [exact Hc|change (2 ^ 16) with (4 * 2 ^ 14); lia]).
  assert (Hw2 : 0 <= Z.lor (freq_cmd freq_reg_num) (raw / 2 ^ 14) < 2 ^ 16)
    by (apply lor_16bit; [exact Hc|change (2 ^ 16) with (4 * 2 ^ 14); lia]).
  split; [exact Hw1|]. split; [exact Hw2|].
  unfold Soft.AD9833_FreqSet, HAL.AD9833_FreqSet, AD9833_FreqSet. rewrite Hraw.
  rewrite <- Elo, <- Ehi. rewrite <- emit_emit.
  destruct Hreg as [-> | ->]; cbn [Z.eqb Pos.eqb]; fold (freq_cmd 0); fold (freq_cmd 1);
    rewrite !(Soft_Write_single _ _ _ _ Hp), !(HAL_Write_single _ _ _ _ Hp) by assumption;
    split; reflexivity.
Qed.

Lemma FreqSet_low_then_high_witness :
  Soft.AD9833_FreqSet CS1 0 (of_Z 1000000) power_on =
    Returns (emit [CS1_L; SPI_TX (Z.lor 0x4000 5898); CS1_H;
                   CS1_L; SPI_TX (Z.lor 0x4000 655); CS1_H] power_on).
Proof.
  destruct (FreqSet_low_then_high power_on CS1 p_control_reg_cs1 0 (of_Z 1000000)
              eq_refl (or_introl eq_refl) eq_refl eq_refl)
    as (lo & hi & Hf & _ & _ & Hs & _).
  vm_compute in Hf. injection Hf as <- <-. exact Hs.
Defined.

(** ** The broadcast identity *)

(** C10. With [CS_BOTH], [AD9833_FreqSet] and [AD9833_PhaseSet] of the
    software-SPI driver send their command words with both chip selects low
    around each word, so that both chips receive them, while
    [AD9833_SelectFreqReg], [AD9833_SelectPhaseReg],
    [AD9833_SetWaveformAndStart], [AD9833_Reset] and [AD9833_Sleep] do
    nothing at all: [AD9833_GetShadowCtrlReg] has no register for it. *)
Theorem broadcast_identity_in_per_chip_operations
    (st : driver_state) (reg : Z) (freq phase : double) (low14 high14 w : Z) :
  reg = 0 \/ reg = 1 ->
  freq_fragments freq = Some (low14, high14) ->
  phase_data_raw Soft.full_turn phase = Some w ->
  Soft.AD9833_FreqSet CS_BOTH reg freq st =
    Returns (emit ([CS1_L; CS2_L; SPI_TX (Z.lor (freq_cmd reg) low14); CS1_H; CS2_H] ++
                   [CS1_L; CS2_L; SPI_TX (Z.lor (freq_cmd reg) high14); CS1_H; CS2_H]) st) /\
  Soft.AD9833_PhaseSet CS_BOTH reg phase st =
    Returns (emit [CS1_L; CS2_L; SPI_TX (Z.lor (phase_cmd reg) w); CS1_H; CS2_H] st) /\
  (forall c x, latched c [CS1_L; CS2_L; SPI_TX x; CS1_H; CS2_H] = [x]) /\
  AD9833_GetShadowCtrlReg CS_BOTH = None /\
  (forall r, Soft.AD9833_SelectFreqReg CS_BOTH r st = st) /\
  (forall r, Soft.AD9833_SelectPhaseReg CS_BOTH r st = st) /\
  (forall wv, Soft.AD9833_SetWaveformAndStart CS_BOTH wv st = st) /\
  (forall active, Soft.AD9833_Reset CS_BOTH active st = st) /\
  (forall s1 s12, Soft.AD9833_Sleep CS_BOTH s1 s12 st = st).
Proof.
  intros Hreg Hf Hph.
  destruct (fragments_inv _ _ _ Hf) as (raw & Hraw & -> & ->).
  split; [|split; [|split; [|repeat split]]].
  - unfold Soft.AD9833_FreqSet, AD9833_FreqSet. rewrite Hraw.
    destruct Hreg as [-> | ->]; cbn [Z.eqb Pos.eqb]; rewrite !Soft_Write_broadcast, emit_emit;
      reflexivity.
  - unfold Soft.AD9833_PhaseSet, AD9833_PhaseSet. rewrite Hph.
    destruct Hreg as [-> | ->]; cbn [Z.eqb Pos.eqb]; rewrite !Soft_Write_broadcast; reflexivity.
  - intros [|] x; reflexivity.
Qed.

Lemma broadcast_identity_in_per_chip_operations_witness :
  Soft.AD9833_FreqSet CS_BOTH 1 (of_Z 1000000) power_on =
    Returns (emit ([CS1_L; CS2_L; SPI_TX (Z.lor 0x8000 5898); CS1_H; CS2_H] ++
                   [CS1_L; CS2_L; SPI_TX (Z.lor 0x8000 655); CS1_H; CS2_H]) power_on) /\
  Soft.AD9833_PhaseSet CS_BOTH 1 (of_Z 180) power_on =
    Returns (emit [CS1_L; CS2_L; SPI_TX (Z.lor 0xE000 2048); CS1_H; CS2_H] power_on).
Proof.
  destruct (broadcast_identity_in_per_chip_operations power_on 1 (of_Z 1000000) (of_Z 180)
              5898 655 2048 (or_intror eq_refl) eq_refl eq_refl) as (Hf & Hp & _).
  split; [exact Hf|exact Hp].
Defined.

(** ** The synchronised start *)

Lemma latched_frames (c : chip) (p : shadow_ptr) (ws : list Z) (rest : list pin_event) :
  latched_from c false (frames p ws ++ rest) =
    (if match c, p with
        | ChipA, p_control_reg_cs1 | ChipB, p_control_reg_cs2 => true
        | _, _ => false
        end then ws else []) ++ latched_from c false rest.
Proof.
  induction ws as [|w ws IH]; [destruct c, p; reflexivity|].
  change (frames p (w :: ws)) with (single_frame p w ++ frames p ws).
  rewrite <- app_assoc.
  destruct c, p; cbn [single_frame app latched_from select_after]; rewrite IH; reflexivity.
Qed.


Lemma is_control_word_bits (w : Z) :
  is_control_word w = true <-> Z.testbit w 14 = false /\ Z.testbit w 15 = false.
Proof.
  unfold is_control_word, AD9833_CMD_CTRLREG. rewrite Z.eqb_eq. split.
  - intros H. split.
    + assert (E : Z.testbit (Z.land w 0xC000) 14 = false) by (rewrite H; apply Z.bits_0).
      rewrite Z.land_spec in E. change (Z.testbit 0xC000 14) with true in E.
      now rewrite andb_true_r in E.
    + assert (E : Z.testbit (Z.land w 0xC000) 15 = false) by (rewrite H; apply Z.bits_0).
      rewrite Z.land_spec in E. change (Z.testbit 0xC000 15) with true in E.
      now rewrite andb_true_r in E.
  - intros [H14 H15]. apply Z.bits_inj'. intros n Hn.
    rewrite Z.land_spec, Z.bits_0.
    destruct (Z.eq_dec n 14) as [->|N14]; [now rewrite H14|].
    destruct (Z.eq_dec n 15) as [->|N15]; [now rewrite H15|].
    replace (Z.testbit 0xC000 n) with false; [apply andb_false_r|].
    symmetry. change 0xC000 with (Z.lor (2 ^ 14) (2 ^ 15)).
    rewrite Z.lor_spec, !Z.pow2_bits_eqb by lia.
    destruct (Z.eqb_spec 14 n), (Z.eqb_spec 15 n); first [lia | reflexivity].
Qed.

Lemma data_word_not_control (cmd payload : Z) :
  Z.testbit cmd 14 = true \/ Z.testbit cmd 15 = true ->
  is_control_word (Z.lor cmd payload) = false.
Proof.
  intros H. destruct (is_control_word (Z.lor cmd payload)) eqn:E; [|reflexivity].
  apply is_control_word_bits in E. rewrite !Z.lor_spec in E.
  destruct E as [E14 E15]. apply orb_false_iff in E14, E15.
  destruct H as [H|H]; rewrite H in *; intuition discriminate.
Qed.





(** ** Where the shadow registers do track the chips *)

Lemma latched_from_app (c : chip) (low : bool) (t1 t2 : list pin_event) :
  latched_from c low (t1 ++ t2) =
    latched_from c low t1 ++ latched_from c (fold_left (select_after c) t1 low) t2.
Proof.
  revert low. induction t1 as [|ev t1 IH]; intros low; [reflexivity|].
  destruct ev; cbn [app latched_from fold_left]; try apply IH.
  destruct low; cbn [app]; rewrite IH; destruct c; reflexivity.
Qed.

Lemma control_word_set (s m : Z) :
  is_control_word s = true -> control_mask m -> is_control_word (u16 (Z.lor s m)) = true.
Proof.
  rewrite !is_control_word_bits. intros [H14 H15] [M14 M15].
  rewrite !testbit_set by lia. now rewrite H14, H15, M14, M15.
Qed.

Lemma control_word_clear (s m : Z) :
  is_control_word s = true -> is_control_word (u16 (Z.land s (not32 m))) = true.
Proof.
  rewrite !is_control_word_bits. intros [H14 H15].
  rewrite !testbit_clear by lia. now rewrite H14, H15.
Qed.

Lemma last_control_word_app (c : chip) (tr evs : list pin_event) :
  fold_left (select_after c) tr false = false ->
  last_control_word c (tr ++ evs) =
    match last_control_word c evs with
    | Some w => Some w
    | None => last_control_word c tr
    end.
Proof.
  intros Hidle. unfold last_control_word, latched.
  rewrite latched_from_app, Hidle, filter_app, map_app.
  set (new := map Some (filter is_control_word (latched_from c false evs))).
  destruct new as [|x new'] eqn:E using rev_ind; [now rewrite app_nil_r|].
  assert (Hx : exists w, x = Some w).
  { assert (Hin : In x (map Some (filter is_control_word (latched_from c false evs))))
      by (fold new; rewrite E; apply in_or_app; right; left; reflexivity).
    apply in_map_iff in Hin. destruct Hin as (w & <- & _). eauto. }
  destruct Hx as [w ->]. rewrite app_assoc, !last_last. reflexivity.
Qed.

Lemma deref_shadow_of (p : shadow_ptr) (st : driver_state) :
  deref p st = shadow_of (chip_of p) st.
Proof. destruct p; reflexivity. Qed.

(** Sending one chip its freshly written shadow keeps the invariant. *)
Lemma in_sync_control (st st1 : driver_state) (p : shadow_ptr) :
  in_sync st ->
  bus st1 = bus st -> deref (other p) st1 = deref (other p) st ->
  is_control_word (deref p st1) = true ->
  in_sync (emit (single_frame p (deref p st1)) st1).
Proof.
  intros Hs Hbus Hother Hctrl c. destruct (Hs c) as (Hidle & Hc & Hlast).
  unfold emit. cbn [bus]. rewrite Hbus, fold_left_app, Hidle.
  rewrite last_control_word_app by exact Hidle.
  unfold last_control_word, latched in *.
  destruct p, c;
    cbn [deref other shadow_of single_frame s_control_reg_cs1 s_control_reg_cs2
         fold_left select_after latched_from filter map last] in *;
    rewrite ?Hctrl; cbn [map last]; rewrite ?Hother; auto.
Qed.

(** Frequency and phase words do not touch the control register. *)
Lemma in_sync_data (st : driver_state) (evs : list pin_event) :
  in_sync st ->
  (forall c, fold_left (select_after c) evs false = false) ->
  (forall c, filter is_control_word (latched c evs) = []) ->
  in_sync (emit evs st).
Proof.
  intros Hs Hidle' Hnone c. destruct (Hs c) as (Hidle & Hc & Hlast).
  unfold emit. cbn [bus shadow_of]. rewrite fold_left_app, Hidle.
  rewrite last_control_word_app by exact Hidle.
  unfold last_control_word at 1. rewrite Hnone. cbn [map last].
  destruct c; auto.
Qed.

Lemma in_sync_Init (status : workStatus) (st : driver_state) :
  in_sync (Soft.AD9833_Init status st).
Proof.
  intros c. unfold Soft.AD9833_Init, AD9833_Init, Soft.AD9833_Write, emit, last_control_word, latched.
  destruct st as [s1 s2 b].
  destruct (status =? CS1_SINGLE); [|destruct (status =? CS2_SINGLE);
    [|destruct (status =? CS1_CS2_DOUBLE)]];
    cbn [bus s_control_reg_cs1 s_control_reg_cs2 assign set_bits deref shadow_of
         Z.eqb Pos.eqb CS1 CS2 Soft.AD9833_Write_Software app Soft.init_pins];
    rewrite <- !app_assoc; cbn [app];
    rewrite fold_left_app, latched_from_app;
    destruct (fold_left (select_after c) b false), c;
    cbn [fold_left select_after latched_from];
    rewrite filter_app, map_app;
    (split; [reflexivity|split; [reflexivity|]]);
    match goal with
    | |- last (?l ++ ?r) None = _ =>
        let r' := eval vm_compute in r in
        change r with r'
    end;
    change (?l ++ [?x]) with (l ++ [x]); rewrite last_last; reflexivity.
Qed.

Lemma bus_assign (p : shadow_ptr) (v : Z) (st : driver_state) :
  bus (assign p v st) = bus st.
Proof. destruct p; reflexivity. Qed.

Lemma deref_assign (p : shadow_ptr) (v : Z) (st : driver_state) :
  deref p (assign p v st) = u16 v.
Proof. destruct p; reflexivity. Qed.

Lemma deref_other_assign (p : shadow_ptr) (v : Z) (st : driver_state) :
  deref (other p) (assign p v st) = deref (other p) st.
Proof. destruct p; reflexivity. Qed.

Ltac split_ifs :=
  repeat match goal with
  | |- context [if ?b then _ else _] => destruct b
  end.

Ltac control_chain Hs :=
  unfold clear_bits, set_bits; split_ifs; unfold clear_bits, set_bits;
  repeat first
    [ rewrite bus_assign | rewrite deref_assign | rewrite deref_other_assign
    | apply control_word_clear | apply control_word_set; [|split; reflexivity] ];
  try reflexivity;
  try (rewrite deref_shadow_of; apply Hs).

(** Every operation that rewrites one chip's control register keeps the
    invariant, whatever identity it is called with. *)
Lemma in_sync_control_operations (st : driver_state) (choice : chipChose) :
  in_sync st ->
  (forall reg, in_sync (Soft.AD9833_SelectFreqReg choice reg st)) /\
  (forall reg, in_sync (Soft.AD9833_SelectPhaseReg choice reg st)) /\
  (forall wave, in_sync (Soft.AD9833_SetWaveformAndStart choice wave st)) /\
  (forall active, in_sync (Soft.AD9833_Reset choice active st)) /\
  (forall s1 s12, in_sync (Soft.AD9833_Sleep choice s1 s12 st)).
Proof.
  intros Hs.
  unfold Soft.AD9833_SelectFreqReg, Soft.AD9833_SelectPhaseReg, Soft.AD9833_SetWaveformAndStart,
    Soft.AD9833_Reset, Soft.AD9833_Sleep, AD9833_SelectFreqReg, AD9833_SelectPhaseReg,
    AD9833_SetWaveformAndStart, AD9833_Reset, AD9833_Sleep.
  destruct (AD9833_GetShadowCtrlReg choice) as [p|] eqn:Hp;
    [|repeat (split; [intros; exact Hs|]); intros; exact Hs].
  assert (Hop : forall st1,
            bus st1 = bus st -> deref (other p) st1 = deref (other p) st ->
            is_control_word (deref p st1) = true ->
            in_sync (Soft.AD9833_Write choice (deref p st1) st1)).
  { intros st1 Hb Ho Hc. rewrite (Soft_Write_single _ _ _ _ Hp).
    apply in_sync_control with (st := st); assumption. }
  repeat (split; [intros; cbv zeta; apply Hop; control_chain Hs|]).
  intros; cbv zeta; apply Hop; control_chain Hs.
Qed.

Lemma in_sync_Write_data (st : driver_state) (choice : chipChose) (cmd payload : Z) :
  in_sync st ->
  Z.testbit cmd 14 = true \/ Z.testbit cmd 15 = true ->
  in_sync (Soft.AD9833_Write choice (Z.lor cmd payload) st).
Proof.
  intros Hs Hcmd. pose proof (data_word_not_control cmd payload Hcmd) as Hd.
  unfold Soft.AD9833_Write, Soft.AD9833_Write_Software.
  split_ifs; try exact Hs;
    (apply in_sync_data; [exact Hs| |]); intros [|]; unfold latched;
    cbn [app fold_left select_after latched_from filter]; rewrite ?Hd; reflexivity.
Qed.

Lemma Returns_inj (a b : driver_state) : Returns a = Returns b -> a = b.
Proof. congruence. Qed.

Lemma in_sync_FreqSet (st st' : driver_state) (choice : chipChose) (reg : Z) (f : double) :
  in_sync st -> Soft.AD9833_FreqSet choice reg f st = Returns st' -> in_sync st'.
Proof.
  intros Hs. unfold Soft.AD9833_FreqSet, AD9833_FreqSet.
  destruct (freq_data_raw f) as [raw|]; [|discriminate].
  destruct (reg =? 0); [|destruct (reg =? 1)];
    intros H; apply Returns_inj in H; subst st'; try exact Hs;
    cbv beta zeta; repeat apply in_sync_Write_data; try exact Hs;
    first [left; reflexivity | right; reflexivity].
Qed.

Lemma in_sync_PhaseSet (st st' : driver_state) (choice : chipChose) (reg : Z) (ph : double) :
  in_sync st -> Soft.AD9833_PhaseSet choice reg ph st = Returns st' -> in_sync st'.
Proof.
  intros Hs. unfold Soft.AD9833_PhaseSet, AD9833_PhaseSet.
  destruct (phase_data_raw Soft.full_turn ph) as [w|]; [|discriminate].
  destruct (reg =? 0); [|destruct (reg =? 1)];
    intros H; apply Returns_inj in H; subst st'; try exact Hs;
    apply in_sync_Write_data; try exact Hs;
    first [left; reflexivity | right; reflexivity].
Qed.

Lemma bind_Returns (m : outcome) (k : driver_state -> outcome) (st' : driver_state) :
  bind m k = Returns st' -> exists st1, m = Returns st1 /\ k st1 = Returns st'.
Proof. destruct m as [st1|st1]; [eauto|discriminate]. Qed.

Lemma in_sync_Cmd (cfg : AD9833_InitTypedef) (st st' : driver_state) :
  Soft.AD9833_Cmd (Some cfg) st = Returns st' -> in_sync st'.
Proof.
  unfold Soft.AD9833_Cmd, AD9833_Cmd_body.
  pose proof (in_sync_Init (status cfg) st) as H0.
  fold (Soft.AD9833_Init (status cfg) st).
  set (st0 := Soft.AD9833_Init (status cfg) st) in *. clearbody st0.
  assert (Hchan : forall choice c s0 s1, in_sync s0 ->
    (let s := AD9833_SelectFreqReg Soft.AD9833_Write choice (freqReg c) s0 in
     let s := AD9833_SelectPhaseReg Soft.AD9833_Write choice (phaseReg c) s in
     do s <- AD9833_FreqSet Soft.AD9833_Write choice (freqReg c) (freq c) s;
     do s <- AD9833_PhaseSet Soft.AD9833_Write Soft.full_turn choice (phaseReg c) (phase c) s;
     Returns (AD9833_SetWaveformAndStart Soft.AD9833_Write choice (wave c) s)) = Returns s1 ->
    in_sync s1).
  { intros choice c s0 s1 Hs0. cbv zeta. intros H.
    apply bind_Returns in H. destruct H as (sa & Ha & H).
    apply bind_Returns in H. destruct H as (sb & Hb & H).
    apply Returns_inj in H. subst s1.
    apply in_sync_control_operations.
    eapply in_sync_PhaseSet; [|exact Hb].
    eapply in_sync_FreqSet; [|exact Ha].
    apply in_sync_control_operations. apply in_sync_control_operations. exact Hs0. }
  intros H. apply bind_Returns in H. destruct H as (s1 & H1 & H2).
  assert (Hs1 : in_sync s1).
  { destruct ((status cfg =? CS1_SINGLE) || (status cfg =? CS1_CS2_DOUBLE)).
    - eapply Hchan; [exact H0|exact H1].
    - apply Returns_inj in H1. subst s1. exact H0. }
  destruct ((status cfg =? CS2_SINGLE) || (status cfg =? CS1_CS2_DOUBLE)).
  - eapply Hchan; [exact Hs1|exact H2].
  - apply Returns_inj in H2. subst st'. exact Hs1.
Qed.

(** Outside the synchronised start the shadow registers do what they are
    for: after [AD9833_Init], and after any sequence of the per-chip
    operations or [AD9833_Cmd] that follows it, each shadow equals the last
    control word its chip has received. *)
Theorem shadow_tracks_chip_outside_Cmd_Sync :
  (forall status st, in_sync (Soft.AD9833_Init status st)) /\
  (forall cfg st st', Soft.AD9833_Cmd (Some cfg) st = Returns st' -> in_sync st') /\
  (forall st choice, in_sync st ->
     (forall reg, in_sync (Soft.AD9833_SelectFreqReg choice reg st)) /\
     (forall reg, in_sync (Soft.AD9833_SelectPhaseReg choice reg st)) /\
     (forall wave, in_sync (Soft.AD9833_SetWaveformAndStart choice wave st)) /\
     (forall active, in_sync (Soft.AD9833_Reset choice active st)) /\
     (forall s1 s12, in_sync (Soft.AD9833_Sleep choice s1 s12 st)) /\
     (forall reg f st', Soft.AD9833_FreqSet choice reg f st = Returns st' -> in_sync st') /\
     (forall reg ph st', Soft.AD9833_PhaseSet choice reg ph st = Returns st' -> in_sync st')).
Proof.
  split; [exact in_sync_Init|]. split; [exact in_sync_Cmd|].
  intros st choice Hs.
  destruct (in_sync_control_operations st choice Hs) as (H1 & H2 & H3 & H4 & H5).
  repeat (split; [assumption|]). split; intros.
  - eapply in_sync_FreqSet; eauto.
  - eapply in_sync_PhaseSet; eauto.
Qed.

(** * Further properties *)

(** ** The bit-banged transfer *)

Lemma bit15_test (w : Z) : negb (Z.land w 0x8000 =? 0) = Z.testbit w 15.
Proof.
  change 0x8000 with (2 ^ 15).
  destruct (Z.testbit w 15) eqn:E.
  - apply negb_true_iff, Z.eqb_neq. intros H.
    assert (Z.testbit (Z.land w (2 ^ 15)) 15 = true)
      by (rewrite Z.land_spec, E, Z.pow2_bits_true by lia; reflexivity).
    rewrite H, Z.bits_0 in H0. discriminate.
  - apply negb_false_iff, Z.eqb_eq. apply Z.bits_inj'. intros n Hn.
    rewrite Z.land_spec, Z.bits_0.
    destruct (Z.eq_dec n 15) as [->|Hne]; [rewrite E; reflexivity|].
    rewrite Z.pow2_bits_false by lia. apply andb_false_r.
Qed.

Lemma top_bits_S (n : nat) (w : Z) :
  (n < 16)%nat ->
  Wire.top_bits (S n) w = Z.testbit w 15 :: Wire.top_bits n (u16 (Z.shiftl w 1)).
Proof.
  intros Hn. unfold Wire.top_bits. change (seq 0 (S n)) with (0%nat :: seq 1 n).
  rewrite <- seq_shift. cbn [map]. rewrite map_map. f_equal.
  apply map_ext_in. intros i Hi. apply in_seq in Hi.
  rewrite testbit_u16 by lia. rewrite Z.shiftl_spec by lia.
  replace (15 - Z.of_nat i <? 16) with true by (symmetry; apply Z.ltb_lt; lia).
  rewrite andb_true_r. f_equal. lia.
Qed.

Lemma shift_out_edges (n : nat) : forall (w : Z) (mosi : bool),
  (n <= 16)%nat ->
  Wire.falling_edges true mosi (Wire.shift_out n w) = Wire.top_bits n w /\
  Wire.clock_after true (Wire.shift_out n w) = true.
Proof.
  induction n as [|n IH]; intros w mosi Hn; [split; reflexivity|].
  cbn [Wire.shift_out]. rewrite bit15_test, top_bits_S by lia.
  destruct (IH (u16 (Z.shiftl w 1)) (Z.testbit w 15) ltac:(lia)) as [IHe IHc].
  split.
  - destruct (Z.testbit w 15); cbn [Wire.falling_edges]; rewrite IHe; reflexivity.
  - destruct (Z.testbit w 15); exact IHc.
Qed.

Lemma shift_out_edges_clock_low (n : nat) (w : Z) (mosi : bool) :
  (n < 16)%nat ->
  Wire.falling_edges false mosi (Wire.shift_out (S n) w) =
    Wire.top_bits n (u16 (Z.shiftl w 1)) /\
  Wire.clock_after false (Wire.shift_out (S n) w) = true.
Proof.
  intros Hn. cbn [Wire.shift_out]. rewrite bit15_test.
  destruct (shift_out_edges n (u16 (Z.shiftl w 1)) (Z.testbit w 15) ltac:(lia)) as [He Hc].
  split.
  - destruct (Z.testbit w 15); cbn [Wire.falling_edges]; exact He.
  - destruct (Z.testbit w 15); exact Hc.
Qed.

Lemma word_of_top_bits (n : nat) (w : Z) :
  (n <= 16)%nat ->
  Wire.word_of_bits (Wire.top_bits n w) = (w / 2 ^ (16 - Z.of_nat n)) mod 2 ^ Z.of_nat n.
Proof.
  induction n as [|n IH]; intros Hn.
  - cbn. rewrite Z.mod_1_r. reflexivity.
  - unfold Wire.word_of_bits, Wire.top_bits in *.
    rewrite seq_S, map_app, fold_left_app. cbn [map fold_left Nat.add].
    rewrite IH by lia.
    set (x := w / 2 ^ (15 - Z.of_nat n)).
    assert (Hhalf : w / 2 ^ (16 - Z.of_nat n) = x / 2).
    { unfold x. replace (16 - Z.of_nat n) with ((15 - Z.of_nat n) + 1) by lia.
      rewrite Z.pow_add_r by lia. rewrite <- Z.div_div by lia. reflexivity. }
    assert (Hbit : Z.b2z (Z.testbit w (15 - Z.of_nat n)) = x mod 2).
    { unfold x. rewrite Z.testbit_spec' by lia. reflexivity. }
    rewrite Hhalf, Hbit.
    replace (16 - Z.of_nat (S n)) with (15 - Z.of_nat n) by lia. fold x.
    replace (Z.of_nat (S n)) with (1 + Z.of_nat n) by lia.
    rewrite Z.pow_add_r by lia. change (2 ^ 1) with 2.
    rewrite Z.rem_mul_r by lia. lia.
Qed.

(** X1.  The bit-banged transfer of [AD9833_Write_Software]: with the clock
    idle high, the data line read at the sixteen falling edges of the clock
    spells [TxData] from bit 15 down to bit 0, whatever the data line held
    before, and the clock is left high again.  With the clock low at the
    start the first [SCLK_L] is no edge: bit 15 is never clocked and only
    fifteen bits go out. *)
Theorem Write_Software_msb_first (TxData : Z) (mosi : bool) :
  Wire.falling_edges true mosi (Wire.AD9833_Write_Software TxData) =
    Wire.top_bits 16 TxData /\
  length (Wire.falling_edges true mosi (Wire.AD9833_Write_Software TxData)) = 16%nat /\
  Wire.word_of_bits (Wire.falling_edges true mosi (Wire.AD9833_Write_Software TxData)) =
    u16 TxData /\
  Wire.clock_after true (Wire.AD9833_Write_Software TxData) = true /\
  Wire.falling_edges false mosi (Wire.AD9833_Write_Software TxData) =
    tl (Wire.top_bits 16 TxData) /\
  Wire.clock_after false (Wire.AD9833_Write_Software TxData) = true.
Proof.
  unfold Wire.AD9833_Write_Software.
  destruct (shift_out_edges 16 TxData mosi (le_n _)) as [He Hc].
  rewrite He. split; [reflexivity|]. split; [reflexivity|].
  split; [|split; [exact Hc|]].
  - rewrite word_of_top_bits by lia.
    change (16 - Z.of_nat 16) with 0. change (Z.of_nat 16) with 16.
    rewrite u16_mod. change (2 ^ 0) with 1. rewrite Z.div_1_r. reflexivity.
  - rewrite top_bits_S by lia. cbn [tl].
    apply (shift_out_edges_clock_low 15 TxData mosi). lia.
Qed.

(** ** The single-bit control operations *)

Ltac other_bits_kept :=
  let n := fresh "n" in let Hn := fresh "Hn" in let Hout := fresh "Hout" in
  let Hc := fresh "Hc" in
  intros n Hn Hout; pose proof (bit_positions_complete n Hn) as Hc; cbn in Hc;
  repeat (destruct Hc as [<-|Hc];
          [first [ exfalso; apply Hout; cbn; tauto | shadow_bits ]|]);
  contradiction.

Ltac listed_bits :=
  let b := fresh "b" in let v := fresh "v" in let Hin := fresh "Hin" in
  intros b v Hin; cbn [In] in Hin;
  repeat match goal with
  | H : _ \/ _ |- _ => destruct H as [H|H]
  | H : (_, _) = (_, _) |- _ => injection H as <- <-
  | H : False |- _ => contradiction
  end; shadow_bits.

Ltac written_by_cases p :=
  destruct p; cbn -[Z.testbit u16 not32 Z.land Z.lor Z.pow In];
  (split; [listed_bits|split; [other_bits_kept|split; [apply u16_range|split; reflexivity]]]).

Lemma Reset_written (st : driver_state) (choice : chipChose) (p : shadow_ptr)
    (reset_active : Z) :
  AD9833_GetShadowCtrlReg choice = Some p ->
  shadow_bits_written p [(RESET_bit, nonzero reset_active)] st
    (Soft.AD9833_Reset choice reset_active st).
Proof.
  intros Hp. unfold Soft.AD9833_Reset, AD9833_Reset. rewrite Hp.
  rewrite (Soft_Write_single _ _ _ _ Hp).
  unfold shadow_bits_written, nonzero, RESET_bit. destruct st as [s1 s2 b].
  destruct (reset_active =? 0); written_by_cases p.
Qed.

Lemma Sleep_written (st : driver_state) (choice : chipChose) (p : shadow_ptr)
    (sleep1_active sleep12_active : Z) :
  AD9833_GetShadowCtrlReg choice = Some p ->
  shadow_bits_written p
    [(SLEEP1_bit, nonzero sleep1_active); (SLEEP12_bit, nonzero sleep12_active)] st
    (Soft.AD9833_Sleep choice sleep1_active sleep12_active st).
Proof.
  intros Hp. unfold Soft.AD9833_Sleep, AD9833_Sleep. rewrite Hp.
  rewrite (Soft_Write_single _ _ _ _ Hp).
  unfold shadow_bits_written, nonzero, SLEEP1_bit, SLEEP12_bit. destruct st as [s1 s2 b].
  destruct (sleep1_active =? 0); destruct (sleep12_active =? 0); written_by_cases p.
Qed.

Lemma SelectFreqReg_written (st : driver_state) (choice : chipChose) (p : shadow_ptr)
    (freq_reg_num : Z) :
  AD9833_GetShadowCtrlReg choice = Some p ->
  shadow_bits_written p [(FSELECT_bit, nonzero freq_reg_num)] st
    (Soft.AD9833_SelectFreqReg choice freq_reg_num st).
Proof.
  intros Hp. unfold Soft.AD9833_SelectFreqReg, AD9833_SelectFreqReg. rewrite Hp.
  rewrite (Soft_Write_single _ _ _ _ Hp).
  unfold shadow_bits_written, nonzero, FSELECT_bit. destruct st as [s1 s2 b].
  destruct (freq_reg_num =? 0); written_by_cases p.
Qed.

Lemma SelectPhaseReg_written (st : driver_state) (choice : chipChose) (p : shadow_ptr)
    (phase_reg_num : Z) :
  AD9833_GetShadowCtrlReg choice = Some p ->
  shadow_bits_written p [(PSELECT_bit, nonzero phase_reg_num)] st
    (Soft.AD9833_SelectPhaseReg choice phase_reg_num st).
Proof.
  intros Hp. unfold Soft.AD9833_SelectPhaseReg, AD9833_SelectPhaseReg. rewrite Hp.
  rewrite (Soft_Write_single _ _ _ _ Hp).
  unfold shadow_bits_written, nonzero, PSELECT_bit. destruct st as [s1 s2 b].
  destruct (phase_reg_num =? 0); written_by_cases p.
Qed.

(** ** The hardware-SPI driver against the software-SPI driver *)

Lemma deref_set_bits_range (p : shadow_ptr) (m : Z) (st : driver_state) :
  0 <= deref p (set_bits p m st) < 2 ^ 16.
Proof. unfold set_bits. rewrite deref_assign. apply u16_range. Qed.

Lemma deref_clear_bits_range (p : shadow_ptr) (m : Z) (st : driver_state) :
  0 <= deref p (clear_bits p m st) < 2 ^ 16.
Proof. unfold clear_bits. rewrite deref_assign. apply u16_range. Qed.

Lemma HAL_Write_as_Soft (choice : chipChose) (w : Z) (st : driver_state) :
  0 <= w < 2 ^ 16 -> choice <> CS_BOTH ->
  HAL.AD9833_Write choice w st = Soft.AD9833_Write choice w st.
Proof.
  intros Hw Hb. destruct (AD9833_GetShadowCtrlReg choice) as [p|] eqn:Hp.
  - rewrite (HAL_Write_single _ _ _ _ Hp Hw), (Soft_Write_single _ _ _ _ Hp). reflexivity.
  - apply GetShadowCtrlReg_None in Hp. destruct Hp as [N1 N2].
    rewrite Soft_Write_unknown by assumption.
    unfold HAL.AD9833_Write.
    destruct (Z.eqb_spec choice CS1); [contradiction|].
    destruct (Z.eqb_spec choice CS2); [contradiction|]. reflexivity.
Qed.

Lemma HAL_Write_ignores (choice : chipChose) (w : Z) (st : driver_state) :
  choice <> CS1 -> choice <> CS2 -> HAL.AD9833_Write choice w st = st.
Proof.
  intros N1 N2. unfold HAL.AD9833_Write.
  destruct (Z.eqb_spec choice CS1); [contradiction|].
  destruct (Z.eqb_spec choice CS2); [contradiction|]. reflexivity.
Qed.

Lemma HAL_control_as_Soft (choice : chipChose) (st : driver_state) :
  (forall reg, HAL.AD9833_SelectFreqReg choice reg st = Soft.AD9833_SelectFreqReg choice reg st) /\
  (forall reg, HAL.AD9833_SelectPhaseReg choice reg st = Soft.AD9833_SelectPhaseReg choice reg st) /\
  (forall wave, HAL.AD9833_SetWaveformAndStart choice wave st =
                Soft.AD9833_SetWaveformAndStart choice wave st) /\
  (forall active, HAL.AD9833_Reset choice active st = Soft.AD9833_Reset choice active st) /\
  (forall s1 s12, HAL.AD9833_Sleep choice s1 s12 st = Soft.AD9833_Sleep choice s1 s12 st).
Proof.
  unfold HAL.AD9833_SelectFreqReg, HAL.AD9833_SelectPhaseReg, HAL.AD9833_SetWaveformAndStart,
    HAL.AD9833_Reset, HAL.AD9833_Sleep,
    Soft.AD9833_SelectFreqReg, Soft.AD9833_SelectPhaseReg, Soft.AD9833_SetWaveformAndStart,
    Soft.AD9833_Reset, Soft.AD9833_Sleep, AD9833_SelectFreqReg, AD9833_SelectPhaseReg,
    AD9833_SetWaveformAndStart, AD9833_Reset, AD9833_Sleep.
  destruct (AD9833_GetShadowCtrlReg choice) as [p|] eqn:Hp;
    [|repeat split; reflexivity].
  assert (Hb : choice <> CS_BOTH).
  { apply GetShadowCtrlReg_Some in Hp. destruct Hp as [[-> _]|[-> _]]; discriminate. }
  repeat split; intros; cbv zeta; apply HAL_Write_as_Soft; try exact Hb;
    split_ifs; first [apply deref_set_bits_range | apply deref_clear_bits_range].
Qed.

Lemma data_word_16bit (cmd payload : Z) :
  0 <= cmd < 2 ^ 16 -> 0 <= Z.lor cmd (u16 payload) < 2 ^ 16.
Proof. intros Hc. apply lor_16bit; [exact Hc|apply u16_range]. Qed.

(** X2.  The driver of [AD9833_HAL.c] against the software-SPI port: its
    transport sends the same frame for the two single chip selects and
    ignores every other identity, the broadcast one included; so the five
    control operations are the same function in both drivers, the frequency
    load is the same except under [CS_BOTH], and under [CS_BOTH] the HAL
    driver transmits nothing at all. *)
Theorem HAL_driver_against_software_SPI (choice : chipChose) (st : driver_state) :
  (forall w, 0 <= w < 2 ^ 16 -> choice <> CS_BOTH ->
     HAL.AD9833_Write choice w st = Soft.AD9833_Write choice w st) /\
  (forall w, choice <> CS1 -> choice <> CS2 -> HAL.AD9833_Write choice w st = st) /\
  (forall reg, HAL.AD9833_SelectFreqReg choice reg st = Soft.AD9833_SelectFreqReg choice reg st) /\
  (forall reg, HAL.AD9833_SelectPhaseReg choice reg st = Soft.AD9833_SelectPhaseReg choice reg st) /\
  (forall wave, HAL.AD9833_SetWaveformAndStart choice wave st =
                Soft.AD9833_SetWaveformAndStart choice wave st) /\
  (forall active, HAL.AD9833_Reset choice active st = Soft.AD9833_Reset choice active st) /\
  (forall s1 s12, HAL.AD9833_Sleep choice s1 s12 st = Soft.AD9833_Sleep choice s1 s12 st) /\
  (forall reg f, choice <> CS_BOTH ->
     HAL.AD9833_FreqSet choice reg f st = Soft.AD9833_FreqSet choice reg f st) /\
  (forall reg f, run (HAL.AD9833_FreqSet CS_BOTH reg f st) = st) /\
  (forall reg ph, run (HAL.AD9833_PhaseSet CS_BOTH reg ph st) = st).
Proof.
  split; [intros; apply HAL_Write_as_Soft; assumption|].
  split; [intros; apply HAL_Write_ignores; assumption|].
  destruct (HAL_control_as_Soft choice st) as (H1 & H2 & H3 & H4 & H5).
  repeat (split; [assumption|]).
  split; [|split].
  - intros reg f Hb. unfold HAL.AD9833_FreqSet, Soft.AD9833_FreqSet, AD9833_FreqSet.
    destruct (freq_data_raw f) as [raw|]; [|reflexivity]. cbv zeta.
    assert (Hboth : forall cmd s, 0 <= cmd < 2 ^ 16 ->
              HAL.AD9833_Write choice (Z.lor cmd (freq_MSB raw))
                (HAL.AD9833_Write choice (Z.lor cmd (freq_LSB raw)) s) =
              Soft.AD9833_Write choice (Z.lor cmd (freq_MSB raw))
                (Soft.AD9833_Write choice (Z.lor cmd (freq_LSB raw)) s)).
    { intros cmd s Hc. unfold freq_LSB, freq_MSB.
      rewrite (HAL_Write_as_Soft choice _ s) by (try apply data_word_16bit; assumption).
      apply HAL_Write_as_Soft; [apply data_word_16bit|]; assumption. }
    destruct (reg =? 0); [|destruct (reg =? 1); [|reflexivity]]; f_equal; apply Hboth;
      [unfold AD9833_CMD_FREQ0REG | unfold AD9833_CMD_FREQ1REG]; lia.
  - intros reg f. unfold HAL.AD9833_FreqSet, AD9833_FreqSet.
    destruct (freq_data_raw f); [|reflexivity].
    cbv zeta. destruct (reg =? 0); [|destruct (reg =? 1)]; reflexivity.
  - intros reg ph. unfold HAL.AD9833_PhaseSet, AD9833_PhaseSet.
    destruct (phase_data_raw HAL.full_turn ph); [|reflexivity].
    destruct (reg =? 0); [|destruct (reg =? 1)]; reflexivity.
Qed.

(** ** Contracts of the control operations *)

Ltac not_listed :=
  first [ assumption
        | cbn; unfold FSELECT_bit, PSELECT_bit, RESET_bit, SLEEP1_bit, SLEEP12_bit in *;
          intuition congruence ].

Lemma word_eq_by_bits (a b : Z) :
  0 <= a < 2 ^ 16 -> 0 <= b < 2 ^ 16 ->
  (forall n, 0 <= n < 16 -> Z.testbit a n = Z.testbit b n) -> a = b.
Proof.
  intros Ha Hb H. apply Z.bits_inj'. intros n Hn.
  destruct (Z.lt_ge_cases n 16); [apply H; lia|].
  rewrite !testbit_high by assumption. reflexivity.
Qed.

(** Writing bits that already have their value changes nothing in the shadow. *)
Lemma written_same_bits (p : shadow_ptr) (written : list (Z * bool)) (st st' : driver_state) :
  shadow_bits_written p written st st' ->
  0 <= deref p st < 2 ^ 16 ->
  (forall b v, In (b, v) written -> 0 <= b < 16 /\ Z.testbit (deref p st) b = v) ->
  deref p st' = deref p st.
Proof.
  intros (Hw & Hk & Hr & _) Hr0 Hsame. apply word_eq_by_bits; try assumption.
  intros n Hn.
  destruct (in_dec Z.eq_dec n (map fst written)) as [Hin|Hout]; [|apply Hk; assumption].
  apply in_map_iff in Hin. destruct Hin as ([b v] & Hb & Hin). cbn in Hb. subst b.
  rewrite (Hw _ _ Hin). symmetry. apply (Hsame _ _ Hin).
Qed.

(** X3.  [AD9833_Reset] on a valid chip: the RESET bit of that chip's shadow
    becomes 1 for any non-zero [reset_active] and 0 for zero, every other bit
    and the other chip's shadow are kept, and the word goes out once to that
    chip, in both drivers; holding a running chip in reset and releasing it
    again restores the control word it had. *)
Theorem Reset_writes_only_RESET (st : driver_state) (choice : chipChose) (p : shadow_ptr)
    (reset_active : Z) :
  AD9833_GetShadowCtrlReg choice = Some p ->
  shadow_bits_written p [(RESET_bit, nonzero reset_active)] st
    (Soft.AD9833_Reset choice reset_active st) /\
  shadow_bits_written p [(RESET_bit, nonzero reset_active)] st
    (HAL.AD9833_Reset choice reset_active st) /\
  (0 <= deref p st < 2 ^ 16 -> Z.testbit (deref p st) RESET_bit = false ->
   deref p (Soft.AD9833_Reset choice 0 (Soft.AD9833_Reset choice 1 st)) = deref p st).
Proof.
  intros Hp.
  destruct (HAL_control_as_Soft choice st) as (_ & _ & _ & -> & _).
  split; [apply Reset_written; exact Hp|]. split; [apply Reset_written; exact Hp|].
  intros Hr Hclear.
  destruct (Reset_written st choice p 1 Hp) as (_ & Hk1 & Hr1 & _).
  destruct (Reset_written (Soft.AD9833_Reset choice 1 st) choice p 0 Hp) as (Hw2 & Hk2 & Hr2 & _).
  apply word_eq_by_bits; try assumption. intros n Hn.
  destruct (Z.eq_dec n RESET_bit) as [->|Hne].
  - rewrite (Hw2 RESET_bit false) by (left; reflexivity). symmetry. exact Hclear.
  - rewrite Hk2 by not_listed. apply Hk1; not_listed.
Qed.

Lemma Reset_writes_only_RESET_witness :
  shadow_bits_written p_control_reg_cs1 [(RESET_bit, true)] power_on
    (Soft.AD9833_Reset CS1 5 power_on) /\
  s_control_reg_cs1 (Soft.AD9833_Reset CS1 0 power_on) = 0x2000.
Proof.
  split.
  - exact (proj1 (Reset_writes_only_RESET power_on CS1 p_control_reg_cs1 5 eq_refl)).
  - reflexivity.
Defined.

(** X4.  [AD9833_Sleep] on a valid chip: SLEEP1 and SLEEP12 of that chip's
    shadow take the truth values of the two arguments, every other bit and
    the other chip's shadow are kept, and the word goes out once to that
    chip, in both drivers; waking a chip that was not asleep before it was
    put to sleep restores the control word it had. *)
Theorem Sleep_writes_only_sleep_bits (st : driver_state) (choice : chipChose) (p : shadow_ptr)
    (sleep1_active sleep12_active : Z) :
  AD9833_GetShadowCtrlReg choice = Some p ->
  shadow_bits_written p
    [(SLEEP1_bit, nonzero sleep1_active); (SLEEP12_bit, nonzero sleep12_active)] st
    (Soft.AD9833_Sleep choice sleep1_active sleep12_active st) /\
  shadow_bits_written p
    [(SLEEP1_bit, nonzero sleep1_active); (SLEEP12_bit, nonzero sleep12_active)] st
    (HAL.AD9833_Sleep choice sleep1_active sleep12_active st) /\
  (0 <= deref p st < 2 ^ 16 ->
   Z.testbit (deref p st) SLEEP1_bit = false -> Z.testbit (deref p st) SLEEP12_bit = false ->
   deref p (Soft.AD9833_Sleep choice 0 0
              (Soft.AD9833_Sleep choice sleep1_active sleep12_active st)) = deref p st).
Proof.
  intros Hp.
  destruct (HAL_control_as_Soft choice st) as (_ & _ & _ & _ & ->).
  split; [apply Sleep_written; exact Hp|]. split; [apply Sleep_written; exact Hp|].
  intros Hr H1 H12.
  destruct (Sleep_written st choice p sleep1_active sleep12_active Hp) as (_ & Hk1 & Hr1 & _).
  destruct (Sleep_written (Soft.AD9833_Sleep choice sleep1_active sleep12_active st)
              choice p 0 0 Hp) as (Hw2 & Hk2 & Hr2 & _).
  apply word_eq_by_bits; try assumption. intros n Hn.
  destruct (Z.eq_dec n SLEEP1_bit) as [->|Hne1].
  - rewrite (Hw2 SLEEP1_bit false) by (left; reflexivity). symmetry. exact H1.
  - destruct (Z.eq_dec n SLEEP12_bit) as [->|Hne12].
    + rewrite (Hw2 SLEEP12_bit false) by (right; left; reflexivity). symmetry. exact H12.
    + rewrite Hk2 by not_listed. apply Hk1; not_listed.
Qed.

Lemma Sleep_writes_only_sleep_bits_witness :
  shadow_bits_written p_control_reg_cs2 [(SLEEP1_bit, true); (SLEEP12_bit, false)] power_on
    (Soft.AD9833_Sleep CS2 1 0 power_on) /\
  s_control_reg_cs2 (Soft.AD9833_Sleep CS2 1 0 power_on) = 0x2180.
Proof.
  split.
  - exact (proj1 (Sleep_writes_only_sleep_bits power_on CS2 p_control_reg_cs2 1 0 eq_refl)).
  - reflexivity.
Defined.

(** X5.  [AD9833_SelectFreqReg] and [AD9833_SelectPhaseReg] on a valid chip:
    FSELECT, respectively PSELECT, of that chip's shadow becomes 0 for
    register number 0 and 1 for every other number, every other bit and the
    other chip's shadow are kept, and the word goes out once to that chip, in
    both drivers; the two selections touch different bits, so either order
    leaves the same shadow. *)
Theorem Select_writes_only_its_bit (st : driver_state) (choice : chipChose) (p : shadow_ptr)
    (freq_reg_num phase_reg_num : Z) :
  AD9833_GetShadowCtrlReg choice = Some p ->
  shadow_bits_written p [(FSELECT_bit, nonzero freq_reg_num)] st
    (Soft.AD9833_SelectFreqReg choice freq_reg_num st) /\
  shadow_bits_written p [(PSELECT_bit, nonzero phase_reg_num)] st
    (Soft.AD9833_SelectPhaseReg choice phase_reg_num st) /\
  shadow_bits_written p [(FSELECT_bit, nonzero freq_reg_num)] st
    (HAL.AD9833_SelectFreqReg choice freq_reg_num st) /\
  shadow_bits_written p [(PSELECT_bit, nonzero phase_reg_num)] st
    (HAL.AD9833_SelectPhaseReg choice phase_reg_num st) /\
  deref p (Soft.AD9833_SelectPhaseReg choice phase_reg_num
             (Soft.AD9833_SelectFreqReg choice freq_reg_num st)) =
  deref p (Soft.AD9833_SelectFreqReg choice freq_reg_num
             (Soft.AD9833_SelectPhaseReg choice phase_reg_num st)).
Proof.
  intros Hp.
  destruct (HAL_control_as_Soft choice st) as (-> & -> & _).
  split; [apply SelectFreqReg_written; exact Hp|].
  split; [apply SelectPhaseReg_written; exact Hp|].
  split; [apply SelectFreqReg_written; exact Hp|].
  split; [apply SelectPhaseReg_written; exact Hp|].
  destruct (SelectFreqReg_written st choice p freq_reg_num Hp) as (Hf & Hfk & _).
  destruct (SelectPhaseReg_written st choice p phase_reg_num Hp) as (Hq & Hqk & _).
  destruct (SelectPhaseReg_written (Soft.AD9833_SelectFreqReg choice freq_reg_num st)
              choice p phase_reg_num Hp) as (Hfq & Hfqk & Hr1 & _).
  destruct (SelectFreqReg_written (Soft.AD9833_SelectPhaseReg choice phase_reg_num st)
              choice p freq_reg_num Hp) as (Hqf & Hqfk & Hr2 & _).
  apply word_eq_by_bits; try assumption. intros n Hn.
  destruct (Z.eq_dec n FSELECT_bit) as [->|Hnf].
  - rewrite (Hqf FSELECT_bit _ (or_introl eq_refl)).
    rewrite Hfqk by not_listed.
    apply Hf. left; reflexivity.
  - destruct (Z.eq_dec n PSELECT_bit) as [->|Hnq].
    + rewrite (Hfq PSELECT_bit _ (or_introl eq_refl)).
      rewrite Hqfk by not_listed.
      symmetry. apply Hq. left; reflexivity.
    + rewrite Hfqk, Hqfk by not_listed. rewrite Hfk, Hqk by not_listed. reflexivity.
Qed.

Lemma Select_writes_only_its_bit_witness :
  shadow_bits_written p_control_reg_cs1 [(FSELECT_bit, true)] power_on
    (Soft.AD9833_SelectFreqReg CS1 1 power_on) /\
  s_control_reg_cs1 (Soft.AD9833_SelectPhaseReg CS1 1 (Soft.AD9833_SelectFreqReg CS1 1 power_on))
    = 0x2D00.
Proof.
  split.
  - exact (proj1 (Select_writes_only_its_bit power_on CS1 p_control_reg_cs1 1 1 eq_refl)).
  - reflexivity.
Defined.

(** X6.  A waveform argument that is none of the three enumerators is not
    rejected: on a valid chip [AD9833_SetWaveformAndStart] then does what it
    does for [SINE_WAVE] -- the three waveform bits and RESET are cleared and
    the word is transmitted, so the chip starts with a sine output. *)
Theorem SetWaveformAndStart_unknown_waveform_starts_sine
    (st : driver_state) (choice : chipChose) (p : shadow_ptr) (wave : waveType) :
  AD9833_GetShadowCtrlReg choice = Some p ->
  wave <> SINE_WAVE -> wave <> TRIANGLE_WAVE -> wave <> SQUARE_WAVE ->
  Soft.AD9833_SetWaveformAndStart choice wave st =
    Soft.AD9833_SetWaveformAndStart choice SINE_WAVE st /\
  HAL.AD9833_SetWaveformAndStart choice wave st =
    Soft.AD9833_SetWaveformAndStart choice SINE_WAVE st /\
  waveform_started p SINE_WAVE st (Soft.AD9833_SetWaveformAndStart choice wave st).
Proof.
  intros Hp N1 N2 N3.
  assert (E : Soft.AD9833_SetWaveformAndStart choice wave st =
              Soft.AD9833_SetWaveformAndStart choice SINE_WAVE st).
  { unfold Soft.AD9833_SetWaveformAndStart, AD9833_SetWaveformAndStart. rewrite Hp.
    destruct (Z.eqb_spec wave SINE_WAVE); [contradiction|].
    destruct (Z.eqb_spec wave TRIANGLE_WAVE); [contradiction|].
    destruct (Z.eqb_spec wave SQUARE_WAVE); [contradiction|]. reflexivity. }
  destruct (HAL_control_as_Soft choice st) as (_ & _ & -> & _).
  rewrite E. repeat split; try reflexivity;
    apply (SetWaveformAndStart_started st choice p SINE_WAVE Hp); auto.
Qed.

Lemma SetWaveformAndStart_unknown_waveform_starts_sine_witness :
  Soft.AD9833_SetWaveformAndStart CS1 0 power_on =
    {| s_control_reg_cs1 := 0x2000; s_control_reg_cs2 := 0x2100;
       bus := [CS1_L; SPI_TX 0x2000; CS1_H] |}.
Proof.
  rewrite (proj1 (SetWaveformAndStart_unknown_waveform_starts_sine
                    power_on CS1 p_control_reg_cs1 0 eq_refl
                    ltac:(discriminate) ltac:(discriminate) ltac:(discriminate))).
  reflexivity.
Defined.

(** ** Frequency and phase loads *)

Lemma Soft_Write_shadows (choice : chipChose) (w : Z) (st : driver_state) :
  s_control_reg_cs1 (Soft.AD9833_Write choice w st) = s_control_reg_cs1 st /\
  s_control_reg_cs2 (Soft.AD9833_Write choice w st) = s_control_reg_cs2 st.
Proof. unfold Soft.AD9833_Write. split_ifs; split; reflexivity. Qed.

Lemma Soft_Write_sends (choice : chipChose) (w : Z) (st : driver_state) :
  exists evs, bus (Soft.AD9833_Write choice w st) = bus st ++ evs /\
              forall x, In (SPI_TX x) evs -> x = w.
Proof.
  unfold Soft.AD9833_Write, Soft.AD9833_Write_Software.
  split_ifs; cbn [bus emit app];
    try (eexists; split; [reflexivity|]; cbn [In]; intros x Hx;
         repeat (destruct Hx as [Hx|Hx]; [try discriminate Hx; congruence|]); contradiction).
  exists []. split; [symmetry; apply app_nil_r|]. intros x [].
Qed.

(** X7.  [AD9833_FreqSet] and [AD9833_PhaseSet] never act on the control
    register: whatever the chip identity, the register number and the value,
    neither shadow changes and every word put on the bus carries a register
    address in D15/D14, so no chip can take it for a control word; this holds
    up to the point reached when the conversion is undefined, too. *)
Theorem data_loads_leave_control_state
    (choice : chipChose) (reg : Z) (f ph : double) (st : driver_state) :
  let st1 := run (Soft.AD9833_FreqSet choice reg f st) in
  let st2 := run (Soft.AD9833_PhaseSet choice reg ph st) in
  s_control_reg_cs1 st1 = s_control_reg_cs1 st /\
  s_control_reg_cs2 st1 = s_control_reg_cs2 st /\
  (exists evs, bus st1 = bus st ++ evs /\
     forall w, In (SPI_TX w) evs -> is_control_word w = false) /\
  s_control_reg_cs1 st2 = s_control_reg_cs1 st /\
  s_control_reg_cs2 st2 = s_control_reg_cs2 st /\
  (exists evs, bus st2 = bus st ++ evs /\
     forall w, In (SPI_TX w) evs -> is_control_word w = false).
Proof.
  cbv zeta.
  assert (Hnil : exists evs : list pin_event, bus st = bus st ++ evs /\
            forall w, In (SPI_TX w) evs -> is_control_word w = false).
  { exists []. split; [symmetry; apply app_nil_r|intros w []]. }
  assert (H1 : forall cmd payload s,
            Z.testbit cmd 14 = true \/ Z.testbit cmd 15 = true ->
            exists evs, bus (Soft.AD9833_Write choice (Z.lor cmd payload) s) = bus s ++ evs /\
              forall w, In (SPI_TX w) evs -> is_control_word w = false).
  { intros cmd payload s Hcmd.
    destruct (Soft_Write_sends choice (Z.lor cmd payload) s) as (evs & Hb & Hw).
    exists evs. split; [exact Hb|]. intros w Hin. rewrite (Hw w Hin).
    apply data_word_not_control. exact Hcmd. }
  assert (H2 : forall cmd a b,
            Z.testbit cmd 14 = true \/ Z.testbit cmd 15 = true ->
            exists evs,
              bus (Soft.AD9833_Write choice (Z.lor cmd b)
                     (Soft.AD9833_Write choice (Z.lor cmd a) st)) = bus st ++ evs /\
              forall w, In (SPI_TX w) evs -> is_control_word w = false).
  { intros cmd a b Hcmd.
    destruct (H1 cmd a st Hcmd) as (e1 & Hb1 & Hw1).
    destruct (H1 cmd b (Soft.AD9833_Write choice (Z.lor cmd a) st) Hcmd) as (e2 & Hb2 & Hw2).
    exists (e1 ++ e2). split; [rewrite Hb2, Hb1, app_assoc; reflexivity|].
    intros w Hin. apply in_app_or in Hin. destruct Hin; auto. }
  unfold Soft.AD9833_FreqSet, Soft.AD9833_PhaseSet, AD9833_FreqSet, AD9833_PhaseSet.
  split; [|split; [|split; [|split; [|split]]]].
  - destruct (freq_data_raw f); [|reflexivity]. cbv zeta.
    destruct (reg =? 0); [|destruct (reg =? 1)]; cbn [run]; try reflexivity;
      rewrite !(proj1 (Soft_Write_shadows _ _ _)); reflexivity.
  - destruct (freq_data_raw f); [|reflexivity]. cbv zeta.
    destruct (reg =? 0); [|destruct (reg =? 1)]; cbn [run]; try reflexivity;
      rewrite !(proj2 (Soft_Write_shadows _ _ _)); reflexivity.
  - destruct (freq_data_raw f); [|exact Hnil]. cbv zeta.
    destruct (reg =? 0); [|destruct (reg =? 1)]; cbn [run]; try exact Hnil;
      apply H2; first [left; reflexivity | right; reflexivity].
  - destruct (phase_data_raw Soft.full_turn ph); [|reflexivity].
    destruct (reg =? 0); [|destruct (reg =? 1)]; cbn [run]; try reflexivity;
      rewrite !(proj1 (Soft_Write_shadows _ _ _)); reflexivity.
  - destruct (phase_data_raw Soft.full_turn ph); [|reflexivity].
    destruct (reg =? 0); [|destruct (reg =? 1)]; cbn [run]; try reflexivity;
      rewrite !(proj2 (Soft_Write_shadows _ _ _)); reflexivity.
  - destruct (phase_data_raw Soft.full_turn ph); [|exact Hnil].
    destruct (reg =? 0); [|destruct (reg =? 1)]; cbn [run]; try exact Hnil;
      apply H1; first [left; reflexivity | right; reflexivity].
Qed.

(** X8.  [AD9833_PhaseSet] on a valid chip, register 0 or 1, and an angle
    that is zero or a positive finite number of degrees: the conversion is
    defined, and exactly one word goes out to that chip, the register's
    prefix on top of a 12-bit phase value; D13 tells the two phase registers
    apart and D12 is clear. *)
Theorem PhaseSet_one_word
    (st : driver_state) (choice : chipChose) (p : shadow_ptr)
    (phase_reg_num : Z) (phase : double) :
  AD9833_GetShadowCtrlReg choice = Some p ->
  phase_reg_num = 0 \/ phase_reg_num = 1 ->
  is_double phase ->
  (exists s, phase = S754_zero s) \/ (exists m e, phase = S754_finite false m e) ->
  exists w,
    phase_data_raw Soft.full_turn phase = Some w /\ 0 <= w < 2 ^ 12 /\
    Soft.AD9833_PhaseSet choice phase_reg_num phase st =
      Returns (emit (single_frame p (Z.lor (phase_cmd phase_reg_num) w)) st) /\
    Z.lor (phase_cmd phase_reg_num) w = 0xC000 + 0x2000 * phase_reg_num + w /\
    Z.testbit (Z.lor (phase_cmd phase_reg_num) w) 13 = (phase_reg_num =? 1) /\
    Z.testbit (Z.lor (phase_cmd phase_reg_num) w) 12 = false.
Proof.
  intros Hp Hreg Hd Hpos.
  destruct (phase_data_raw_defined phase Hd Hpos) as (w & Hw & Hr).
  exists w. split; [exact Hw|]. split; [exact Hr|].
  assert (Hbit : forall n, 12 <= n -> Z.testbit w n = false).
  { intros n Hn. destruct (Z.eq_dec w 0) as [->|Hnz]; [apply Z.bits_0|].
    apply Z.bits_above_log2; [lia|].
    apply Z.lt_le_trans with 12; [|exact Hn]. apply Z.log2_lt_pow2; lia. }
  assert (Hsum : forall cmd, In cmd [0xC000; 0xE000] -> Z.lor cmd w = cmd + w).
  { intros cmd Hc. rewrite <- Z.lxor_lor, <- Z.add_nocarry_lxor;
      try reflexivity; apply Z.bits_inj'; intros n Hn; rewrite Z.land_spec, Z.bits_0;
      (destruct (Z.lt_ge_cases n 12);
       [|rewrite Hbit by lia; apply andb_false_r]);
      assert (Hlow : Z.testbit cmd n = false)
        by (pose proof (bit_positions_complete n ltac:(lia)) as Hc'; cbn in Hc';
            destruct Hc as [<-|[<-|[]]];
            repeat (destruct Hc' as [<-|Hc']; [first [reflexivity | lia]|]); contradiction);
      rewrite Hlow; reflexivity. }
  unfold Soft.AD9833_PhaseSet, AD9833_PhaseSet. rewrite Hw.
  destruct Hreg as [-> | ->]; cbn [Z.eqb Pos.eqb phase_cmd];
    rewrite (Soft_Write_single _ _ _ _ Hp); unfold AD9833_CMD_PHASE0REG, AD9833_CMD_PHASE1REG;
    (split; [reflexivity|]); (split; [rewrite Hsum by (cbn; auto); lia|]);
    rewrite !Z.lor_spec, !Hbit by lia; split; reflexivity.
Qed.

Lemma PhaseSet_one_word_witness :
  Soft.AD9833_PhaseSet CS2 1 (of_Z 90) power_on =
    Returns (emit [CS2_L; SPI_TX 0xE400; CS2_H] power_on).
Proof.
  destruct (PhaseSet_one_word power_on CS2 p_control_reg_cs2 1 (of_Z 90) eq_refl
              (or_intror eq_refl) eq_refl
              (or_intror (ex_intro _ _ (ex_intro _ _ eq_refl))))
    as (w & Hw & _ & Hs & _).
  rewrite Hs. vm_compute in Hw. injection Hw as <-. reflexivity.
Defined.

(** ** The sequence sent by [AD9833_Cmd] *)

(** The five calls [AD9833_Cmd] makes for one active channel. *)
Lemma channel_configured (choice : chipChose) (p : shadow_ptr) (cfg : DDS_InitTypedef)
    (low14 high14 w : Z) (st : driver_state) :
  AD9833_GetShadowCtrlReg choice = Some p ->
  freq_fragments (freq cfg) = Some (low14, high14) ->
  phase_data_raw Soft.full_turn (phase cfg) = Some w ->
  exists st',
    (let s := AD9833_SelectFreqReg Soft.AD9833_Write choice (freqReg cfg) st in
     let s := AD9833_SelectPhaseReg Soft.AD9833_Write choice (phaseReg cfg) s in
     do s <- AD9833_FreqSet Soft.AD9833_Write choice (freqReg cfg) (freq cfg) s;
     do s <- AD9833_PhaseSet Soft.AD9833_Write Soft.full_turn choice (phaseReg cfg) (phase cfg) s;
     Returns (AD9833_SetWaveformAndStart Soft.AD9833_Write choice (wave cfg) s)) = Returns st' /\
    bus st' = bus st ++ frames p (configured_words (deref p st) cfg low14 high14 w) /\
    deref p st' = start_word (wave cfg) (selected_word (deref p st) cfg) /\
    deref (other p) st' = deref (other p) st.
Proof.
  intros Hp Hf Hph.
  destruct (fragments_inv _ _ _ Hf) as (raw & Hraw & -> & ->).
  destruct st as [s1 s2 b]. destruct cfg as [wv f a fr pr].
  cbn [freq phase freqReg phaseReg wave] in *.
  apply GetShadowCtrlReg_Some in Hp.
  unfold AD9833_FreqSet, AD9833_PhaseSet, AD9833_SelectFreqReg, AD9833_SelectPhaseReg,
    AD9833_SetWaveformAndStart, configured_words, selected_word, start_word,
    freq_words, phase_words, select_word, freq_cmd, phase_cmd.
  cbn [freq phase freqReg phaseReg wave].
  rewrite Hraw, Hph.
  destruct Hp as [[-> ->]|[-> ->]];
    cbn [AD9833_GetShadowCtrlReg CS1 CS2 Z.eqb Pos.eqb deref];
    (destruct (fr =? 0); [|destruct (fr =? 1)]);
    (destruct (pr =? 0); [|destruct (pr =? 1)]);
    (destruct (wv =? SINE_WAVE); [|destruct (wv =? TRIANGLE_WAVE); [|destruct (wv =? SQUARE_WAVE)]]);
    (eexists; split; [reflexivity|]);
    cbn -[u16 not32 Z.land Z.lor]; rewrite <- ?app_assoc;
    (split; [reflexivity|split; reflexivity]).
Qed.

Lemma active_channel_from_reset (status : workStatus) :
  (channel1_active status = true -> fst (init_shadows status) = 0x2100) /\
  (channel2_active status = true -> snd (init_shadows status) = 0x2100) /\
  (status = CS1_SINGLE -> snd (init_shadows status) = 0x2140) /\
  (status = CS2_SINGLE -> fst (init_shadows status) = 0x2140).
Proof.
  unfold channel1_active, channel2_active, init_shadows.
  destruct (Z.eqb_spec status CS1_SINGLE) as [->|N0]; [repeat split; try reflexivity; discriminate|].
  destruct (Z.eqb_spec status CS2_SINGLE) as [->|N1]; [repeat split; try reflexivity; discriminate|].
  destruct (Z.eqb_spec status CS1_CS2_DOUBLE) as [->|N2];
    repeat split; try reflexivity; try discriminate; intros; contradiction.
Qed.

Lemma configured_from_reset (cfg : DDS_InitTypedef) :
  select_word AD9833_CTRL_FSELECT (freqReg cfg) 0x2100 =
    0x2100 + (if freqReg cfg =? 0 then 0 else AD9833_CTRL_FSELECT) /\
  selected_word 0x2100 cfg = 0x2100 + bank_bits cfg /\
  start_word (wave cfg) (selected_word 0x2100 cfg) =
    AD9833_CTRL_B28 + bank_bits cfg + wave_bits (wave cfg).
Proof.
  unfold start_word, selected_word, select_word, bank_bits, wave_bits.
  destruct (freqReg cfg =? 0), (phaseReg cfg =? 0);
    (destruct (Z.eqb_spec (wave cfg) SINE_WAVE) as [E1|N1];
     [rewrite E1|destruct (Z.eqb_spec (wave cfg) TRIANGLE_WAVE) as [E2|N2];
       [|destruct (Z.eqb_spec (wave cfg) SQUARE_WAVE) as [E3|N3]]]);
    repeat split; reflexivity.
Qed.

(** X9.  The sequence [AD9833_Cmd] puts on the bus for a configuration whose
    active channels convert: the idle levels and the two control words of
    [AD9833_Init], then for channel 1 if the mode makes it active, and then
    for channel 2 likewise, the frequency-bank selection, the phase-bank
    selection, the two frequency words, the phase word and the start word;
    the configuration of an inactive channel is not read.  The words depend
    on the configuration alone, not on what the shadows held before: an
    active channel goes from 0x2100 to B28 + its bank bits + its waveform
    bits, and in the single modes the other chip receives only 0x2140. *)
Theorem Cmd_sequence
    (st : driver_state) (s : AD9833_InitTypedef) (lo1 hi1 ph1 lo2 hi2 ph2 : Z) :
  (channel1_active (status s) = true ->
   freq_fragments (freq (AD_CS1 s)) = Some (lo1, hi1) /\
   phase_data_raw Soft.full_turn (phase (AD_CS1 s)) = Some ph1) ->
  (channel2_active (status s) = true ->
   freq_fragments (freq (AD_CS2 s)) = Some (lo2, hi2) /\
   phase_data_raw Soft.full_turn (phase (AD_CS2 s)) = Some ph2) ->
  let i := init_shadows (status s) in
  let words1 := if channel1_active (status s)
                then configured_words (fst i) (AD_CS1 s) lo1 hi1 ph1 else [] in
  let words2 := if channel2_active (status s)
                then configured_words (snd i) (AD_CS2 s) lo2 hi2 ph2 else [] in
  let sent := [CS1_H; CS2_H; SCLK_H]
              ++ [CS1_L; SPI_TX (fst i); CS1_H] ++ [CS2_L; SPI_TX (snd i); CS2_H]
              ++ frames p_control_reg_cs1 words1 ++ frames p_control_reg_cs2 words2 in
  (exists st',
     Soft.AD9833_Cmd (Some s) st = Returns st' /\ bus st' = bus st ++ sent /\
     s_control_reg_cs1 st' = last words1 (fst i) /\
     s_control_reg_cs2 st' = last words2 (snd i)) /\
  latched ChipA sent = fst i :: words1 /\
  latched ChipB sent = snd i :: words2 /\
  (channel1_active (status s) = true ->
   last words1 (fst i) = AD9833_CTRL_B28 + bank_bits (AD_CS1 s) + wave_bits (wave (AD_CS1 s))) /\
  (channel2_active (status s) = true ->
   last words2 (snd i) = AD9833_CTRL_B28 + bank_bits (AD_CS2 s) + wave_bits (wave (AD_CS2 s))) /\
  (status s = CS1_SINGLE -> latched ChipB sent = [0x2140]) /\
  (status s = CS2_SINGLE -> latched ChipA sent = [0x2140]).
Proof.
  intros H1 H2 i words1 words2 sent.
  destruct (active_channel_from_reset (status s)) as (Ha1 & Ha2 & Hs1 & Hs2). fold i in Ha1, Ha2, Hs1, Hs2.
  assert (HlA : latched ChipA sent = fst i :: words1).
  { subst sent. unfold latched. cbn [app latched_from select_after].
    rewrite <- (app_nil_r (frames p_control_reg_cs2 words2)).
    rewrite latched_frames, latched_frames. cbn [latched_from]. rewrite !app_nil_r. reflexivity. }
  assert (HlB : latched ChipB sent = snd i :: words2).
  { subst sent. unfold latched. cbn [app latched_from select_after].
    rewrite <- (app_nil_r (frames p_control_reg_cs2 words2)).
    rewrite latched_frames, latched_frames. cbn [latched_from app]. rewrite app_nil_r. reflexivity. }
  assert (Hlast : forall s0 cfg lo hi w,
            last (configured_words s0 cfg lo hi w) s0 = start_word (wave cfg) (selected_word s0 cfg)).
  { intros. unfold configured_words. rewrite !app_assoc. apply last_last. }
  split; [|split; [exact HlA|split; [exact HlB|split; [|split; [|split]]]]].
  - (* the execution *)
    unfold Soft.AD9833_Cmd, AD9833_Cmd_body.
    fold (Soft.AD9833_Init (status s) st).
    assert (Hinit : bus (Soft.AD9833_Init (status s) st) =
                      bus st ++ [CS1_H; CS2_H; SCLK_H]
                        ++ [CS1_L; SPI_TX (fst i); CS1_H] ++ [CS2_L; SPI_TX (snd i); CS2_H] /\
                    s_control_reg_cs1 (Soft.AD9833_Init (status s) st) = fst i /\
                    s_control_reg_cs2 (Soft.AD9833_Init (status s) st) = snd i).
    { subst i. destruct st as [s1 s2 b].
      unfold init_shadows, Soft.AD9833_Init, AD9833_Init.
      destruct (status s =? CS1_SINGLE); [|destruct (status s =? CS2_SINGLE);
        [|destruct (status s =? CS1_CS2_DOUBLE)]];
        cbn; rewrite <- ?app_assoc; repeat split; reflexivity. }
    destruct Hinit as (Hb0 & Hc1 & Hc2).
    set (st0 := Soft.AD9833_Init (status s) st) in *. clearbody st0.
    fold (channel1_active (status s)). fold (channel2_active (status s)).
    subst sent words1 words2.
    (* channel 1 *)
    assert (Hch1 : exists sa,
              (if channel1_active (status s)
               then
                 let s' := AD9833_SelectFreqReg Soft.AD9833_Write CS1 (freqReg (AD_CS1 s)) st0 in
                 let s' := AD9833_SelectPhaseReg Soft.AD9833_Write CS1 (phaseReg (AD_CS1 s)) s' in
                 do s' <- AD9833_FreqSet Soft.AD9833_Write CS1 (freqReg (AD_CS1 s)) (freq (AD_CS1 s)) s';
                 do s' <- AD9833_PhaseSet Soft.AD9833_Write Soft.full_turn CS1
                            (phaseReg (AD_CS1 s)) (phase (AD_CS1 s)) s';
                 Returns (AD9833_SetWaveformAndStart Soft.AD9833_Write CS1 (wave (AD_CS1 s)) s')
               else Returns st0) = Returns sa /\
              bus sa = bus st0 ++ frames p_control_reg_cs1
                         (if channel1_active (status s)
                          then configured_words (fst i) (AD_CS1 s) lo1 hi1 ph1 else []) /\
              s_control_reg_cs1 sa =
                last (if channel1_active (status s)
                      then configured_words (fst i) (AD_CS1 s) lo1 hi1 ph1 else []) (fst i) /\
              s_control_reg_cs2 sa = snd i).
    { destruct (channel1_active (status s)).
      - destruct (H1 eq_refl) as [Hf Hp].
        destruct (channel_configured CS1 p_control_reg_cs1 (AD_CS1 s) lo1 hi1 ph1 st0
                    eq_refl Hf Hp) as (sa & Hrun & Hbus & Hd & Ho).
        cbn [deref other] in Hbus, Hd, Ho. rewrite Hc1 in Hbus, Hd. rewrite Hc2 in Ho.
        exists sa. rewrite Hlast. auto.
      - exists st0. cbn [frames flat_map last]. rewrite app_nil_r. auto. }
    destruct Hch1 as (sa & Hrun1 & Hba & Ha1' & Ha2').
    cbv zeta in Hrun1. rewrite Hrun1. cbn [bind].
    assert (Hch2 : exists sb,
              (if channel2_active (status s)
               then
                 let s' := AD9833_SelectFreqReg Soft.AD9833_Write CS2 (freqReg (AD_CS2 s)) sa in
                 let s' := AD9833_SelectPhaseReg Soft.AD9833_Write CS2 (phaseReg (AD_CS2 s)) s' in
                 do s' <- AD9833_FreqSet Soft.AD9833_Write CS2 (freqReg (AD_CS2 s)) (freq (AD_CS2 s)) s';
                 do s' <- AD9833_PhaseSet Soft.AD9833_Write Soft.full_turn CS2
                            (phaseReg (AD_CS2 s)) (phase (AD_CS2 s)) s';
                 Returns (AD9833_SetWaveformAndStart Soft.AD9833_Write CS2 (wave (AD_CS2 s)) s')
               else Returns sa) = Returns sb /\
              bus sb = bus sa ++ frames p_control_reg_cs2
                         (if channel2_active (status s)
                          then configured_words (snd i) (AD_CS2 s) lo2 hi2 ph2 else []) /\
              s_control_reg_cs2 sb =
                last (if channel2_active (status s)
                      then configured_words (snd i) (AD_CS2 s) lo2 hi2 ph2 else []) (snd i) /\
              s_control_reg_cs1 sb = s_control_reg_cs1 sa).
    { destruct (channel2_active (status s)).
      - destruct (H2 eq_refl) as [Hf Hp].
        destruct (channel_configured CS2 p_control_reg_cs2 (AD_CS2 s) lo2 hi2 ph2 sa
                    eq_refl Hf Hp) as (sb & Hrun & Hbus & Hd & Ho).
        cbn [deref other] in Hbus, Hd, Ho. rewrite Ha2' in Hbus, Hd.
        exists sb. rewrite Hlast. auto.
      - exists sa. cbn [frames flat_map last]. rewrite app_nil_r. auto. }
    destruct Hch2 as (sb & Hrun2 & Hbb & Hb2' & Hb1').
    cbv zeta in Hrun2. rewrite Hrun2.
    exists sb. split; [reflexivity|].
    split; [rewrite Hbb, Hba, Hb0, <- !app_assoc; reflexivity|].
    split; [rewrite Hb1'; exact Ha1'|exact Hb2'].
  - intros Hact. subst words1. rewrite Hact, Hlast, (Ha1 Hact).
    apply configured_from_reset.
  - intros Hact. subst words2. rewrite Hact, Hlast, (Ha2 Hact).
    apply configured_from_reset.
  - intros Hst. rewrite HlB. subst words2. rewrite (Hs1 Hst).
    unfold channel2_active. rewrite Hst. reflexivity.
  - intros Hst. rewrite HlA. subst words1. rewrite (Hs2 Hst).
    unfold channel1_active. rewrite Hst. reflexivity.
Qed.

Lemma Cmd_sequence_witness :
  exists st',
    Soft.AD9833_Cmd (Some chip1_alone) power_on = Returns st' /\
    bus st' =
      [CS1_H; CS2_H; SCLK_H;
       CS1_L; SPI_TX 0x2100; CS1_H;  CS2_L; SPI_TX 0x2140; CS2_H;
       CS1_L; SPI_TX 0x2900; CS1_H;  CS1_L; SPI_TX 0x2D00; CS1_H;
       CS1_L; SPI_TX 0x970A; CS1_H;  CS1_L; SPI_TX 0x828F; CS1_H;
       CS1_L; SPI_TX 0xE800; CS1_H;  CS1_L; SPI_TX 0x2C28; CS1_H] /\
    s_control_reg_cs1 st' = 0x2C28 /\ s_control_reg_cs2 st' = 0x2140.
Proof.
  exact (proj1 (Cmd_sequence power_on chip1_alone 5898 655 2048 0 0 0
                  (fun _ => conj eq_refl eq_refl)
                  (fun H => False_ind _ (Bool.diff_false_true H)))).
Defined.

(** ** Invariants along sequences of calls *)

Lemma run_bind (P : driver_state -> Prop) (m : outcome) (k : driver_state -> outcome) :
  P (run m) -> (forall st, m = Returns st -> P (run (k st))) -> P (run (bind m k)).
Proof. destruct m as [st|st]; cbn [bind run]; auto. Qed.

Lemma exec_all_invariant (P : driver_state -> Prop) (ok : call -> bool) :
  (forall c st, ok c = true -> P st -> P (run (exec c st))) ->
  forall cs st, forallb ok cs = true -> P st -> P (run (exec_all cs st)).
Proof.
  intros Hstep. induction cs as [|c cs IH]; intros st Hok HP; [exact HP|].
  cbn [forallb] in Hok. apply andb_true_iff in Hok. destruct Hok as [Hc Hcs].
  cbn [exec_all]. apply run_bind; [apply Hstep; assumption|].
  intros st1 E. apply IH; [exact Hcs|].
  specialize (Hstep c st Hc HP). rewrite E in Hstep. exact Hstep.
Qed.

(** *** What the items mean for the chips *)

Lemma items_idle (c : chip) (items : list bus_item) :
  fold_left (select_after c) (flat_map item_pins items) false = false.
Proof.
  induction items as [|i items IH]; [reflexivity|].
  cbn [flat_map]. rewrite fold_left_app.
  replace (fold_left (select_after c) (item_pins i) false) with false; [exact IH|].
  destruct i as [|[|] w|w], c; reflexivity.
Qed.

Lemma items_latched (c : chip) (items : list bus_item) :
  latched c (flat_map item_pins items) = flat_map (item_word c) items.
Proof.
  unfold latched. induction items as [|i items IH]; [reflexivity|].
  cbn [flat_map]. rewrite latched_from_app.
  replace (fold_left (select_after c) (item_pins i) false) with false
    by (destruct i as [|[|] w|w], c; reflexivity).
  rewrite IH. f_equal. destruct i as [|[|] w|w], c; reflexivity.
Qed.

Lemma latched_on_bus (c : chip) (tr : list pin_event) :
  forall low w, In w (latched_from c low tr) -> In (SPI_TX w) tr.
Proof.
  induction tr as [|ev tr IH]; intros low w Hin; [contradiction|].
  destruct ev; cbn [latched_from] in Hin; try (right; eapply IH; exact Hin).
  destruct low; [|right; eapply IH; exact Hin].
  destruct Hin as [->|Hin]; [left; reflexivity|right; eapply IH; exact Hin].
Qed.

(** *** Conforming control words *)

Lemma conforming_bits (w : Z) :
  conforming w = true <->
  Z.testbit w B28_bit = true /\ forall n, In n never_set_bits -> Z.testbit w n = false.
Proof.
  unfold conforming. rewrite andb_true_iff, forallb_forall.
  split; intros [H1 H2]; (split; [exact H1|]); intros n Hn.
  - apply negb_true_iff. apply H2. exact Hn.
  - apply negb_true_iff. apply H2. exact Hn.
Qed.

Lemma settable_bits (m : Z) :
  settable m = true <-> forall n, In n never_set_bits -> Z.testbit m n = false.
Proof.
  unfold settable. rewrite forallb_forall.
  split; intros H n Hn; [apply negb_true_iff|apply negb_true_iff]; apply H; exact Hn.
Qed.

Lemma never_set_in_word (n : Z) : In n never_set_bits -> 0 <= n < 16.
Proof.
  unfold never_set_bits. cbn [In]. intros H.
  repeat (destruct H as [<-|H]; [lia|]). contradiction.
Qed.

Lemma conforming_set (s m : Z) :
  conforming s = true -> settable m = true -> conforming (u16 (Z.lor s m)) = true.
Proof.
  rewrite !conforming_bits, settable_bits. intros [Hb Hn] Hm. split.
  - rewrite testbit_set by (unfold B28_bit; lia). rewrite Hb. reflexivity.
  - intros n Hin. rewrite testbit_set by (apply never_set_in_word; exact Hin).
    rewrite Hn, Hm by exact Hin. reflexivity.
Qed.

Lemma conforming_clear (s m : Z) :
  conforming s = true -> Z.testbit m B28_bit = false ->
  conforming (u16 (Z.land s (not32 m))) = true.
Proof.
  rewrite !conforming_bits. intros [Hb Hn] Hm. split.
  - rewrite testbit_clear by (unfold B28_bit; lia). rewrite Hb, Hm. reflexivity.
  - intros n Hin. rewrite testbit_clear by (apply never_set_in_word; exact Hin).
    rewrite Hn by exact Hin. reflexivity.
Qed.

Lemma conforming_is_control (w : Z) : conforming w = true -> is_control_word w = true.
Proof.
  rewrite conforming_bits, is_control_word_bits. intros [_ Hn].
  split; apply Hn; unfold never_set_bits; cbn [In]; auto.
Qed.

(** *** The steps the operations are made of *)

Lemma kept_assign (strict : bool) (st0 st : driver_state) (p : shadow_ptr) (v : Z) :
  kept strict st0 st -> conforming (u16 v) = true -> kept strict st0 (assign p v st).
Proof.
  intros [(items & Hb) (H1 & H2 & H3)] Hv. split.
  - exists items. rewrite bus_assign. exact Hb.
  - destruct p; (split; [|split]); cbn [assign s_control_reg_cs1 s_control_reg_cs2 bus];
      assumption.
Qed.

Lemma kept_deref (strict : bool) (st0 st : driver_state) (p : shadow_ptr) :
  kept strict st0 st -> conforming (deref p st) = true.
Proof. intros [_ (H1 & H2 & _)]. destruct p; assumption. Qed.

Lemma kept_set_bits (strict : bool) (st0 st : driver_state) (p : shadow_ptr) (m : Z) :
  kept strict st0 st -> settable m = true -> kept strict st0 (set_bits p m st).
Proof.
  intros H Hm. unfold set_bits. apply kept_assign; [exact H|].
  apply conforming_set; [eapply kept_deref; exact H|exact Hm].
Qed.

Lemma kept_clear_bits (strict : bool) (st0 st : driver_state) (p : shadow_ptr) (m : Z) :
  kept strict st0 st -> Z.testbit m B28_bit = false -> kept strict st0 (clear_bits p m st).
Proof.
  intros H Hm. unfold clear_bits. apply kept_assign; [exact H|].
  apply conforming_clear; [eapply kept_deref; exact H|exact Hm].
Qed.

Lemma kept_emit (strict : bool) (st0 st : driver_state) (items : list bus_item) :
  kept strict st0 st ->
  (strict = true -> forall w, In (SPI_TX w) (flat_map item_pins items) ->
     is_control_word w = true -> conforming w = true) ->
  kept strict st0 (emit (flat_map item_pins items) st).
Proof.
  intros [(its & Hb) (H1 & H2 & H3)] Hw. split.
  - exists (its ++ items). cbn [emit bus]. rewrite Hb, flat_map_app, app_assoc. reflexivity.
  - split; [exact H1|]. split; [exact H2|].
    intros Hs w Hin. cbn [emit bus] in Hin. apply in_app_or in Hin.
    destruct Hin as [Hin|Hin]; [apply H3; assumption|apply Hw; assumption].
Qed.

Lemma Soft_Write_item (choice : chipChose) (w : Z) (st : driver_state) :
  exists items, Soft.AD9833_Write choice w st = emit (flat_map item_pins items) st /\
                forall x, In (SPI_TX x) (flat_map item_pins items) -> x = w.
Proof.
  unfold Soft.AD9833_Write, Soft.AD9833_Write_Software.
  destruct (choice =? CS1); [exists [Frame p_control_reg_cs1 w]|
    destruct (choice =? CS2); [exists [Frame p_control_reg_cs2 w]|
      destruct (choice =? CS_BOTH); [exists [Broadcast w]|exists []]]];
    (split; [try reflexivity|]);
    try (cbn [flat_map item_pins single_frame broadcast_frame app In]; intros x Hx;
         repeat (destruct Hx as [Hx|Hx]; [try discriminate Hx; congruence|]); contradiction).
  destruct st as [s1 s2 b]; unfold emit; cbn [flat_map bus s_control_reg_cs1 s_control_reg_cs2].
  rewrite app_nil_r. reflexivity.
Qed.

Lemma kept_Write (strict : bool) (st0 st : driver_state) (choice : chipChose) (w : Z) :
  kept strict st0 st ->
  (strict = true -> is_control_word w = true -> conforming w = true) ->
  kept strict st0 (Soft.AD9833_Write choice w st).
Proof.
  intros H Hw. destruct (Soft_Write_item choice w st) as (items & -> & Hx).
  apply kept_emit; [exact H|]. intros Hs x Hin. rewrite (Hx x Hin). apply Hw. exact Hs.
Qed.

Lemma kept_Write_shadow (strict : bool) (st0 st : driver_state) (choice : chipChose)
    (p : shadow_ptr) :
  kept strict st0 st -> kept strict st0 (Soft.AD9833_Write choice (deref p st) st).
Proof.
  intros H. apply kept_Write; [exact H|]. intros _ _. eapply kept_deref. exact H.
Qed.

Lemma kept_Write_data (strict : bool) (st0 st : driver_state) (choice : chipChose)
    (cmd payload : Z) :
  kept strict st0 st -> Z.testbit cmd 14 = true \/ Z.testbit cmd 15 = true ->
  kept strict st0 (Soft.AD9833_Write choice (Z.lor cmd payload) st).
Proof.
  intros H Hcmd. apply kept_Write; [exact H|]. intros _ Hc.
  rewrite (data_word_not_control cmd payload Hcmd) in Hc. discriminate Hc.
Qed.

Ltac kept_chain :=
  repeat first
    [ assumption
    | apply kept_Write_shadow
    | apply kept_Write_data; [|first [left; reflexivity | right; reflexivity]]
    | apply kept_set_bits; [|reflexivity]
    | apply kept_clear_bits; [|reflexivity]
    | apply kept_assign; [|reflexivity] ].

Lemma kept_control_operations (strict : bool) (st0 st : driver_state) (choice : chipChose) :
  kept strict st0 st ->
  (forall reg, kept strict st0 (Soft.AD9833_SelectFreqReg choice reg st)) /\
  (forall reg, kept strict st0 (Soft.AD9833_SelectPhaseReg choice reg st)) /\
  (forall wave, kept strict st0 (Soft.AD9833_SetWaveformAndStart choice wave st)) /\
  (forall active, kept strict st0 (Soft.AD9833_Reset choice active st)) /\
  (forall s1 s12, kept strict st0 (Soft.AD9833_Sleep choice s1 s12 st)).
Proof.
  intros H.
  unfold Soft.AD9833_SelectFreqReg, Soft.AD9833_SelectPhaseReg, Soft.AD9833_SetWaveformAndStart,
    Soft.AD9833_Reset, Soft.AD9833_Sleep, AD9833_SelectFreqReg, AD9833_SelectPhaseReg,
    AD9833_SetWaveformAndStart, AD9833_Reset, AD9833_Sleep.
  destruct (AD9833_GetShadowCtrlReg choice) as [p|];
    [|repeat (split; [intros; exact H|]); intros; exact H].
  (split; [|split; [|split; [|split]]]); intros; cbv zeta; split_ifs; kept_chain.
Qed.

Lemma kept_Init (strict : bool) (st0 st : driver_state) (status : workStatus) :
  kept strict st0 st -> kept strict st0 (Soft.AD9833_Init status st).
Proof.
  intros H. unfold Soft.AD9833_Init, AD9833_Init. cbv zeta.
  assert (H0 : kept strict st0 (emit Soft.init_pins st)).
  { apply (kept_emit strict st0 st [Idle_lines] H). intros _ w Hin.
    cbn in Hin. repeat (destruct Hin as [Hin|Hin]; [discriminate Hin|]). contradiction. }
  set (sa := assign p_control_reg_cs2 _ (assign p_control_reg_cs1 _ (emit Soft.init_pins st))).
  assert (Ha : kept strict st0 sa) by (subst sa; kept_chain).
  clearbody sa.
  assert (Hb : forall sb, kept strict st0 sb ->
            kept strict st0 (Soft.AD9833_Write CS2 (s_control_reg_cs2
                               (Soft.AD9833_Write CS1 (s_control_reg_cs1 sb) sb))
                               (Soft.AD9833_Write CS1 (s_control_reg_cs1 sb) sb))).
  { intros sb Hsb.
    apply (kept_Write_shadow strict st0 _ CS2 p_control_reg_cs2).
    apply (kept_Write_shadow strict st0 _ CS1 p_control_reg_cs1). exact Hsb. }
  split_ifs; apply Hb; kept_chain.
Qed.

Lemma kept_FreqSet (strict : bool) (st0 st : driver_state) (choice : chipChose)
    (reg : Z) (f : double) :
  kept strict st0 st -> kept strict st0 (run (Soft.AD9833_FreqSet choice reg f st)).
Proof.
  intros H. unfold Soft.AD9833_FreqSet, AD9833_FreqSet.
  destruct (freq_data_raw f); [|exact H]. cbv zeta.
  split_ifs; cbn [run]; kept_chain.
Qed.

Lemma kept_PhaseSet (strict : bool) (st0 st : driver_state) (choice : chipChose)
    (reg : Z) (ph : double) :
  kept strict st0 st -> kept strict st0 (run (Soft.AD9833_PhaseSet choice reg ph st)).
Proof.
  intros H. unfold Soft.AD9833_PhaseSet, AD9833_PhaseSet.
  destruct (phase_data_raw Soft.full_turn ph); [|exact H].
  split_ifs; cbn [run]; kept_chain.
Qed.

Lemma run_Returns (P : driver_state -> Prop) (m : outcome) (st : driver_state) :
  P (run m) -> m = Returns st -> P st.
Proof. intros H ->. exact H. Qed.

Lemma kept_channel (strict : bool) (st0 st : driver_state) (choice : chipChose)
    (cfg : DDS_InitTypedef) :
  kept strict st0 st ->
  kept strict st0
    (run (let s := AD9833_SelectFreqReg Soft.AD9833_Write choice (freqReg cfg) st in
          let s := AD9833_SelectPhaseReg Soft.AD9833_Write choice (phaseReg cfg) s in
          do s <- AD9833_FreqSet Soft.AD9833_Write choice (freqReg cfg) (freq cfg) s;
          do s <- AD9833_PhaseSet Soft.AD9833_Write Soft.full_turn choice
                    (phaseReg cfg) (phase cfg) s;
          Returns (AD9833_SetWaveformAndStart Soft.AD9833_Write choice (wave cfg) s))).
Proof.
  intros H. cbv zeta.
  assert (H1 : kept strict st0 (Soft.AD9833_SelectPhaseReg choice (phaseReg cfg)
                                  (Soft.AD9833_SelectFreqReg choice (freqReg cfg) st))).
  { apply kept_control_operations. apply kept_control_operations. exact H. }
  apply run_bind; [apply kept_FreqSet; exact H1|]. intros sa Ea.
  pose proof (run_Returns _ _ _ (kept_FreqSet strict st0 _ choice (freqReg cfg) (freq cfg) H1) Ea)
    as Ha.
  apply run_bind; [apply kept_PhaseSet; exact Ha|]. intros sb Eb.
  pose proof (run_Returns _ _ _ (kept_PhaseSet strict st0 _ choice (phaseReg cfg) (phase cfg) Ha) Eb)
    as Hb.
  cbn [run]. apply kept_control_operations. exact Hb.
Qed.

Lemma kept_Cmd (strict : bool) (st0 st : driver_state) (s : option AD9833_InitTypedef) :
  kept strict st0 st -> kept strict st0 (run (Soft.AD9833_Cmd s st)).
Proof.
  intros H. unfold Soft.AD9833_Cmd, AD9833_Cmd_body. destruct s as [s|]; [|exact H].
  fold (Soft.AD9833_Init (status s) st). cbv zeta.
  pose proof (kept_Init strict st0 st (status s) H) as H0.
  set (si := Soft.AD9833_Init (status s) st) in *. clearbody si.
  assert (Hch : forall choice cfg (b : bool) sx, kept strict st0 sx ->
            kept strict st0
              (run (if b then
                      do s' <- AD9833_FreqSet Soft.AD9833_Write choice (freqReg cfg) (freq cfg)
                                 (AD9833_SelectPhaseReg Soft.AD9833_Write choice (phaseReg cfg)
                                    (AD9833_SelectFreqReg Soft.AD9833_Write choice (freqReg cfg) sx));
                      do s' <- AD9833_PhaseSet Soft.AD9833_Write Soft.full_turn choice
                                 (phaseReg cfg) (phase cfg) s';
                      Returns (AD9833_SetWaveformAndStart Soft.AD9833_Write choice (wave cfg) s')
                    else Returns sx))).
  { intros choice cfg b sx Hx. destruct b; [|exact Hx].
    apply (kept_channel strict st0 sx choice cfg Hx). }
  apply run_bind; [apply Hch; exact H0|]. intros sa Ea.
  apply Hch. exact (run_Returns _ _ _ (Hch CS1 (AD_CS1 s) _ si H0) Ea).
Qed.

Lemma start_cmd_conforming (wave1 : waveType) : conforming (start_cmd wave1) = true.
Proof. unfold start_cmd. split_ifs; reflexivity. Qed.

Lemma kept_Cmd_Sync (strict : bool) (st0 st : driver_state) (s : option AD9833_InitTypedef) :
  kept strict st0 st -> kept strict st0 (run (Soft.AD9833_Cmd_Sync s st)).
Proof.
  intros H. unfold Soft.AD9833_Cmd_Sync, AD9833_Cmd_Sync_body. cbv zeta.
  assert (H0 : kept strict st0 (Soft.AD9833_Write CS_BOTH
                 (u16 (Z.lor (Z.lor AD9833_CMD_CTRLREG AD9833_CTRL_B28) AD9833_CTRL_RESET)) st)).
  { apply kept_Write; [exact H|]. intros _ _. reflexivity. }
  set (si := Soft.AD9833_Write CS_BOTH _ st) in *. clearbody si.
  destruct s as [s|]; [|exact H0].
  assert (Hpair : forall choice cfg sx, kept strict st0 sx ->
            kept strict st0 (run (AD9833_FreqSet Soft.AD9833_Write choice (freqReg cfg) (freq cfg)
                                    (AD9833_SelectFreqReg Soft.AD9833_Write choice (freqReg cfg) sx))) /\
            kept strict st0 (run (AD9833_PhaseSet Soft.AD9833_Write Soft.full_turn choice
                                    (phaseReg cfg) (phase cfg)
                                    (AD9833_SelectPhaseReg Soft.AD9833_Write choice (phaseReg cfg) sx)))).
  { intros choice cfg sx Hx. split.
    - apply kept_FreqSet. apply kept_control_operations. exact Hx.
    - apply kept_PhaseSet. apply kept_control_operations. exact Hx. }
  apply run_bind; [apply Hpair; exact H0|]. intros s1 E1.
  pose proof (run_Returns _ _ _ (proj1 (Hpair CS1 (AD_CS1 s) si H0)) E1) as K1.
  apply run_bind; [apply Hpair; exact K1|]. intros s2 E2.
  pose proof (run_Returns _ _ _ (proj2 (Hpair CS1 (AD_CS1 s) s1 K1)) E2) as K2.
  apply run_bind; [apply Hpair; exact K2|]. intros s3 E3.
  pose proof (run_Returns _ _ _ (proj1 (Hpair CS2 (AD_CS2 s) s2 K2)) E3) as K3.
  apply run_bind; [apply Hpair; exact K3|]. intros s4 E4.
  pose proof (run_Returns _ _ _ (proj2 (Hpair CS2 (AD_CS2 s) s3 K3)) E4) as K4.
  cbn [run]. apply kept_Write; [exact K4|]. intros _ _. apply start_cmd_conforming.
Qed.

Lemma kept_exec (strict : bool) (st0 : driver_state) (c : call) (st : driver_state) :
  (if strict then negb (raw_write c) else true) = true ->
  kept strict st0 st -> kept strict st0 (run (exec c st)).
Proof.
  intros Hc H.
  destruct c; cbn [exec run];
    try (apply kept_control_operations; exact H).
  - apply kept_Init. exact H.
  - apply kept_Write; [exact H|]. intros Hs. rewrite Hs in Hc. discriminate Hc.
  - apply kept_PhaseSet. exact H.
  - apply kept_FreqSet. exact H.
  - apply kept_Cmd. exact H.
  - apply kept_Cmd_Sync. exact H.
Qed.

Lemma kept_power_on (strict : bool) : kept strict power_on power_on.
Proof.
  split; [exists []; reflexivity|].
  split; [reflexivity|]. split; [reflexivity|]. intros _ w [].
Qed.

(** X10.  Whatever sequence of driver calls a client makes from power-on, the
    transport included and up to the point where a call is undefined, the
    bus history is a sequence of whole items -- the idle levels of
    [AD9833_Init], one word framed by one chip select, one word framed by
    both -- so each chip has received exactly the words framed for it, one
    per frame, and both chip selects are left high. *)
Theorem bus_is_a_sequence_of_frames (cs : list call) :
  let tr := bus (run (exec_all cs power_on)) in
  (exists items,
     tr = flat_map item_pins items /\
     forall c, latched c tr = flat_map (item_word c) items) /\
  (forall c, fold_left (select_after c) tr false = false).
Proof.
  cbv zeta.
  assert (H : kept false power_on (run (exec_all cs power_on))).
  { apply (exec_all_invariant (kept false power_on) (fun _ => true)).
    - intros c st _ Hk. apply kept_exec; [reflexivity|exact Hk].
    - apply forallb_forall. reflexivity.
    - apply kept_power_on. }
  destruct H as [(items & Hb) _]. cbn [power_on bus app] in Hb.
  split.
  - exists items. split; [exact Hb|]. intros c. rewrite Hb. apply items_latched.
  - intros c. rewrite Hb. apply items_idle.
Qed.

(** X11.  Whatever sequence of driver calls a client makes from power-on, both
    shadow registers keep B28 set and never get HLB, a reserved bit or a
    register address; and unless the client calls the transport itself,
    every control word a chip receives is of that kind, the two broadcast
    words of the synchronised start included: the chips stay in the mode in
    which two consecutive frequency writes load one 28-bit value. *)
Theorem control_words_keep_B28 (cs : list call) :
  let st := run (exec_all cs power_on) in
  conforming (s_control_reg_cs1 st) = true /\
  conforming (s_control_reg_cs2 st) = true /\
  (forallb (fun c => negb (raw_write c)) cs = true ->
   forall c w, In w (latched c (bus st)) -> is_control_word w = true ->
     Z.testbit w B28_bit = true /\ Z.testbit w 12 = false /\ conforming w = true).
Proof.
  cbv zeta.
  assert (H : kept false power_on (run (exec_all cs power_on))).
  { apply (exec_all_invariant (kept false power_on) (fun _ => true)).
    - intros c st _ Hk. apply kept_exec; [reflexivity|exact Hk].
    - apply forallb_forall. reflexivity.
    - apply kept_power_on. }
  destruct H as [_ (H1 & H2 & _)].
  split; [exact H1|]. split; [exact H2|].
  intros Hraw c w Hin Hctrl.
  assert (Hs : kept true power_on (run (exec_all cs power_on))).
  { apply (exec_all_invariant (kept true power_on) (fun c => negb (raw_write c))).
    - intros c0 st Hc Hk. apply kept_exec; [exact Hc|exact Hk].
    - exact Hraw.
    - apply kept_power_on. }
  destruct Hs as [_ (_ & _ & H3)].
  assert (Hw : conforming w = true).
  { apply (H3 eq_refl); [|exact Hctrl]. eapply latched_on_bus. exact Hin. }
  pose proof (proj1 (conforming_bits w) Hw) as [Hb Hn].
  split; [exact Hb|]. split; [|exact Hw].
  apply Hn. unfold never_set_bits. cbn [In]. auto.
Qed.

(** *** The shadow registers along a sequence of calls *)

Lemma in_sync_run_FreqSet (st : driver_state) (choice : chipChose) (reg : Z) (f : double) :
  in_sync st -> in_sync (run (Soft.AD9833_FreqSet choice reg f st)).
Proof.
  intros Hs. destruct (Soft.AD9833_FreqSet choice reg f st) as [st'|st'] eqn:E; cbn [run].
  - eapply in_sync_FreqSet; [exact Hs|exact E].
  - unfold Soft.AD9833_FreqSet, AD9833_FreqSet in E.
    destruct (freq_data_raw f); [cbv zeta in E; revert E; split_ifs; discriminate|].
    injection E as <-. exact Hs.
Qed.

Lemma in_sync_run_PhaseSet (st : driver_state) (choice : chipChose) (reg : Z) (ph : double) :
  in_sync st -> in_sync (run (Soft.AD9833_PhaseSet choice reg ph st)).
Proof.
  intros Hs. destruct (Soft.AD9833_PhaseSet choice reg ph st) as [st'|st'] eqn:E; cbn [run].
  - eapply in_sync_PhaseSet; [exact Hs|exact E].
  - unfold Soft.AD9833_PhaseSet, AD9833_PhaseSet in E.
    destruct (phase_data_raw Soft.full_turn ph); [revert E; split_ifs; discriminate|].
    injection E as <-. exact Hs.
Qed.

Lemma in_sync_run_Cmd (cfg : AD9833_InitTypedef) (st : driver_state) :
  in_sync (run (Soft.AD9833_Cmd (Some cfg) st)).
Proof.
  unfold Soft.AD9833_Cmd, AD9833_Cmd_body.
  fold (Soft.AD9833_Init (status cfg) st). cbv zeta.
  pose proof (in_sync_Init (status cfg) st) as H0.
  set (si := Soft.AD9833_Init (status cfg) st) in *. clearbody si.
  assert (Hch : forall choice c (b : bool) sx, in_sync sx ->
            in_sync
              (run (if b then
                      do s' <- AD9833_FreqSet Soft.AD9833_Write choice (freqReg c) (freq c)
                                 (AD9833_SelectPhaseReg Soft.AD9833_Write choice (phaseReg c)
                                    (AD9833_SelectFreqReg Soft.AD9833_Write choice (freqReg c) sx));
                      do s' <- AD9833_PhaseSet Soft.AD9833_Write Soft.full_turn choice
                                 (phaseReg c) (phase c) s';
                      Returns (AD9833_SetWaveformAndStart Soft.AD9833_Write choice (wave c) s')
                    else Returns sx))).
  { intros choice c b sx Hx. destruct b; [|exact Hx].
    assert (H1 : in_sync (Soft.AD9833_SelectPhaseReg choice (phaseReg c)
                            (Soft.AD9833_SelectFreqReg choice (freqReg c) sx))).
    { apply in_sync_control_operations. apply in_sync_control_operations. exact Hx. }
    apply run_bind; [apply in_sync_run_FreqSet; exact H1|]. intros sa Ea.
    pose proof (run_Returns _ _ _ (in_sync_run_FreqSet _ choice (freqReg c) (freq c) H1) Ea) as Ha.
    apply run_bind; [apply in_sync_run_PhaseSet; exact Ha|]. intros sb Eb.
    pose proof (run_Returns _ _ _ (in_sync_run_PhaseSet _ choice (phaseReg c) (phase c) Ha) Eb) as Hb.
    cbn [run]. apply in_sync_control_operations. exact Hb. }
  apply run_bind; [apply Hch; exact H0|]. intros sa Ea.
  apply Hch. exact (run_Returns _ _ _ (Hch CS1 (AD_CS1 cfg) _ si H0) Ea).
Qed.

Lemma in_sync_exec (c : call) (st : driver_state) :
  negb (bypasses_shadow c) = true -> in_sync st -> in_sync (run (exec c st)).
Proof.
  intros Hc Hs.
  destruct c; cbn [exec run]; try discriminate Hc;
    try (apply in_sync_control_operations; exact Hs).
  - apply in_sync_Init.
  - apply in_sync_run_PhaseSet. exact Hs.
  - apply in_sync_run_FreqSet. exact Hs.
  - destruct AD_InitStruct as [cfg|]; [apply in_sync_run_Cmd|exact Hs].
Qed.

(** X12.  Once [AD9833_Init] or [AD9833_Cmd] with a configuration has run,
    from any state, the shadow registers track the chips along every further
    sequence of calls that avoids the transport itself and the synchronised
    start: at the end, or at the point where a call is undefined, both chip
    selects are high and each shadow is the last control word its chip has
    received.  A call of the transport with a control word right after
    [AD9833_Init] breaks this. *)
Theorem shadows_track_chips_along_calls (c0 : call) (cs : list call) (st : driver_state) :
  (exists status, c0 = Call_Init status) \/ (exists cfg, c0 = Call_Cmd (Some cfg)) ->
  forallb (fun c => negb (bypasses_shadow c)) cs = true ->
  in_sync (run (exec_all (c0 :: cs) st)) /\
  (forall status, ~ in_sync (run (exec_all [Call_Init status; Call_Write CS1 0x2000] st))).
Proof.
  intros H0 Hcs.
  assert (Hfirst : in_sync (run (exec c0 st))).
  { destruct H0 as [[status ->]|[cfg ->]]; [apply in_sync_Init|apply in_sync_run_Cmd]. }
  split.
  - cbn [exec_all]. apply run_bind; [exact Hfirst|]. intros st1 E.
    apply (exec_all_invariant in_sync (fun c => negb (bypasses_shadow c))).
    + intros c s Hc Hs. apply in_sync_exec; assumption.
    + exact Hcs.
    + exact (run_Returns _ _ _ Hfirst E).
  - intros status Hbad. cbn [exec_all exec bind run] in Hbad.
    destruct (in_sync_Init status st ChipA) as (Hidle & _ & _).
    assert (Hreset : Z.testbit (s_control_reg_cs1 (Soft.AD9833_Init status st)) RESET_bit = true).
    { destruct st as [s1 s2 b]. unfold Soft.AD9833_Init, AD9833_Init.
      destruct (status =? CS1_SINGLE); [|destruct (status =? CS2_SINGLE);
        [|destruct (status =? CS1_CS2_DOUBLE)]]; reflexivity. }
    set (si := Soft.AD9833_Init status st) in *. clearbody si.
    destruct (Hbad ChipA) as (_ & _ & Hlast).
    change (Soft.AD9833_Write CS1 0x2000 si)
      with (emit [CS1_L; SPI_TX 0x2000; CS1_H] si) in Hlast.
    cbn [emit bus shadow_of s_control_reg_cs1] in Hlast.
    rewrite last_control_word_app in Hlast by exact Hidle.
    change (last_control_word ChipA [CS1_L; SPI_TX 0x2000; CS1_H]) with (Some 0x2000) in Hlast.
    injection Hlast as Hlast.
    rewrite <- Hlast in Hreset. discriminate Hreset.
Qed.

Lemma shadows_track_chips_along_calls_witness :
  in_sync (run (exec_all [Call_Init CS1_CS2_DOUBLE;
                          Call_FreqSet CS1 0 (of_Z 1000);
                          Call_PhaseSet CS1 0 (of_Z (-90));
                          Call_SetWaveformAndStart CS1 SINE_WAVE] power_on)).
Proof.
  exact (proj1 (shadows_track_chips_along_calls (Call_Init CS1_CS2_DOUBLE)
                  [Call_FreqSet CS1 0 (of_Z 1000); Call_PhaseSet CS1 0 (of_Z (-90));
                   Call_SetWaveformAndStart CS1 SINE_WAVE] power_on
                  (or_introl (ex_intro _ CS1_CS2_DOUBLE eq_refl)) eq_refl)).
Defined.

(** ** Exact results of the binary64 operations *)

Lemma Zdigits2_unique (x k : Z) : 0 < x -> 2 ^ (k - 1) <= x < 2 ^ k -> Zdigits2 x = k.
Proof.
  intros Hx [Hlo Hhi]. destruct (Zdigits2_bounds x Hx) as [Dlo Dhi].
  pose proof (Zdigits2_nonneg x) as D0.
  assert (Hk : 0 < k).
  { destruct (Z.lt_ge_cases 0 k) as [|Hle]; [assumption|exfalso].
    destruct (Z.eq_dec k 0) as [->|Hk0]; [cbn in Hhi; lia|].
    rewrite (Z.pow_neg_r 2 k) in Hhi by lia. lia. }
  destruct (Z.lt_trichotomy (Zdigits2 x) k) as [Hlt|[E|Hgt]]; [exfalso|exact E|exfalso].
  - assert (2 ^ Zdigits2 x <= 2 ^ (k - 1)) by (apply Z.pow_le_mono_r; lia). lia.
  - assert (2 ^ k <= 2 ^ (Zdigits2 x - 1)) by (apply Z.pow_le_mono_r; lia). lia.
Qed.

Lemma Zdigits2_shift (a j : Z) : 0 < a -> 0 <= j -> Zdigits2 (a * 2 ^ j) = Zdigits2 a + j.
Proof.
  intros Ha Hj. destruct (Zdigits2_bounds a Ha) as [Dlo Dhi].
  assert (P : 0 < 2 ^ j) by (apply Z.pow_pos_nonneg; lia).
  assert (D1 : 1 <= Zdigits2 a).
  { destruct (Z.lt_ge_cases 0 (Zdigits2 a)) as [|Hle]; [lia|exfalso].
    assert (2 ^ Zdigits2 a <= 2 ^ 0) by (apply Z.pow_le_mono_r; lia). cbn in *. lia. }
  apply Zdigits2_unique; [lia|].
  replace (Zdigits2 a + j - 1) with (Zdigits2 a - 1 + j) by lia.
  rewrite !Z.pow_add_r by lia. split.
  - apply Z.mul_le_mono_nonneg_r; lia.
  - apply Z.mul_lt_mono_pos_r; lia.
Qed.

(** A mantissa that fits the format rounds to itself. *)
Lemma binary_round_aux_exact (s : bool) (m : positive) (e : Z) :
  Zpos m < 2 ^ 53 -> -1074 <= e <= 971 ->
  binary_round_aux prec emax s (Zpos m) e loc_Exact = S754_finite s m e.
Proof.
  intros Hm He.
  assert (Hd : Zdigits2 (Zpos m) <= 53) by (apply Zdigits2_lt; lia).
  assert (Hk : fexp prec emax (Zdigits2 (Zpos m) + e) - e <= 0)
    by (unfold fexp, emin, prec, emax; lia).
  assert (Hshr : shr_fexp prec emax (Zpos m) e loc_Exact =
                 (shr_record_of_loc (Zpos m) loc_Exact, e)).
  { unfold shr_fexp, shr.
    destruct (fexp prec emax (Zdigits2 (Zpos m) + e) - e) as [|p|p]; [reflexivity|lia|reflexivity]. }
  unfold binary_round_aux. rewrite Hshr.
  cbn [shr_record_of_loc shr_m loc_of_shr_record round_nearest_even]. rewrite Hshr.
  cbn [shr_record_of_loc shr_m].
  replace (e <=? emax - prec) with true by (symmetry; apply Z.leb_le; unfold emax, prec; lia).
  reflexivity.
Qed.

(** A positive number of at most 53 bits, scaled by a power of two in the
    normal range, normalises to its 53-bit mantissa. *)
Lemma binary_normalize_exact (s : bool) (r : positive) (e : Z) :
  Zpos r < 2 ^ 53 -> -1021 <= e <= 0 ->
  exists mz,
    binary_round prec emax s r e = S754_finite s mz (Zdigits2 (Zpos r) + e - 53) /\
    Zpos mz = Zpos r * 2 ^ (53 - Zdigits2 (Zpos r)) /\ Zpos mz < 2 ^ 53.
Proof.
  intros Hr He. unfold binary_round.
  pose proof (Zdigits2_lt (Zpos r) 53 ltac:(lia) ltac:(lia)) as Hd.
  destruct (Zdigits2_bounds (Zpos r) ltac:(lia)) as [Dlo Dhi].
  assert (D1 : 1 <= Zdigits2 (Zpos r)).
  { destruct (Z.lt_ge_cases 0 (Zdigits2 (Zpos r))) as [|Hle]; [lia|exfalso].
    assert (2 ^ Zdigits2 (Zpos r) <= 2 ^ 0) by (apply Z.pow_le_mono_r; lia). cbn in *. lia. }
  change (Zpos (digits2_pos r)) with (Zdigits2 (Zpos r)).
  pose proof (shl_align_spec r e (fexp prec emax (Zdigits2 (Zpos r) + e))) as Hal.
  destruct (shl_align r e (fexp prec emax (Zdigits2 (Zpos r) + e))) as [mz ez].
  destruct Hal as [Hez Hmz].
  assert (Hez' : ez = Zdigits2 (Zpos r) + e - 53) by (unfold fexp, emin, prec, emax in Hez; lia).
  replace (e - ez) with (53 - Zdigits2 (Zpos r)) in Hmz by lia.
  assert (Hlt : Zpos mz < 2 ^ 53).
  { rewrite Hmz. replace 53 with (Zdigits2 (Zpos r) + (53 - Zdigits2 (Zpos r))) at 2 by lia.
    rewrite Z.pow_add_r by lia. apply Z.mul_lt_mono_pos_r; [apply Z.pow_pos_nonneg; lia|lia]. }
  exists mz. rewrite binary_round_aux_exact by lia. rewrite Hez'. auto.
Qed.

(** An integer of at most 53 bits converts exactly. *)
Lemma of_Z_exact (h : positive) :
  Zpos h < 2 ^ 53 ->
  exists mz ez,
    of_Z (Zpos h) = S754_finite false mz ez /\ of_Z (Zneg h) = S754_finite true mz ez /\
    ez = Zdigits2 (Zpos h) - 53 /\ -52 <= ez <= 0 /\
    Zpos mz = Zpos h * 2 ^ (- ez) /\ Zpos mz < 2 ^ 53.
Proof.
  intros Hh. unfold of_Z. cbn [binary_normalize].
  pose proof (Zdigits2_lt (Zpos h) 53 ltac:(lia) ltac:(lia)) as Hd.
  destruct (Zdigits2_bounds (Zpos h) ltac:(lia)) as [Dlo Dhi].
  assert (D1 : 1 <= Zdigits2 (Zpos h)).
  { destruct (Z.lt_ge_cases 0 (Zdigits2 (Zpos h))) as [|Hle]; [lia|exfalso].
    assert (2 ^ Zdigits2 (Zpos h) <= 2 ^ 0) by (apply Z.pow_le_mono_r; lia). cbn in *. lia. }
  destruct (binary_normalize_exact false h 0 Hh ltac:(lia)) as (mz & E & Hmz & Hlt).
  destruct (binary_normalize_exact true h 0 Hh ltac:(lia)) as (mz' & E' & Hmz' & _).
  assert (mz' = mz) by lia. subst mz'.
  exists mz, (Zdigits2 (Zpos h) - 53).
  rewrite E, E'. rewrite Z.add_0_r.
  repeat split; try lia.
  rewrite Hmz. f_equal. f_equal. lia.
Qed.

(** The integral part of a rounded result, in both directions: the mantissa
    loses its [n] low bits, goes up by at most one in the last place kept,
    and the integral part is the floor of what is left. *)
Lemma binary_round_aux_trunc_floor (m e : Z) (l : location) :
  0 <= m -> e <= 0 -> Zdigits2 m + e + 1 <= prec ->
  let n := Z.max 0 (fexp prec emax (Zdigits2 m + e) - e) in
  exists m1,
    m / 2 ^ n <= m1 <= m / 2 ^ n + 1 /\
    Ztrunc (binary_round_aux prec emax false m e l) = Some (m1 / 2 ^ (- e - n)).
Proof.
  intros Hm0 He Hd n.
  pose proof (Zdigits2_upper m Hm0) as Hdig.
  pose proof (Zdigits2_nonneg m) as Hd0.
  set (d := Zdigits2 m) in *.
  unfold binary_round_aux.
  destruct (shr_fexp_m m e l Hm0) as [Hm' He'].
  cbv zeta in Hm', He'. fold d in Hm', He'. fold n in Hm', He'.
  destruct (shr_fexp prec emax m e l) as [mrs' e']. cbn [fst snd] in Hm', He'.
  assert (Hn : 0 <= n) by (unfold n; lia).
  assert (Hen : e + n <= 0) by (unfold n, fexp, emin, prec, emax in *; lia).
  assert (P2n : 0 < 2 ^ n) by (apply Z.pow_pos_nonneg; lia).
  set (m' := shr_m mrs') in *.
  assert (Hm'0 : 0 <= m') by (rewrite Hm'; apply Z.div_pos; lia).
  assert (Hm'n : m' * 2 ^ n <= m)
    by (rewrite Hm', Z.mul_comm; apply Z.mul_div_le; lia).
  pose proof (round_nearest_even_bounds m' (loc_of_shr_record mrs')) as Hr.
  set (m1 := round_nearest_even m' (loc_of_shr_record mrs')) in *.
  destruct (shr_fexp_m m1 e' loc_Exact ltac:(lia)) as [Hm'' He''].
  cbv zeta in Hm'', He''.
  set (n2 := Z.max 0 (fexp prec emax (Zdigits2 m1 + e') - e')) in *.
  destruct (shr_fexp prec emax m1 e' loc_Exact) as [mrs'' e'']. cbn [fst snd] in Hm'', He''.
  assert (Hn2 : 0 <= n2) by (unfold n2; lia).
  assert (P2n2 : 0 < 2 ^ n2) by (apply Z.pow_pos_nonneg; lia).
  assert (Hdig1 : Zdigits2 m1 + e' <= prec).
  { destruct (Z.eq_dec m1 0) as [->|Hm1]; [cbn; unfold prec; lia|].
    assert (Hq : m1 <= 2 ^ Z.max 0 (d - n)).
    { destruct (Z.le_gt_cases n d) as [Hnd|Hnd].
      - rewrite Z.max_r by lia.
        assert (m' < 2 ^ (d - n)); [|lia].
        apply Z.mul_lt_mono_pos_r with (p := 2 ^ n); [lia|].
        rewrite <- Z.pow_add_r by lia. replace (d - n + n) with d by lia. lia.
      - rewrite Z.max_l by lia. change (2 ^ 0) with 1.
        assert (m' = 0); [|lia].
        rewrite Hm'. apply Z.div_small. split; [lia|].
        apply Z.lt_le_trans with (2 ^ d); [lia|]. apply Z.pow_le_mono_r; lia. }
    pose proof (Zdigits2_le m1 _ ltac:(lia) Hq ltac:(lia)). unfold prec in *. lia. }
  assert (He''0 : e'' <= 0) by (unfold n2, fexp, emin, prec, emax in *; lia).
  exists m1. split; [rewrite <- Hm'; exact Hr|].
  assert (Hsplit : 2 ^ (- e - n) = 2 ^ n2 * 2 ^ (- e'')).
  { rewrite <- Z.pow_add_r by lia. f_equal. lia. }
  assert (Hnest : m1 / 2 ^ (- e - n) = shr_m mrs'' / 2 ^ (- e'')).
  { rewrite Hsplit, Hm'', Z.div_div by (try apply Z.pow_pos_nonneg; lia). reflexivity. }
  rewrite Hnest.
  destruct (shr_m mrs'') as [|m''|m''] eqn:Em''.
  - rewrite Z.div_0_l by (apply Z.pow_nonzero; lia). reflexivity.
  - replace (e'' <=? emax - prec) with true
      by (symmetry; apply Z.leb_le; unfold emax, prec; lia).
    cbn [Ztrunc cond_Zopp]. destruct (Z.leb_spec 0 e''); [|reflexivity].
    replace e'' with 0 by lia. change (- 0) with 0.
    rewrite Z.pow_0_r, Z.mul_1_r, Z.div_1_r. reflexivity.
  - exfalso. pose proof (Pos2Z.neg_is_neg m'').
    assert (0 <= m1 / 2 ^ n2) by (apply Z.div_pos; lia). lia.
Qed.

(** ** The tuning word of a whole number of hertz *)

(** [freqScale] exceeds [2^28 / 25000000 = 2^22 / 390625] by less than one
    part in [2^56]. *)
Lemma freqScale_excess :
  6044629098073146 * 390625 = 2 ^ 71 + 49402.
Proof. reflexivity. Qed.

Lemma scaled_whole_hertz (h : positive) :
  Zpos h <= 12500000 ->
  Ztrunc (mul (of_Z (Zpos h)) freqScale) = Some (Zpos h * 2 ^ 22 / 390625).
Proof.
  intros Hh.
  destruct (of_Z_exact h ltac:(lia)) as (mx & ex & -> & _ & Hex & Hexr & Hmx & Hlt).
  rewrite freqScale_value. unfold mul, SFmul. cbn [xorb].
  set (F := 6044629098073146%positive).
  assert (Hd24 : Zdigits2 (Zpos h) <= 24) by (apply Zdigits2_lt; lia).
  set (P := 2 ^ (- ex)) in *.
  assert (HP : 0 < P) by (apply Z.pow_pos_nonneg; lia).
  assert (HM : Zpos (mx * F) = Zpos h * P * Zpos F) by (rewrite Pos2Z.inj_mul, Hmx; reflexivity).
  assert (Hprod : Zpos (mx * F) < 2 ^ (77 - ex)).
  { rewrite HM. replace (77 - ex) with (24 + - ex + 53) by lia.
    rewrite !Z.pow_add_r by lia. fold P.
    apply Z.mul_lt_mono_nonneg; [lia| |lia|subst F; lia].
    apply Z.mul_lt_mono_pos_r; lia. }
  assert (HdM : Zdigits2 (Zpos (mx * F)) <= 77 - ex) by (apply Zdigits2_lt; lia).
  destruct (binary_round_aux_trunc_floor (Zpos (mx * F)) (ex + -49) loc_Exact)
    as (m1 & Hm1 & ->); [lia|lia|unfold prec; lia|].
  f_equal.
  set (n := Z.max 0 (fexp prec emax (Zdigits2 (Zpos (mx * F)) + (ex + -49)) - (ex + -49))) in *.
  pose proof (Zdigits2_nonneg (Zpos (mx * F))) as HdM0.
  assert (Hn : 0 <= n <= 24 - ex) by (unfold n, fexp, emin, prec, emax; lia).
  set (N := 2 ^ n) in *.
  assert (HN : 0 < N) by (apply Z.pow_pos_nonneg; lia).
  set (Q := 2 ^ (- (ex + -49) - n)).
  assert (HQ : 0 < Q) by (apply Z.pow_pos_nonneg; lia).
  assert (HQN : Q * N = 2 ^ 49 * P).
  { unfold Q, N, P. rewrite <- !Z.pow_add_r by lia. f_equal. lia. }
  assert (HNP : N <= 2 ^ 24 * P).
  { unfold N, P. rewrite <- Z.pow_add_r by lia. apply Z.pow_le_mono_r; lia. }
  set (K := Zpos h * 2 ^ 22 / 390625).
  assert (HK : K * 390625 <= Zpos h * 2 ^ 22 < (K + 1) * 390625).
  { pose proof (Z.div_mod (Zpos h * 2 ^ 22) 390625 ltac:(lia)) as Hdm.
    pose proof (Z.mod_pos_bound (Zpos h * 2 ^ 22) 390625 ltac:(lia)) as Hmb.
    fold K in Hdm. lia. }
  assert (HK0 : 0 <= K) by (apply Z.div_pos; lia).
  pose proof (Z.mul_div_le (Zpos (mx * F)) N HN) as Hfl.
  set (q := Zpos (mx * F) / N) in *.
  change (2 ^ 22) with 4194304 in HK.
  assert (Hlow : 562949953421312 * K <= Zpos h * Zpos F) by (subst F; lia).
  assert (Hupp : Zpos h * Zpos F + 16777216 < 562949953421312 * (K + 1)) by (subst F; lia).
  change (2 ^ 49) with 562949953421312 in HQN.
  change (2 ^ 24) with 16777216 in HNP.
  apply Z.le_antisymm.
  - (* m1 / Q <= K *)
    apply Z.lt_succ_r. apply Z.div_lt_upper_bound; [exact HQ|].
    apply Z.mul_lt_mono_pos_l with (p := N); [exact HN|].
    apply Z.le_lt_trans with (Zpos (mx * F) + N).
    + destruct Hm1 as [_ Hm1]. 
      apply Z.le_trans with (N * (q + 1)); [apply Z.mul_le_mono_nonneg_l; lia|lia].
    + rewrite HM.
      apply Z.le_lt_trans with (P * (Zpos h * Zpos F + 16777216)); [lia|].
      replace (N * (Q * Z.succ K)) with (P * (562949953421312 * (K + 1)))
        by (rewrite (Z.mul_assoc N Q), (Z.mul_comm N Q), HQN; lia).
      apply Z.mul_lt_mono_pos_l; [exact HP|exact Hupp].
  - (* K <= m1 / Q *)
    apply Z.div_le_lower_bound; [exact HQ|].
    apply Z.le_trans with q; [|lia].
    apply Z.div_le_lower_bound; [exact HN|].
    rewrite HM.
    replace (N * (Q * K)) with (P * (562949953421312 * K))
      by (rewrite (Z.mul_assoc N Q), (Z.mul_comm N Q), HQN; lia).
    replace (Zpos h * P * Zpos F) with (P * (Zpos h * Zpos F)) by lia.
    apply Z.mul_le_mono_nonneg_l; [lia|exact Hlow].
Qed.

Lemma pos_compare_Z (a b : positive) :
  Pos.compare_cont Eq a b = (Zpos a ?= Zpos b).
Proof. reflexivity. Qed.

(** The clamp on whole numbers of hertz. *)
Lemma freq_clamp_whole_hertz (hz : Z) :
  - 2 ^ 53 < hz < 2 ^ 53 ->
  freq_clamp (of_Z hz) = of_Z (Z.min (Z.max hz 0) 12500000).
Proof.
  intros Hr. rewrite freq_clamp_cases.
  destruct hz as [|h|h].
  - reflexivity.
  - destruct (of_Z_exact h ltac:(lia)) as (mx & ex & E & _ & Hex & Hexr & Hmx & Hlt).
    rewrite E. change (ltb (S754_finite false mx ex) zero) with false. cbv iota.
    rewrite freq_max_value. unfold ltb, SFltb, SFcompare. rewrite pos_compare_Z.
    destruct (Z.le_gt_cases (Zpos h) 12500000) as [Hle|Hgt].
    + rewrite Z.max_l, Z.min_l by lia. rewrite <- E.
      assert (Hd : Zdigits2 (Zpos h) <= 24) by (apply Zdigits2_lt; lia).
      destruct (Z.compare_spec (-29) ex) as [He|He|He]; [|lia|reflexivity].
      subst ex. rewrite <- He in Hmx. change (2 ^ (- -29)) with 536870912 in Hmx.
      destruct (Z.compare_spec 6710886400000000 (Zpos mx)) as [Hc|Hc|Hc];
        [reflexivity| |reflexivity].
      exfalso. rewrite Hmx in Hc. lia.
    + rewrite Z.max_l, Z.min_r by lia.
      assert (Hd : 24 <= Zdigits2 (Zpos h)).
      { destruct (Z.le_gt_cases 24 (Zdigits2 (Zpos h))) as [|Hlt']; [assumption|exfalso].
        pose proof (Zdigits2_upper (Zpos h) ltac:(lia)) as Hu.
        assert (2 ^ Zdigits2 (Zpos h) <= 2 ^ 23)
          by (apply Z.pow_le_mono_r; [lia|lia]).
        change (2 ^ 23) with 8388608 in *. lia. }
      rewrite freq_max_value.
      destruct (Z.compare_spec (-29) ex) as [He|He|He]; [|reflexivity|lia].
      subst ex. rewrite <- He in Hmx. change (2 ^ (- -29)) with 536870912 in Hmx.
      destruct (Z.compare_spec 6710886400000000 (Zpos mx)) as [Hc|Hc|Hc];
        [exfalso|reflexivity|exfalso]; rewrite Hmx in Hc; lia.
  - destruct (of_Z_exact h ltac:(lia)) as (mx & ex & _ & E & _).
    rewrite E. reflexivity.
Qed.

Lemma raw_of_trunc (x : double) (z : Z) :
  Ztrunc (mul x freqScale) = Some z -> 0 <= z <= 2 ^ 27 ->
  match to_unsigned 32 (mul x freqScale) with
  | Some raw => Some (Z.land raw 0x0FFFFFFF)
  | None => None
  end = Some z.
Proof.
  intros Hz Hr. unfold to_unsigned. rewrite Hz.
  replace ((0 <=? z) && (z <? 2 ^ 32)) with true.
  - f_equal. apply fragments_of_raw. change (2 ^ 28) with (2 * 2 ^ 27). lia.
  - symmetry. apply andb_true_iff. split; [apply Z.leb_le; lia|apply Z.ltb_lt].
    change (2 ^ 32) with (32 * 2 ^ 27). lia.
Qed.

(** X13.  On a whole number of hertz (any integer a [double] holds exactly)
    the conversion of [AD9833_FreqSet] is exact integer arithmetic: the raw
    tuning word is the floor of [f * 2^28 / 25000000] for the frequency
    clamped to [0, 12500000]; the rounding of [freqScale] and of the product
    never reaches the integral part.  So the word never exceeds the exact
    ratio and grows with the frequency; within the range, one hertz more is
    at least ten units more, so different whole frequencies get different
    words. *)
Theorem whole_hertz_tuning_word (hz : Z) :
  - 2 ^ 53 < hz < 2 ^ 53 ->
  let raw := Z.min (Z.max hz 0) 12500000 * 2 ^ 28 / 25000000 in
  freq_data_raw (of_Z hz) = Some raw /\
  freq_fragments (of_Z hz) = Some (raw mod 2 ^ 14, raw / 2 ^ 14) /\
  0 <= raw <= 2 ^ 27 /\
  (forall hz', hz <= hz' < 2 ^ 53 ->
     raw <= Z.min (Z.max hz' 0) 12500000 * 2 ^ 28 / 25000000) /\
  (forall hz', 0 <= hz < hz' -> hz' <= 12500000 ->
     raw + 10 <= hz' * 2 ^ 28 / 25000000).
Proof.
  intros Hr raw.
  set (c := Z.min (Z.max hz 0) 12500000) in *.
  assert (Hc : 0 <= c <= 12500000) by (unfold c; lia).
  assert (Hraw : raw = c * 2 ^ 22 / 390625).
  { unfold raw. change (2 ^ 28) with (2 ^ 22 * 64). change 25000000 with (390625 * 64).
    rewrite Z.mul_assoc. apply Z.div_mul_cancel_r; lia. }
  assert (Hr0 : 0 <= raw <= 2 ^ 27).
  { rewrite Hraw. split; [apply Z.div_pos; lia|].
    apply Z.div_le_upper_bound; [lia|]. change (2 ^ 22) with 4194304.
    change (2 ^ 27) with 134217728. lia. }
  assert (Hdata : freq_data_raw (of_Z hz) = Some raw).
  { unfold freq_data_raw. rewrite freq_clamp_whole_hertz by exact Hr. fold c.
    apply raw_of_trunc; [|exact Hr0].
    destruct c as [|h|h] eqn:Ec; [reflexivity| |lia].
    rewrite Hraw. apply scaled_whole_hertz. lia. }
  split; [exact Hdata|]. split; [|split; [exact Hr0|split]].
  - unfold freq_fragments. rewrite Hdata.
    destruct (fragments_of_raw raw) as (_ & -> & ->); [|reflexivity].
    change (2 ^ 28) with (2 * 2 ^ 27). lia.
  - intros hz' Hle. unfold raw. apply Z.div_le_mono; [lia|].
    apply Z.mul_le_mono_nonneg_r; [lia|]. fold c. lia.
  - intros hz' Hlt Hmax.
    assert (Ec : c = hz) by (unfold c; lia).
    unfold raw. fold c. rewrite Ec. rewrite <- Z.div_add by lia.
    apply Z.div_le_mono; [lia|]. change (2 ^ 28) with 268435456. lia.
Qed.

Lemma whole_hertz_tuning_word_witness :
  freq_data_raw (of_Z 1) = Some 10 /\
  freq_data_raw (of_Z 390625) = Some (2 ^ 22) /\
  freq_data_raw (of_Z 20000000) = Some (2 ^ 27) /\
  freq_data_raw (of_Z (-50)) = Some 0.
Proof.
  split; [exact (proj1 (whole_hertz_tuning_word 1 ltac:(lia)))|].
  split; [exact (proj1 (whole_hertz_tuning_word 390625 ltac:(lia)))|].
  split; [exact (proj1 (whole_hertz_tuning_word 20000000 ltac:(lia)))|].
  exact (proj1 (whole_hertz_tuning_word (-50) ltac:(lia))).
Defined.

(** ** The phase word of a whole number of degrees *)

(** [fmod] by 360 on whole numbers is the integer remainder. *)
Lemma fmod_whole_degrees (deg : Z) :
  0 <= deg < 2 ^ 53 ->
  fmod (of_Z deg) Soft.full_turn = of_Z (deg mod 360).
Proof.
  intros Hr. destruct deg as [|h|h]; [reflexivity| |lia].
  destruct (of_Z_exact h ltac:(lia)) as (mz & ez & E & _ & Hez & Hezr & Hmz & Hlt).
  rewrite E, full_turn_value. unfold fmod.
  set (e0 := Z.min ez (-44)).
  assert (He0 : -52 <= e0 <= -44) by (unfold e0; lia).
  set (A := 2 ^ (- e0)).
  assert (HA : 0 < A) by (apply Z.pow_pos_nonneg; lia).
  assert (H1 : Zpos mz * 2 ^ (ez - e0) = Zpos h * A).
  { rewrite Hmz, <- Z.mul_assoc, <- Z.pow_add_r by lia. unfold A. do 2 f_equal. lia. }
  assert (H2 : 6333186975989760 * 2 ^ (-44 - e0) = 360 * A).
  { change 6333186975989760 with (360 * 2 ^ 44).
    rewrite <- Z.mul_assoc, <- Z.pow_add_r by lia. unfold A. do 2 f_equal. lia. }
  rewrite H1, H2, Z.mul_mod_distr_r by lia.
  pose proof (Z.mod_pos_bound (Zpos h) 360 ltac:(lia)) as Hrho.
  pose proof (Z.mod_le (Zpos h) 360 ltac:(lia) ltac:(lia)) as Hrle.
  set (rho := Zpos h mod 360) in *.
  destruct rho as [|r|r] eqn:Erho; [reflexivity| |lia].
  assert (Hprod : exists rp, Zpos r * A = Zpos rp).
  { destruct (Zpos r * A) as [|rp|rp] eqn:Ep; [lia|eauto|lia]. }
  destruct Hprod as [rp Hrp]. rewrite Hrp. cbn [cond_Zopp binary_normalize].
  assert (Hrp53 : Zpos rp < 2 ^ 53).
  { rewrite <- Hrp. destruct (Z.le_gt_cases ez (-44)) as [Hc|Hc].
    - assert (HAe : A = 2 ^ (- ez)) by (unfold A, e0; rewrite Z.min_l by lia; reflexivity).
      rewrite <- HAe in Hmz.
      apply Z.le_lt_trans with (Zpos h * A); [apply Z.mul_le_mono_nonneg_r; lia|lia].
    - assert (HAe : A = 17592186044416) by (unfold A, e0; rewrite Z.min_r by lia; reflexivity).
      rewrite HAe. change (2 ^ 53) with 9007199254740992. lia. }
  destruct (binary_normalize_exact false rp e0 Hrp53 ltac:(lia)) as (m1 & -> & Hm1 & _).
  destruct (of_Z_exact r ltac:(lia)) as (m2 & e2 & -> & _ & He2 & _ & Hm2 & _).
  assert (Hdig : Zdigits2 (Zpos rp) = Zdigits2 (Zpos r) + - e0).
  { rewrite <- Hrp. apply Zdigits2_shift; lia. }
  pose proof (Zdigits2_lt (Zpos r) 9 ltac:(change (2 ^ 9) with 512; lia) ltac:(lia)) as Hd9.
  pose proof (Zdigits2_nonneg (Zpos r)) as Hd0.
  pose proof (Zdigits2_lt (Zpos rp) 53 ltac:(lia) ltac:(lia)) as Hd53.
  assert (He : Zdigits2 (Zpos rp) + e0 - 53 = e2) by lia.
  assert (Hm : m1 = m2).
  { apply Pos2Z.inj. rewrite Hm1, Hm2, Hdig, <- Hrp, He2. unfold A.
    rewrite <- Z.mul_assoc, <- Z.pow_add_r by lia. do 2 f_equal. lia. }
  rewrite He, Hm. reflexivity.
Qed.

(** The 360 first-turn cases, by evaluation. *)
Lemma first_turn_words :
  forallb (fun rho =>
             match phase_data_raw Soft.full_turn (of_Z rho) with
             | Some w => w =? rho * 4096 / 360
             | None => false
             end) (map Z.of_nat (seq 0 360)) = true.
Proof. vm_compute. reflexivity. Qed.

Lemma phase_after_fmod (x y : double) :
  fmod x Soft.full_turn = fmod y Soft.full_turn ->
  phase_data_raw Soft.full_turn x = phase_data_raw Soft.full_turn y.
Proof. intros H. unfold phase_data_raw, phase_scaled. rewrite H. reflexivity. Qed.

(** X14.  On a whole number of degrees that is not negative (any such integer
    a [double] holds exactly) the conversion of [AD9833_PhaseSet] is exact
    integer arithmetic: the phase word is the floor of
    [(deg mod 360) * 4096 / 360]; so it is the same for angles a whole
    number of turns apart, a whole number of turns gives the word 0, and
    within the first turn one degree more is at least eleven units more. *)
Theorem whole_degree_phase_word (deg : Z) :
  0 <= deg < 2 ^ 53 ->
  phase_data_raw Soft.full_turn (of_Z deg) = Some (deg mod 360 * 4096 / 360) /\
  (forall k, 0 <= k -> deg + 360 * k < 2 ^ 53 ->
     phase_data_raw Soft.full_turn (of_Z (deg + 360 * k)) =
     phase_data_raw Soft.full_turn (of_Z deg)) /\
  (deg mod 360 = 0 -> phase_data_raw Soft.full_turn (of_Z deg) = Some 0) /\
  (forall deg', deg < deg' < 360 ->
     exists w w', phase_data_raw Soft.full_turn (of_Z deg) = Some w /\
                  phase_data_raw Soft.full_turn (of_Z deg') = Some w' /\ w + 11 <= w').
Proof.
  intros Hr.
  assert (Hred : forall d, 0 <= d < 2 ^ 53 ->
            phase_data_raw Soft.full_turn (of_Z d) =
            phase_data_raw Soft.full_turn (of_Z (d mod 360))).
  { intros d Hd. apply phase_after_fmod.
    pose proof (Z.mod_pos_bound d 360 ltac:(lia)) as Hm.
    rewrite (fmod_whole_degrees d Hd).
    rewrite (fmod_whole_degrees (d mod 360)) by (change (2 ^ 53) with 9007199254740992; lia).
    rewrite Z.mod_mod by lia. reflexivity. }
  assert (Hfirst : forall rho, 0 <= rho < 360 ->
            phase_data_raw Soft.full_turn (of_Z rho) = Some (rho * 4096 / 360)).
  { intros rho Hrho. pose proof first_turn_words as Hall.
    rewrite forallb_forall in Hall. specialize (Hall rho).
    assert (Hin : In rho (map Z.of_nat (seq 0 360))).
    { apply in_map_iff. exists (Z.to_nat rho). split; [lia|]. apply in_seq. lia. }
    specialize (Hall Hin).
    destruct (phase_data_raw Soft.full_turn (of_Z rho)) as [w|]; [|discriminate Hall].
    apply Z.eqb_eq in Hall. rewrite Hall. reflexivity. }
  assert (Hword : phase_data_raw Soft.full_turn (of_Z deg) = Some (deg mod 360 * 4096 / 360)).
  { rewrite Hred by exact Hr. apply Hfirst. apply Z.mod_pos_bound. lia. }
  split; [exact Hword|]. split; [|split].
  - intros k Hk Hlt. rewrite (Hred (deg + 360 * k)) by lia. rewrite (Hred deg) by exact Hr.
    rewrite Z.mul_comm, Z.mod_add by lia. reflexivity.
  - intros H0. rewrite Hword, H0. reflexivity.
  - intros deg' Hlt. exists (deg * 4096 / 360), (deg' * 4096 / 360).
    split; [apply Hfirst; lia|]. split; [apply Hfirst; lia|].
    rewrite <- Z.div_add by lia. apply Z.div_le_mono; lia.
Qed.

Lemma whole_degree_phase_word_witness :
  phase_data_raw Soft.full_turn (of_Z 450) = Some 1024 /\
  phase_data_raw Soft.full_turn (of_Z 359) = Some 4084 /\
  phase_data_raw Soft.full_turn (of_Z 720) = Some 0.
Proof.
  split; [exact (proj1 (whole_degree_phase_word 450 ltac:(lia)))|].
  split; [exact (proj1 (whole_degree_phase_word 359 ltac:(lia)))|].
  exact (proj1 (whole_degree_phase_word 720 ltac:(lia))).
Defined.

(** ** What a frequency load leaves in the chip *)

Lemma payload_under_prefix (cmd payload : Z) :
  cmd = AD9833_CMD_FREQ0REG \/ cmd = AD9833_CMD_FREQ1REG ->
  0 <= payload < 2 ^ 14 ->
  register_address (Z.lor cmd payload) = cmd /\ Z.land (Z.lor cmd payload) 0x3FFF = payload.
Proof.
  intros Hc Hp. unfold register_address.
  assert (Hhi : forall n, 14 <= n -> Z.testbit payload n = false).
  { intros n Hn. destruct (Z.eq_dec payload 0) as [->|Hnz]; [apply Z.bits_0|].
    apply Z.bits_above_log2; [lia|].
    apply Z.lt_le_trans with 14; [|exact Hn]. apply Z.log2_lt_pow2; lia. }
  assert (Hlo : forall n, 0 <= n < 14 -> Z.testbit cmd n = false).
  { intros n Hn. pose proof (bit_positions_complete n ltac:(lia)) as Hc'. cbn in Hc'.
    destruct Hc as [-> | ->];
      repeat (destruct Hc' as [<-|Hc']; [first [reflexivity | lia]|]); contradiction. }
  assert (Hcmd : forall n, 16 <= n -> Z.testbit cmd n = false).
  { intros n Hn. apply testbit_high; [|exact Hn].
    destruct Hc as [-> | ->]; unfold AD9833_CMD_FREQ0REG, AD9833_CMD_FREQ1REG; lia. }
  split; apply Z.bits_inj'; intros n Hn; rewrite Z.land_spec, Z.lor_spec.
  - destruct (Z.lt_ge_cases n 14) as [Hlt|Hge].
    + rewrite Hlo by lia. change 0xC000 with (Z.shiftl 3 14).
      rewrite Z.shiftl_spec_low by lia. rewrite andb_false_r. reflexivity.
    + rewrite Hhi by lia. rewrite orb_false_r.
      destruct (Z.lt_ge_cases n 16) as [Hlt|Hge16].
      * assert (Hn' : n = 14 \/ n = 15) by lia.
        destruct Hn' as [-> | ->]; apply andb_true_r.
      * rewrite Hcmd by lia. reflexivity.
  - change 0x3FFF with (Z.ones 14).
    destruct (Z.lt_ge_cases n 14) as [Hlt|Hge].
    + rewrite Hlo by lia. rewrite Z.ones_spec_low by lia. apply andb_true_r.
    + rewrite Z.ones_spec_high by lia. rewrite Hhi by lia. apply andb_false_r.
Qed.

(** X15.  What [AD9833_FreqSet] leaves in the chip: for a valid chip,
    register 0 or 1 and a frequency that is a number, the chip receives two
    words and no other chip receives any; both carry the address of the
    chosen frequency register, and put together as the chip does in 28-bit
    mode -- low fourteen bits from the first, high fourteen bits from the
    second -- they give back the raw tuning word exactly. *)
Theorem FreqSet_loads_the_tuning_word
    (st : driver_state) (choice : chipChose) (p : shadow_ptr)
    (freq_reg_num : Z) (freq : double) :
  AD9833_GetShadowCtrlReg choice = Some p ->
  freq_reg_num = 0 \/ freq_reg_num = 1 ->
  is_double freq -> is_nan freq = false ->
  exists raw w1 w2,
    freq_data_raw freq = Some raw /\ 0 <= raw <= 2 ^ 27 /\
    Soft.AD9833_FreqSet choice freq_reg_num freq st = Returns (emit (frames p [w1; w2]) st) /\
    latched (chip_of p) (frames p [w1; w2]) = [w1; w2] /\
    latched (chip_of (other p)) (frames p [w1; w2]) = [] /\
    register_address w1 = freq_cmd freq_reg_num /\
    register_address w2 = freq_cmd freq_reg_num /\
    loaded_frequency w1 w2 = raw.
Proof.
  intros Hp Hreg Hd Hn.
  destruct (freq_fragments_defined freq Hd Hn) as (raw & _ & Hr & Hraw & _).
  assert (Hr28 : 0 <= raw < 2 ^ 28) by (change (2 ^ 28) with (2 * 2 ^ 27); lia).
  destruct (fragments_of_raw raw Hr28) as (_ & Hlsb & Hmsb).
  assert (Hlo : 0 <= raw mod 2 ^ 14 < 2 ^ 14) by (apply Z.mod_pos_bound; lia).
  assert (Hhi : 0 <= raw / 2 ^ 14 < 2 ^ 14).
  { split; [apply Z.div_pos; lia|]. apply Z.div_lt_upper_bound; [lia|].
    change (2 ^ 14 * 2 ^ 14) with (2 ^ 28). lia. }
  assert (Hcmd : freq_cmd freq_reg_num = AD9833_CMD_FREQ0REG \/
                 freq_cmd freq_reg_num = AD9833_CMD_FREQ1REG).
  { destruct Hreg as [-> | ->]; [left|right]; reflexivity. }
  destruct (payload_under_prefix _ _ Hcmd Hlo) as [Ha1 Hp1].
  destruct (payload_under_prefix _ _ Hcmd Hhi) as [Ha2 Hp2].
  exists raw, (Z.lor (freq_cmd freq_reg_num) (raw mod 2 ^ 14)),
         (Z.lor (freq_cmd freq_reg_num) (raw / 2 ^ 14)).
  split; [exact Hraw|]. split; [exact Hr|]. split; [|split; [|split; [|split; [|split]]]].
  - unfold Soft.AD9833_FreqSet, AD9833_FreqSet. rewrite Hraw. cbv zeta.
    rewrite Hlsb, Hmsb.
    destruct Hreg as [-> | ->]; cbn [Z.eqb Pos.eqb freq_cmd];
      rewrite !(Soft_Write_single _ _ _ _ Hp), emit_emit; unfold frames; cbn [flat_map];
      rewrite app_nil_r; reflexivity.
  - destruct p; reflexivity.
  - destruct p; reflexivity.
  - exact Ha1.
  - exact Ha2.
  - unfold loaded_frequency. rewrite Hp1, Hp2.
    rewrite (Z.div_mod raw (2 ^ 14)) at 3 by lia. lia.
Qed.

Lemma FreqSet_loads_the_tuning_word_witness :
  exists raw w1 w2,
    freq_data_raw (of_Z 1000000) = Some raw /\ 0 <= raw <= 2 ^ 27 /\
    Soft.AD9833_FreqSet CS2 1 (of_Z 1000000) power_on =
      Returns (emit (frames p_control_reg_cs2 [w1; w2]) power_on) /\
    latched ChipB (frames p_control_reg_cs2 [w1; w2]) = [w1; w2] /\
    latched ChipA (frames p_control_reg_cs2 [w1; w2]) = [] /\
    register_address w1 = 0x8000 /\ register_address w2 = 0x8000 /\
    loaded_frequency w1 w2 = raw.
Proof.
  exact (FreqSet_loads_the_tuning_word power_on CS2 p_control_reg_cs2 1 (of_Z 1000000)
           eq_refl (or_intror eq_refl) eq_refl eq_refl).
Defined.

(** ** The phase conversion for any full turn *)

(** The reduction, division and scaling of [AD9833_PhaseSet] for a full
    turn [MT * 2^(k - 53)] whose mantissa has 53 bits and whose value lies
    below the whole number [C] (360 with [k = 9] for degrees, 7 with [k = 3]
    for [2 * PI]). *)
Section FullTurn.

Variable MT : positive.
Variables k C : Z.
Hypothesis Hk : 1 <= k <= 52.
Hypothesis HC : 0 < C /\ C + 1 <= 2 ^ k.
Hypothesis HMT_digits : Zdigits2 (Zpos MT) = 53.
Hypothesis HMT_below : Zpos MT <= C * 2 ^ (53 - k).
Hypothesis HMT_above : (C + 1) * 2 ^ (53 - k) <= 2 * Zpos MT.

Lemma fmod_below_turn (m : positive) (e : Z) :
  -1074 <= e ->
  fmod (S754_finite false m e) (S754_finite false MT (k - 53)) = S754_zero false \/
  exists m2 e2,
    fmod (S754_finite false m e) (S754_finite false MT (k - 53)) = S754_finite false m2 e2 /\
    -1074 <= e2 <= 0 /\ Zpos m2 < (C + 1) * 2 ^ (- e2).
Proof.
  intros He. unfold fmod.
  set (eT := k - 53) in *.
  set (e0 := Z.min e eT).
  assert (He0 : -1074 <= e0 <= eT) by (unfold e0, eT; lia).
  set (A := 2 ^ (eT - e0)).
  assert (HA : 0 < A) by (apply Z.pow_pos_nonneg; lia).
  assert (Hr : 0 <= (Zpos m * 2 ^ (e - e0)) mod (Zpos MT * A) < Zpos MT * A)
    by (apply Z.mod_pos_bound; lia).
  destruct ((Zpos m * 2 ^ (e - e0)) mod (Zpos MT * A)) as [|mr|mr];
    [left; reflexivity| |lia].
  cbn [cond_Zopp binary_normalize]. unfold binary_round.
  pose proof (shl_align_spec mr e0 (fexp prec emax (Zpos (digits2_pos mr) + e0))) as Hal.
  destruct (shl_align mr e0 (fexp prec emax (Zpos (digits2_pos mr) + e0))) as [mz ez].
  destruct Hal as [Hez Hmz].
  assert (Hez' : -1074 <= ez <= eT) by (unfold fexp, emin, prec, emax in Hez; unfold eT in *; lia).
  set (B := 2 ^ (e0 - ez)) in *.
  assert (HB : 0 < B) by (apply Z.pow_pos_nonneg; lia).
  set (T := 2 ^ (53 - k)) in *.
  assert (HT : 0 < T) by (apply Z.pow_pos_nonneg; lia).
  assert (Hpow : 2 ^ (- ez) = T * (A * B)).
  { unfold A, B, T, eT. rewrite <- !Z.pow_add_r by (unfold eT in *; lia). f_equal. lia. }
  assert (HAB : 0 < A * B) by lia.
  assert (Hmz' : Zpos mz < C * 2 ^ (- ez)).
  { rewrite Hmz, Hpow.
    apply Z.lt_le_trans with (Zpos MT * A * B).
    - apply Z.mul_lt_mono_pos_r; lia.
    - replace (Zpos MT * A * B) with (Zpos MT * (A * B)) by lia.
      replace (C * (T * (A * B))) with (C * T * (A * B)) by lia.
      apply Z.mul_le_mono_nonneg_r; lia. }
  assert (P2e : 0 < 2 ^ (- ez)) by (apply Z.pow_pos_nonneg; lia).
  assert (Hdz : Zdigits2 (Zpos mz) <= k - ez).
  { apply Zdigits2_lt; [|lia]. split; [lia|].
    replace (k - ez) with (k + - ez) by lia. rewrite Z.pow_add_r by lia.
    apply Z.lt_le_trans with (1 := Hmz').
    apply Z.mul_le_mono_nonneg_r; lia. }
  destruct (binary_round_aux_value (Zpos mz) ez loc_Exact)
    as [->|(m2 & e2 & -> & He2 & Hv)];
    [lia|unfold eT in *; lia|unfold prec, eT in *; lia|left; reflexivity|].
  right. exists m2, e2. split; [reflexivity|]. split; [lia|].
  cbv zeta in Hv.
  set (n := Z.max 0 (fexp prec emax (Zdigits2 (Zpos mz) + ez) - ez)) in *.
  pose proof (Zdigits2_nonneg (Zpos mz)) as Hdz0.
  assert (Hn : 0 <= n <= eT - ez) by (unfold n, fexp, emin, prec, emax, eT in *; lia).
  assert (H2n : 2 ^ n <= 2 ^ (- ez)) by (apply Z.pow_le_mono_r; unfold eT in *; lia).
  set (D := 2 ^ (e2 - ez)) in *.
  assert (HD : 0 < D) by (apply Z.pow_pos_nonneg; lia).
  assert (Hsplit : 2 ^ (- ez) = 2 ^ (- e2) * D).
  { unfold D. rewrite <- Z.pow_add_r by lia. f_equal. lia. }
  apply Z.mul_lt_mono_pos_r with (p := D); [exact HD|].
  rewrite <- Z.mul_assoc, <- Hsplit. lia.
Qed.

Lemma div_by_turn_small (m2 : positive) (e2 : Z) :
  -1074 <= e2 <= 0 -> Zpos m2 < (C + 1) * 2 ^ (- e2) ->
  div (S754_finite false m2 e2) (S754_finite false MT (k - 53)) = S754_zero false \/
  exists m3 e3,
    div (S754_finite false m2 e2) (S754_finite false MT (k - 53)) = S754_finite false m3 e3 /\
    e3 <= 0 /\ Zpos m3 < 3 * 2 ^ (- e3).
Proof.
  intros He2 Hm2. unfold div, SFdiv, SFdiv_core_binary. cbn [xorb].
  rewrite HMT_digits.
  set (eT := k - 53) in *.
  assert (P2 : 0 < 2 ^ (- e2)) by (apply Z.pow_pos_nonneg; lia).
  assert (Hd1 : Zdigits2 (Zpos m2) <= k - e2).
  { apply Zdigits2_lt; [|lia]. split; [lia|].
    replace (k - e2) with (k + - e2) by lia. rewrite Z.pow_add_r by lia.
    apply Z.lt_le_trans with (1 := Hm2). apply Z.mul_le_mono_nonneg_r; lia. }
  pose proof (Zdigits2_nonneg (Zpos m2)) as Hd0.
  set (e' := Z.min (fexp prec emax (Zdigits2 (Zpos m2) + e2 - (53 + eT))) (e2 - eT)).
  assert (He' : -1074 <= e' <= -53) by (unfold e', fexp, emin, prec, emax, eT in *; lia).
  set (s := e2 - eT - e').
  assert (Hs : 0 <= s) by (unfold s, e'; lia).
  set (m' := match s with
             | 0 => Zpos m2
             | Zpos _ => Z.shiftl (Zpos m2) s
             | Zneg _ => 0
             end).
  assert (Hm' : m' = Zpos m2 * 2 ^ s).
  { unfold m'. destruct s as [|p|p] eqn:Es; [change (2 ^ 0) with 1; lia| |lia].
    apply Z.shiftl_mul_pow2. lia. }
  pose proof (Z.div_eucl_eq m' (Zpos MT) ltac:(lia)) as Heq.
  pose proof (Z.mod_pos_bound m' (Zpos MT) ltac:(lia)) as Hmod.
  unfold Z.modulo in Hmod.
  destruct (Z.div_eucl m' (Zpos MT)) as [q r].
  assert (P2s : 0 < 2 ^ s) by (apply Z.pow_pos_nonneg; lia).
  assert (P2e : 0 < 2 ^ (- e')) by (apply Z.pow_pos_nonneg; lia).
  assert (Hq0 : 0 <= q).
  { destruct (Z.lt_ge_cases q 0) as [Hneg|]; [exfalso|assumption].
    assert (Zpos MT * q <= Zpos MT * (-1)) by (apply Z.mul_le_mono_nonneg_l; lia). lia. }
  set (T := 2 ^ (53 - k)) in *.
  assert (HT : 0 < T) by (apply Z.pow_pos_nonneg; lia).
  assert (Hpow : 2 ^ (- e2) * 2 ^ s = T * 2 ^ (- e')).
  { unfold T. rewrite <- !Z.pow_add_r by (unfold eT in *; lia).
    f_equal. unfold s, eT. lia. }
  assert (Hq : q < 2 * 2 ^ (- e')).
  { assert (H1 : Zpos MT * q <= Zpos m2 * 2 ^ s) by lia.
    assert (H2 : Zpos m2 * 2 ^ s < (C + 1) * 2 ^ (- e2) * 2 ^ s)
      by (apply Z.mul_lt_mono_pos_r; lia).
    assert (H3 : (C + 1) * 2 ^ (- e2) * 2 ^ s = (C + 1) * T * 2 ^ (- e'))
      by (rewrite <- Z.mul_assoc, Hpow; lia).
    assert (H4 : (C + 1) * T * 2 ^ (- e') <= 2 * Zpos MT * 2 ^ (- e'))
      by (apply Z.mul_le_mono_nonneg_r; lia).
    apply Z.mul_lt_mono_pos_l with (p := Zpos MT); [lia|]. lia. }
  assert (Hdq : Zdigits2 q <= 1 - e').
  { apply Zdigits2_lt; [|lia]. split; [lia|].
    replace (1 - e') with (1 + - e') by lia. rewrite Z.pow_add_r by lia.
    change (2 ^ 1) with 2. lia. }
  destruct (binary_round_aux_value q e' (new_location (Zpos MT) r))
    as [->|(m3 & e3 & -> & He3 & Hv)]; [lia|lia|unfold prec; lia|left; reflexivity|].
  right. exists m3, e3. split; [reflexivity|]. split; [lia|].
  cbv zeta in Hv.
  set (n := Z.max 0 (fexp prec emax (Zdigits2 q + e') - e')) in *.
  pose proof (Zdigits2_nonneg q) as Hdq0.
  assert (Hn : 0 <= n <= - e') by (unfold n, fexp, emin, prec, emax; lia).
  assert (H2n : 2 ^ n <= 2 ^ (- e')) by (apply Z.pow_le_mono_r; lia).
  set (D := 2 ^ (e3 - e')) in *.
  assert (HD : 0 < D) by (apply Z.pow_pos_nonneg; lia).
  assert (Hsplit : 2 ^ (- e') = 2 ^ (- e3) * D).
  { unfold D. rewrite <- Z.pow_add_r by lia. f_equal. lia. }
  apply Z.mul_lt_mono_pos_r with (p := D); [exact HD|].
  rewrite <- Z.mul_assoc, <- Hsplit. lia.
Qed.

(** Every angle that is zero or a positive finite number has a defined
    12-bit phase word. *)
Lemma phase_defined_for_turn (ph : double) :
  is_double ph ->
  (exists s, ph = S754_zero s) \/ (exists m e, ph = S754_finite false m e) ->
  exists w, phase_data_raw (S754_finite false MT (k - 53)) ph = Some w /\ 0 <= w < 2 ^ 12.
Proof.
  intros Hv Hnn.
  assert (Hdef : exists z, Ztrunc (phase_scaled (S754_finite false MT (k - 53)) ph) = Some z /\
                           0 <= z < 2 ^ 16).
  { unfold phase_scaled. destruct Hnn as [[s ->]|(m & e & ->)].
    - exists 0. destruct s; cbn; (split; [reflexivity|lia]).
    - apply bounded_double in Hv.
      destruct (fmod_below_turn m e ltac:(lia)) as [->|(m2 & e2 & -> & He2 & Hm2)].
      + exists 0. cbn. split; [reflexivity|lia].
      + destruct (div_by_turn_small m2 e2 He2 Hm2) as [->|(m3 & e3 & -> & He3 & Hm3)].
        * exists 0. cbn. split; [reflexivity|lia].
        * apply scaled_by_4096; assumption. }
  destruct Hdef as (z & Hz & Hz0).
  assert (E : phase_data_raw (S754_finite false MT (k - 53)) ph = Some (u16 (Z.land z 0x0FFF))).
  { unfold phase_data_raw, to_unsigned. rewrite Hz.
    replace ((0 <=? z) && (z <? 2 ^ 16)) with true; [reflexivity|].
    symmetry. apply andb_true_iff. split; [apply Z.leb_le|apply Z.ltb_lt]; lia. }
  exists (u16 (Z.land z 0x0FFF)). split; [exact E|]. exact (phase_raw_range _ _ _ E).
Qed.

End FullTurn.

Lemma HAL_full_turn_value : HAL.full_turn = S754_finite false 0x1921FB54442D18 (3 - 53).
Proof. vm_compute. reflexivity. Qed.

Lemma radians_defined (ph : double) :
  is_double ph ->
  (exists s, ph = S754_zero s) \/ (exists m e, ph = S754_finite false m e) ->
  exists w, phase_data_raw HAL.full_turn ph = Some w /\ 0 <= w < 2 ^ 12.
Proof.
  rewrite HAL_full_turn_value.
  apply (phase_defined_for_turn 0x1921FB54442D18 3 7); try (vm_compute; reflexivity); lia.
Qed.

(** X16.  [AD9833_PhaseSet] of [AD9833_HAL.c], whose angle is in radians
    and whose full turn is [2.0 * PI]: on a valid chip, register 0 or 1, and
    an angle that is zero or a positive finite number, the conversion is
    defined and exactly one frame goes out to that chip, the register's
    prefix on top of a 12-bit phase value; the full turn itself wraps to the
    phase word 0. *)
Theorem HAL_PhaseSet_radians_one_word
    (st : driver_state) (choice : chipChose) (p : shadow_ptr)
    (phase_reg_num : Z) (phase : double) :
  AD9833_GetShadowCtrlReg choice = Some p ->
  phase_reg_num = 0 \/ phase_reg_num = 1 ->
  is_double phase ->
  (exists s, phase = S754_zero s) \/ (exists m e, phase = S754_finite false m e) ->
  exists w,
    phase_data_raw HAL.full_turn phase = Some w /\ 0 <= w < 2 ^ 12 /\
    HAL.AD9833_PhaseSet choice phase_reg_num phase st =
      Returns (emit (single_frame p (Z.lor (phase_cmd phase_reg_num) w)) st) /\
    latched (chip_of p) (single_frame p (Z.lor (phase_cmd phase_reg_num) w)) =
      [0xC000 + 0x2000 * phase_reg_num + w] /\
    phase_data_raw HAL.full_turn HAL.full_turn = Some 0.
Proof.
  intros Hp Hreg Hd Hpos.
  destruct (radians_defined phase Hd Hpos) as (w & Hw & Hr).
  exists w. split; [exact Hw|]. split; [exact Hr|].
  assert (Hsum : Z.lor (phase_cmd phase_reg_num) w = 0xC000 + 0x2000 * phase_reg_num + w).
  { assert (Hlow : Z.land w 0x0FFF = w)
      by (change 0x0FFF with (Z.ones 12); rewrite Z.land_ones by lia;
          apply Z.mod_small; lia).
    rewrite <- Hlow.
    destruct Hreg as [-> | ->]; cbn [phase_cmd Z.eqb Pos.eqb];
      unfold AD9833_CMD_PHASE0REG, AD9833_CMD_PHASE1REG;
      rewrite <- Z.lxor_lor, <- Z.add_nocarry_lxor; try reflexivity;
      apply Z.bits_inj'; intros n Hn; rewrite !Z.land_spec, Z.bits_0;
      change 0x0FFF with (Z.ones 12);
      (destruct (Z.lt_ge_cases n 12);
       [rewrite Z.ones_spec_low by lia | rewrite Z.ones_spec_high by lia];
       [|rewrite !andb_false_r; reflexivity]);
      pose proof (bit_positions_complete n ltac:(lia)) as Hc'; cbn in Hc';
      repeat (destruct Hc' as [<-|Hc']; [first [reflexivity | lia]|]); contradiction. }
  assert (Hw16 : 0 <= Z.lor (phase_cmd phase_reg_num) w < 2 ^ 16).
  { rewrite Hsum. destruct Hreg as [-> | ->]; lia. }
  split; [|split].
  - unfold HAL.AD9833_PhaseSet, AD9833_PhaseSet. rewrite Hw.
    destruct Hreg as [-> | ->]; cbn [Z.eqb Pos.eqb phase_cmd] in *;
      rewrite (HAL_Write_single _ _ _ _ Hp Hw16); reflexivity.
  - rewrite <- Hsum.
    rewrite <- (app_nil_r (single_frame p _)).
    change (single_frame p (Z.lor (phase_cmd phase_reg_num) w) ++ [])
      with (frames p [Z.lor (phase_cmd phase_reg_num) w]).
    rewrite <- (app_nil_r (frames p _)).
    unfold latched. rewrite latched_frames. destruct p; reflexivity.
  - vm_compute. reflexivity.
Qed.

Lemma HAL_PhaseSet_radians_one_word_witness :
  exists w,
    phase_data_raw HAL.full_turn PI = Some w /\ 0 <= w < 2 ^ 12 /\
    HAL.AD9833_PhaseSet CS1 1 PI power_on =
      Returns (emit (single_frame p_control_reg_cs1 (Z.lor (phase_cmd 1) w)) power_on) /\
    latched (chip_of p_control_reg_cs1) (single_frame p_control_reg_cs1 (Z.lor (phase_cmd 1) w)) =
      [0xC000 + 0x2000 * 1 + w] /\
    phase_data_raw HAL.full_turn HAL.full_turn = Some 0.
Proof.
  apply (HAL_PhaseSet_radians_one_word power_on CS1 p_control_reg_cs1 1 PI).
  - reflexivity.
  - right. reflexivity.
  - vm_compute. intuition congruence.
  - right. eexists. eexists. reflexivity.
Defined.
